(** * FriColl: the interval reconciliation engine of [src/index.tsx]

    A shallow embedding of the time-keeping logic of the application
    (time values, durations, splitting of intervals that cross midnight,
    merging of split pairs, the entry store and its handlers) together with
    the properties established for it.

    Conventions of the embedding.
    - A JavaScript [number] that the code computes with is an integer or
      [NaN]: type [number].  The quotients [x / k] of the source occur only
      under [Math.floor] and [Math.round]; they are taken in [Q].
    - [Number(s)] reads unsigned decimal integer literals (and the empty
      string, which JavaScript reads as 0).  The other literal forms that
      JavaScript accepts (surrounding blanks, sign, fraction, exponent,
      radix prefix, [Infinity]) are read as [NaN]; none of them is produced
      by the application, whose times are ["HH:MM"] strings.
    - Entries and pairs are records, and the collections are lists of
      them; where it matters which object is handed back and whether an
      object is written to (the splitter), the function is also given over
      a store of objects (module [Store]).  The module-level counter
      [NEXT_ID] is threaded explicitly (monad [Gen]); the React state of
      [App] is the record [App], and every handler is a function
      [App -> App].
    - What the host decides is a parameter of the functions that use it:
      the clock, the time zone adjustment in force at each instant, and
      the reading of date strings outside the date-time format. *)

From Stdlib Require Import ZArith QArith Qround List String Ascii Bool Lia.
From Stdlib Require Import DecimalString Permutation Sorted.
Import ListNotations.

Open Scope string_scope.
Open Scope Z_scope.

(* ================================================================== *)
(** * JavaScript primitives used by the source *)

Module JS.

(** Integer-valued numbers and [NaN]. *)
Inductive number : Type :=
| NaN : number
| Num : Z -> number.

Definition add (a b : number) : number :=
  match a, b with
  | Num x, Num y => Num (x + y)
  | _, _ => NaN
  end.

Definition sub (a b : number) : number :=
  match a, b with
  | Num x, Num y => Num (x - y)
  | _, _ => NaN
  end.

Definition mul (a b : number) : number :=
  match a, b with
  | Num x, Num y => Num (x * y)
  | _, _ => NaN
  end.

(** [a % b]: the remainder has the sign of the dividend; [x % 0] is NaN. *)
Definition rem (a b : number) : number :=
  match a, b with
  | Num x, Num y => if y =? 0 then NaN else Num (Z.rem x y)
  | _, _ => NaN
  end.

Definition number_eqb (a b : number) : bool :=
  match a, b with
  | NaN, NaN => true
  | Num x, Num y => x =? y
  | _, _ => false
  end.

(** Comparisons: every comparison with [NaN] is false. *)
Definition geb (a b : number) : bool :=
  match a, b with
  | Num x, Num y => y <=? x
  | _, _ => false
  end.

Definition leb (a b : number) : bool :=
  match a, b with
  | Num x, Num y => x <=? y
  | _, _ => false
  end.

Definition Math_max (a b : number) : number :=
  match a, b with
  | Num x, Num y => Num (Z.max x y)
  | _, _ => NaN
  end.

Definition Math_min (a b : number) : number :=
  match a, b with
  | Num x, Num y => Num (Z.min x y)
  | _, _ => NaN
  end.

(** [Math.round] on a rational: the nearest integer, a tie going up. *)
Definition Math_round (q : Q) : Z := Qfloor (q + (1 # 2)).

(** [Math.floor(a / k)] and [Math.round(a / k)] for a positive literal [k]. *)
Definition floor_div (a : number) (k : positive) : number :=
  match a with
  | Num x => Num (Qfloor (inject_Z x / inject_Z (Zpos k)))
  | NaN => NaN
  end.

Definition round_div (a : number) (k : positive) : number :=
  match a with
  | Num x => Num (Math_round (inject_Z x / inject_Z (Zpos k)))
  | NaN => NaN
  end.

(** [String(n)]. *)
Definition String_ (n : number) : string :=
  match n with
  | NaN => "NaN"
  | Num z => NilZero.string_of_int (Z.to_int z)
  end.

(** [Number(s)] (see the conventions at the head of the file). *)
Definition digit_of (a : ascii) : option Z :=
  let n := N_of_ascii a in
  if ((48 <=? n) && (n <=? 57))%N then Some (Z.of_N n - 48) else None.

Fixpoint digits_value (acc : Z) (s : string) : option Z :=
  match s with
  | EmptyString => Some acc
  | String a s' =>
      match digit_of a with
      | Some d => digits_value (10 * acc + d) s'
      | None => None
      end
  end.

Definition Number_ (s : string) : number :=
  match digits_value 0 s with
  | Some z => Num z
  | None => NaN
  end.

(** [s.split(c)] for a one-character separator: never the empty array. *)
Fixpoint split (c : ascii) (s : string) : list string :=
  match s with
  | EmptyString => [EmptyString]
  | String a s' =>
      if Ascii.eqb a c then EmptyString :: split c s'
      else match split c s' with
           | w :: ws => String a w :: ws
           | [] => [String a EmptyString]
           end
  end.

(** [s.padStart(target, fill)]: [fill] repeated, cut to the missing length. *)
Fixpoint cycle (n : nat) (cur fill : string) : string :=
  match n with
  | O => EmptyString
  | S n' =>
      match cur with
      | String a r => String a (cycle n' r fill)
      | EmptyString =>
          match fill with
          | String a r => String a (cycle n' r fill)
          | EmptyString => EmptyString
          end
      end
  end.

Definition padStart (target : nat) (fill : string) (s : string) : string :=
  if (target <=? String.length s)%nat then s
  else cycle (target - String.length s) fill fill ++ s.

(** Truthiness of an optional string ([undefined] and [""] are falsy) and
    of an optional number ([null] and [0] are falsy). *)
Definition truthy (o : option string) : bool :=
  match o with
  | None => false
  | Some s => negb (String.eqb s "")
  end.

Definition truthy_id (o : option Z) : bool :=
  match o with
  | None => false
  | Some z => negb (z =? 0)
  end.

End JS.

Import JS.

(* ================================================================== *)
(** * Types *)

Record Eintrag : Type := mkEintrag {
  id : Z;
  date : string;
  start : string;
  ende : option string
}.

Record SplitEntry : Type := mkSplit {
  split_id : string;
  firstId : Z;
  secondId : Z
}.

Inductive EditMode : Type := none | mode_start | mode_ende.

Record OpenEntryInfo : Type := mkOpenInfo {
  hasOpen : bool;
  open_id : option Z
}.

(* ================================================================== *)
(** * The id counter *)

(** [let NEXT_ID = Date.now()] is module state: a computation that may call
    [generateId] maps the counter before to a result and the counter after. *)
Definition Gen (A : Type) : Type := Z -> A * Z.

Definition ret {A : Type} (a : A) : Gen A := fun n => (a, n).

Definition bind {A B : Type} (m : Gen A) (k : A -> Gen B) : Gen B :=
  fun n => let (a, n') := m n in k a n'.

Notation "x <- m ;; k" := (bind m (fun x => k))
  (at level 61, m at next level, right associativity).

Definition generateId : Gen Z := fun n => (n + 1, n + 1).

(* ================================================================== *)
(** * Utility functions *)

Definition timeToMinutes (time : string) : number :=
  match map Number_ (JS.split ":" time) with
  | h :: m :: _ => add (mul h (Num 60)) m
  | _ => NaN
  end.

Definition pad2 (n : number) : string := padStart 2 "0" (String_ n).

Definition minutesToTime (totalIn : number) : string :=
  let total := Math_max (Num 0) (Math_min totalIn (Num (23 * 60 + 55))) in
  let rounded := mul (round_div total 5) (Num 5) in
  let h := floor_div rounded 60 in
  let m := rem rounded (Num 60) in
  pad2 h ++ ":" ++ pad2 m.

Definition getDurationMinutes (start : string) (ende : option string)
    : number :=
  match ende with
  | None => Num 0
  | Some e =>
      if negb (truthy ende) then Num 0
      else
        let startMin := timeToMinutes start in
        let endMin := timeToMinutes e in
        let endMin := if String.eqb e "24:00" then Num (24 * 60)
                      else endMin in
        Math_max (Num 0) (sub endMin startMin)
  end.

(** The end of an interval in minutes since midnight, the sentinel ["24:00"]
    standing for 1440: the quantity that the source computes in place
    wherever it compares or subtracts an end. *)
Definition endMinutes (e : string) : number :=
  if String.eqb e "24:00" then Num (24 * 60) else timeToMinutes e.

Definition getDuration (start : string) (ende : option string) : string :=
  if negb (truthy ende) then "-"
  else
    let diffMinutes := getDurationMinutes start ende in
    if leb diffMinutes (Num 0) then "-"
    else
      let hours := floor_div diffMinutes 60 in
      let minutes := rem diffMinutes (Num 60) in
      pad2 hours ++ ":" ++ pad2 minutes.

Definition getTotalDurationForEntries (entries : list Eintrag) : string :=
  let totalMinutes :=
    fold_left (fun sum e => add sum (getDurationMinutes (start e) (ende e)))
              (filter (fun e => truthy (ende e)) entries) (Num 0) in
  let hours := floor_div totalMinutes 60 in
  let minutes := rem totalMinutes (Num 60) in
  String_ hours ++ "h " ++ String_ minutes ++ "m".

Definition getOpenEntryInfo (eintraege : list Eintrag) : OpenEntryInfo :=
  let openEntries := filter (fun e => negb (truthy (ende e))) eintraege in
  match openEntries with
  | [] => {| hasOpen := false; open_id := None |}
  | e0 :: _ =>
      let lastOpen := last openEntries e0 in
      {| hasOpen := true; open_id := Some (id lastOpen) |}
  end.

(* ================================================================== *)
(** * The host's [Date]

    The part of the ECMAScript [Date] object that the application uses.  A
    time value is a number of milliseconds since the epoch in UTC, [None]
    being the invalid date.  What the host decides is a parameter, the
    record [Host]: the local time zone adjustment, which depends on the
    instant (daylight saving time), and the reading of the strings that are
    outside the date-time format. *)

Module HostDate.

Definition msPerDay : Z := 86400000.
Definition msPerMinute : Z := 60000.

Definition isLeap (y : Z) : bool :=
  (y mod 4 =? 0) && (negb (y mod 100 =? 0) || (y mod 400 =? 0)).

Definition daysInMonth (y m : Z) : Z :=
  if m =? 2 then (if isLeap y then 29 else 28)
  else if (m =? 4) || (m =? 6) || (m =? 9) || (m =? 11) then 30
  else 31.

(** Day number (days since 1970-01-01) of the civil date [y]-[m]-[d] of the
    proleptic Gregorian calendar, [m] counted from 1, and its inverse. *)
Definition days_from_civil (y m d : Z) : Z :=
  let y' := if m <=? 2 then y - 1 else y in
  let era := y' / 400 in
  let yoe := y' - era * 400 in
  let mp := (m + 9) mod 12 in
  let doy := (153 * mp + 2) / 5 + d - 1 in
  let doe := yoe * 365 + yoe / 4 - yoe / 100 + doy in
  era * 146097 + doe - 719468.

Definition civil_from_days (z : Z) : Z * Z * Z :=
  let z' := z + 719468 in
  let era := z' / 146097 in
  let doe := z' - era * 146097 in
  let yoe := (doe - doe / 1460 + doe / 36524 - doe / 146096) / 365 in
  let doy := doe - (365 * yoe + yoe / 4 - yoe / 100) in
  let mp := (5 * doy + 2) / 153 in
  let d := doy - (153 * mp + 2) / 5 + 1 in
  let m := if mp <? 10 then mp + 3 else mp - 9 in
  let y := yoe + era * 400 + (if m <=? 2 then 1 else 0) in
  (y, m, d).

(** The abstract operations of the ECMAScript specification. *)
Definition Day (t : Z) : Z := t / msPerDay.
Definition TimeWithinDay (t : Z) : Z := t mod msPerDay.
Definition YearFromTime (t : Z) : Z := fst (fst (civil_from_days (Day t))).
Definition MonthFromTime (t : Z) : Z := snd (fst (civil_from_days (Day t))) - 1.
Definition DateFromTime (t : Z) : Z := snd (civil_from_days (Day t)).

Definition MakeDay (year month dt : Z) : Z :=
  days_from_civil (year + month / 12) (month mod 12 + 1) 1 + dt - 1.

Definition MakeDate (day time : Z) : Z := day * msPerDay + time.

Definition TimeClip (t : Z) : option Z :=
  if Z.abs t <=? 8640000000000000 then Some t else None.

(** [len] decimal digits of [s] from position [pos], and the test that [s]
    has the character [c] at position [pos]. *)
Definition field (s : string) (pos len : nat) : option Z :=
  let f := substring pos len s in
  if (String.length f =? len)%nat then digits_value 0 f else None.

Definition sep (s : string) (pos : nat) (c : ascii) : bool :=
  match get pos s with
  | Some a => Ascii.eqb a c
  | None => false
  end.

(** The host.  [tzaUTC t] is the offset of local time from UTC, in
    milliseconds, in force at the instant [t] (the specification's
    [LocalTZA(t, true)]).  [tzaLocal t] is the offset by which the local
    time [t] is read ([LocalTZA(t, false)]): for a local time that a
    transition repeats or skips, the offset in force before the
    transition.  [parseOther s] is the time value that the host's parser
    gives to a string that [isoLocal] below does not read: a string outside
    the date-time format, or in the format with an element out of range,
    which the specification leaves to the host. *)
Record Host : Type := mkHost {
  tzaUTC : Z -> Z;
  tzaLocal : Z -> Z;
  parseOther : string -> option Z
}.

(** The time of the day [THH:mm:ss] that ends [s], from position [pos], in
    milliseconds. *)
Definition clockAt (s : string) (pos : nat) : option Z :=
  if negb ((String.length s =? pos + 9)%nat && sep s pos "T"
           && sep s (pos + 3) ":" && sep s (pos + 6) ":") then None
  else
    match field s (pos + 1) 2, field s (pos + 4) 2, field s (pos + 7) 2 with
    | Some h, Some mi, Some sec =>
        if (h <=? 23) && (mi <=? 59) && (sec <=? 59)
        then Some (h * 3600000 + mi * 60000 + sec * 1000) else None
    | _, _, _ => None
    end.

(** The local time that a string of the date-time format names: a date
    [YYYY-MM-DD], [YYYY-MM] or [YYYY] of the calendar followed by a time
    [THH:mm:ss], which carries no offset and is therefore a local time.
    The source builds such a string as [dateStr + 'T00:00:00']. *)
Definition isoLocal (s : string) : option Z :=
  match clockAt s 10, clockAt s 7, clockAt s 4 with
  | Some time, _, _ =>
      if sep s 4 "-" && sep s 7 "-" then
        match field s 0 4, field s 5 2, field s 8 2 with
        | Some y, Some mo, Some d =>
            if (1 <=? mo) && (mo <=? 12) && (1 <=? d)
               && (d <=? daysInMonth y mo)
            then Some (MakeDate (MakeDay y (mo - 1) d) time) else None
        | _, _, _ => None
        end
      else None
  | None, Some time, _ =>
      if sep s 4 "-" then
        match field s 0 4, field s 5 2 with
        | Some y, Some mo =>
            if (1 <=? mo) && (mo <=? 12)
            then Some (MakeDate (MakeDay y (mo - 1) 1) time) else None
        | _, _ => None
        end
      else None
  | None, None, Some time =>
      match field s 0 4 with
      | Some y => Some (MakeDate (MakeDay y 0 1) time)
      | None => None
      end
  | None, None, None => None
  end.

Section Zone.

Variable host : Host.

Definition LocalTime (t : Z) : Z := t + tzaUTC host t.
Definition UTC (t : Z) : Z := t - tzaLocal host t.

(** [new Date(s)]. *)
Definition newDate (s : string) : option Z :=
  match isoLocal s with
  | Some t => TimeClip (UTC t)
  | None => parseOther host s
  end.

Definition getDate (t : option Z) : option Z :=
  match t with
  | Some t => Some (DateFromTime (LocalTime t))
  | None => None
  end.

(** [date.setDate(dt)]: the new time value. *)
Definition setDate (t : option Z) (dt : option Z) : option Z :=
  match t, dt with
  | Some t, Some dt =>
      let lt := LocalTime t in
      TimeClip (UTC (MakeDate (MakeDay (YearFromTime lt) (MonthFromTime lt) dt)
                              (TimeWithinDay lt)))
  | _, _ => None
  end.

End Zone.

Definition padN (n : nat) (z : Z) : string := padStart n "0" (String_ (Num z)).

Definition isoYear (y : Z) : string :=
  if (0 <=? y) && (y <=? 9999) then padN 4 y
  else (if y <? 0 then "-" else "+") ++ padN 6 (Z.abs y).

(** [date.toISOString()]; [None] is the [RangeError] thrown on the invalid
    date. *)
Definition toISOString (t : option Z) : option string :=
  match t with
  | None => None
  | Some t =>
      let w := TimeWithinDay t in
      Some (isoYear (YearFromTime t) ++ "-" ++ padN 2 (MonthFromTime t + 1)
            ++ "-" ++ padN 2 (DateFromTime t)
            ++ "T" ++ padN 2 (w / 3600000) ++ ":" ++ padN 2 (w / 60000 mod 60)
            ++ ":" ++ padN 2 (w / 1000 mod 60) ++ "." ++ padN 3 (w mod 1000)
            ++ "Z")
  end.

End HostDate.

Import HostDate.

(** [getAdjustedDateForEntry]; [None] stands for the exception that
    [toISOString] throws on the invalid date. *)
Definition getAdjustedDateForEntry (host : Host) (entry : Eintrag)
    (splits : list SplitEntry) : option string :=
  match find (fun s => (firstId s =? id entry) || (secondId s =? id entry))
             splits with
  | None => Some (date entry)
  | Some split =>
      if secondId split =? id entry then
        let d0 := newDate host (date entry ++ "T00:00:00") in
        let d1 := setDate host d0
                    (option_map (fun d => d + 2) (getDate host d0)) in
        option_map (fun iso => hd "" (JS.split "T" iso)) (toISOString d1)
      else Some (date entry)
  end.

(* ================================================================== *)
(** * Business logic: splitting and merging *)

Record SplitResult : Type := mkResult {
  entries : list Eintrag;
  split : option SplitEntry
}.

Definition createEntriesWithOptionalSplit (base : Eintrag) : Gen SplitResult :=
  match ende base with
  | None => ret {| entries := [base]; split := None |}
  | Some base_ende =>
      if negb (truthy (ende base)) then
        ret {| entries := [base]; split := None |}
      else
        let startMin := timeToMinutes (start base) in
        let endMin := timeToMinutes base_ende in
        let endMin := if String.eqb base_ende "24:00" then Num (24 * 60)
                      else endMin in
        if geb endMin startMin && leb endMin (Num (24 * 60)) then
          ret {| entries := [base]; split := None |}
        else
          id1 <- generateId ;;
          id2 <- generateId ;;
          let nextDate := date base in
          let first := {| id := id1; date := date base; start := start base;
                          ende := Some "24:00" |} in
          let secondEndTime := base_ende in
          let second := {| id := id2; date := nextDate; start := "00:00";
                           ende := Some secondEndTime |} in
          let split :=
            {| split_id := String_ (Num id1) ++ "-" ++ String_ (Num id2);
               firstId := id1; secondId := id2 |} in
          ret {| entries := [first; second]; split := Some split |}
  end.

Definition buildBaseFromSplit (first second : Eintrag) : Gen Eintrag :=
  i <- generateId ;;
  ret {| id := i; date := date first; start := start first;
         ende := ende second |}.

(* ================================================================== *)
(** * The splitter over a store of objects

    In the source an entry is an object, held by reference.  To state that
    the splitter hands back the very object it was given, and that it writes
    to no object, the function is given a second time over a store, in which
    the objects are numbered in the order of their allocation. *)

Module Store.

Definition ref : Type := nat.
Definition store : Type := list Eintrag.

Definition read (h : store) (r : ref) : option Eintrag := nth_error h r.

Definition alloc (e : Eintrag) (h : store) : ref * store :=
  (List.length h, (h ++ [e])%list).

Record RefResult : Type := mkRefResult {
  entryRefs : list ref;
  splitOf : option SplitEntry
}.

(** [None] when [base] is not an object of the store. *)
Definition createEntriesWithOptionalSplit (base : ref) (h : store) (n : Z)
    : option (RefResult * store * Z) :=
  match read h base with
  | None => None
  | Some b =>
      match ende b with
      | None => Some ({| entryRefs := [base]; splitOf := None |}, h, n)
      | Some base_ende =>
          if negb (truthy (ende b)) then
            Some ({| entryRefs := [base]; splitOf := None |}, h, n)
          else
            let startMin := timeToMinutes (start b) in
            let endMin := timeToMinutes base_ende in
            let endMin := if String.eqb base_ende "24:00" then Num (24 * 60)
                          else endMin in
            if geb endMin startMin && leb endMin (Num (24 * 60)) then
              Some ({| entryRefs := [base]; splitOf := None |}, h, n)
            else
              let (id1, n1) := generateId n in
              let (id2, n2) := generateId n1 in
              let nextDate := date b in
              let (first, h1) :=
                alloc {| id := id1; date := date b; start := start b;
                         ende := Some "24:00" |} h in
              let secondEndTime := base_ende in
              let (second, h2) :=
                alloc {| id := id2; date := nextDate; start := "00:00";
                         ende := Some secondEndTime |} h1 in
              let split :=
                {| split_id := String_ (Num id1) ++ "-" ++ String_ (Num id2);
                   firstId := id1; secondId := id2 |} in
              Some ({| entryRefs := [first; second]; splitOf := Some split |},
                    h2, n2)
      end
  end.

End Store.

(* ================================================================== *)
(** * The component state and its handlers *)

(** The state of [App] that the handlers read and write, with the counter
    [NEXT_ID].  The state of the presentation ([selectedDate],
    [expandedDate], [screen]) plays no part in them and is left out; so are
    the writes to [AsyncStorage], which the handlers never read back. *)
Record App : Type := mkApp {
  NEXT_ID : Z;
  eintraege : list Eintrag;
  splits : list SplitEntry;
  editingEntryId : option Z;
  editMode : EditMode;
  editingStart : string;
  editingEnde : string
}.

(** [[...l].sort((a, b) => b.id - a.id)]: the sort is stable, which
    determines its result; here by insertion. *)
Fixpoint insertById (x : Eintrag) (l : list Eintrag) : list Eintrag :=
  match l with
  | [] => [x]
  | y :: l' => if id y <=? id x then x :: l else y :: insertById x l'
  end.

Definition sortById (l : list Eintrag) : list Eintrag :=
  fold_right insertById [] l.

Definition updateEintraege (newEintraege : list Eintrag) (st : App) : App :=
  {| NEXT_ID := NEXT_ID st; eintraege := sortById newEintraege;
     splits := splits st; editingEntryId := editingEntryId st;
     editMode := editMode st; editingStart := editingStart st;
     editingEnde := editingEnde st |}.

Definition updateSplits (newSplits : list SplitEntry) (st : App) : App :=
  {| NEXT_ID := NEXT_ID st; eintraege := eintraege st;
     splits := newSplits; editingEntryId := editingEntryId st;
     editMode := editMode st; editingStart := editingStart st;
     editingEnde := editingEnde st |}.

Definition setNextId (n : Z) (st : App) : App :=
  {| NEXT_ID := n; eintraege := eintraege st;
     splits := splits st; editingEntryId := editingEntryId st;
     editMode := editMode st; editingStart := editingStart st;
     editingEnde := editingEnde st |}.

Definition resetEditState (st : App) : App :=
  {| NEXT_ID := NEXT_ID st; eintraege := eintraege st;
     splits := splits st; editingEntryId := None;
     editMode := none; editingStart := ""; editingEnde := "" |}.

(** The effect of [useEffect]'s [loadData] on what the storage holds. *)
Definition loadData (savedEintraege : list Eintrag)
    (savedSplits : list SplitEntry) (st : App) : App :=
  updateSplits savedSplits
    {| NEXT_ID := NEXT_ID st; eintraege := sortById savedEintraege;
       splits := splits st; editingEntryId := editingEntryId st;
       editMode := editMode st; editingStart := editingStart st;
       editingEnde := editingEnde st |}.

Definition adjustTime (value : string) (deltaMinutes : Z) : string :=
  minutesToTime (add (timeToMinutes value) (Num deltaMinutes)).

Definition optList {A : Type} (o : option A) : list A :=
  match o with
  | Some a => [a]
  | None => []
  end.

(** [handleAddStart]; [today] and [currentTime] are what [getTodayDate()]
    and [getRoundedNow()] return, [confirm] the answer to the dialog shown
    when an entry is open already. *)
Definition handleAddStart (today currentTime : string) (confirm : bool)
    (st : App) : App :=
  if hasOpen (getOpenEntryInfo (eintraege st)) && negb confirm then st
  else
    let (i, n) := generateId (NEXT_ID st) in
    let newEintraege :=
      (eintraege st ++ [{| id := i; date := today; start := currentTime;
                           ende := None |}])%list in
    updateEintraege newEintraege (setNextId n st).

Definition handleAddEnde (currentTime : string) (st : App) : App :=
  let openEntryInfo := getOpenEntryInfo (eintraege st) in
  match hasOpen openEntryInfo, open_id openEntryInfo with
  | true, Some oid =>
      match find (fun e => id e =? oid) (eintraege st) with
      | None => st
      | Some openEntry =>
          let base := {| id := id openEntry; date := date openEntry;
                         start := start openEntry;
                         ende := Some currentTime |} in
          let (r, n) := createEntriesWithOptionalSplit base (NEXT_ID st) in
          let newEintraege :=
            filter (fun e => negb (id e =? id openEntry)) (eintraege st) in
          let newEintraege := (newEintraege ++ entries r)%list in
          let newSplits :=
            filter (fun s => negb (firstId s =? id openEntry)
                             && negb (secondId s =? id openEntry))
                   (splits st) in
          let newSplits := (newSplits ++ optList (split r))%list in
          updateSplits newSplits (updateEintraege newEintraege (setNextId n st))
      end
  | _, _ => st
  end.

(** [handleAddFixedNoonEntry], the dialog being confirmed. *)
Definition handleAddFixedNoonEntry (date : string) (st : App) : App :=
  let (i, n) := generateId (NEXT_ID st) in
  let newEintrag := {| id := i; date := date; start := "12:00";
                       ende := Some "12:00" |} in
  updateEintraege (eintraege st ++ [newEintrag])%list (setNextId n st).

(** The assignment [base.start = editingStart] or [base.ende = editingEnde]
    of [handleSaveEdit]. *)
Definition applyEdit (st : App) (base : Eintrag) : Eintrag :=
  match editMode st with
  | mode_start => {| id := id base; date := date base;
                     start := editingStart st; ende := ende base |}
  | _ => {| id := id base; date := date base; start := start base;
            ende := Some (editingEnde st) |}
  end.

(** The common end of the three branches of [handleSaveEdit]. *)
Definition commitEdit (newEintraege : list Eintrag)
    (newSplits : list SplitEntry) (base : Eintrag) (n : Z) (st : App) : App :=
  let (r, n') := createEntriesWithOptionalSplit base n in
  let newEintraege := (newEintraege ++ entries r)%list in
  let newSplits := (newSplits ++ optList (split r))%list in
  resetEditState
    (updateSplits newSplits (updateEintraege newEintraege (setNextId n' st))).

(** [handleSaveEdit] once the edit has passed its checks: from the lookup
    of [original] to the end. *)
Definition saveEdit (eid : Z) (st : App) : App :=
  match find (fun e => id e =? eid) (eintraege st) with
  | None => resetEditState st
  | Some original =>
      match find (fun s => (firstId s =? id original)
                           || (secondId s =? id original)) (splits st) with
      | Some existingSplit =>
          let first := find (fun e => id e =? firstId existingSplit)
                            (eintraege st) in
          let second := find (fun e => id e =? secondId existingSplit)
                             (eintraege st) in
          let newSplits :=
            filter (fun s => negb (String.eqb (split_id s)
                                              (split_id existingSplit)))
                   (splits st) in
          match first, second with
          | Some first, Some second =>
              let newEintraege :=
                filter (fun e => negb (id e =? firstId existingSplit)
                                 && negb (id e =? secondId existingSplit))
                       (eintraege st) in
              let (base, n) := buildBaseFromSplit first second (NEXT_ID st) in
              commitEdit newEintraege newSplits (applyEdit st base) n st
          | _, _ =>
              let newEintraege :=
                filter (fun e => negb (id e =? id original)) (eintraege st) in
              let (i, n) := generateId (NEXT_ID st) in
              let base := {| id := i; date := date original;
                             start := start original;
                             ende := ende original |} in
              commitEdit newEintraege newSplits (applyEdit st base) n st
          end
      | None =>
          let newEintraege :=
            filter (fun e => negb (id e =? id original)) (eintraege st) in
          let (i, n) := generateId (NEXT_ID st) in
          let base := {| id := i; date := date original;
                         start := start original;
                         ende := ende original |} in
          commitEdit newEintraege (splits st) (applyEdit st base) n st
      end
  end.

Definition handleSaveEdit (st : App) : App :=
  match editingEntryId st with
  | None => st
  | Some eid =>
      if negb (truthy_id (Some eid)) then st
      else
        match editMode st, String.eqb (editingStart st) "",
              String.eqb (editingEnde st) "" with
        | mode_start, true, _ => st
        | mode_ende, _, true => st
        | _, _, _ => saveEdit eid st
        end
  end.

Definition orElse (o : option string) (d : string) : string :=
  if truthy o then match o with Some s => s | None => d end else d.

Definition startEditing (currentTime : string) (i : Z) (mode : EditMode)
    (st : App) : App :=
  let entry := find (fun e => id e =? i) (eintraege st) in
  match mode with
  | mode_start =>
      {| NEXT_ID := NEXT_ID st; eintraege := eintraege st;
         splits := splits st; editingEntryId := Some i; editMode := mode;
         editingStart := orElse (option_map start entry) currentTime;
         editingEnde := editingEnde st |}
  | _ =>
      {| NEXT_ID := NEXT_ID st; eintraege := eintraege st;
         splits := splits st; editingEntryId := Some i; editMode := mode;
         editingStart := editingStart st;
         editingEnde := orElse (match entry with
                                | Some e => ende e
                                | None => None
                                end) currentTime |}
  end.

(** A step of the [-] and [+] buttons of the edit form. *)
Definition stepEdit (delta : Z) (st : App) : App :=
  match editMode st with
  | mode_start =>
      {| NEXT_ID := NEXT_ID st; eintraege := eintraege st;
         splits := splits st; editingEntryId := editingEntryId st;
         editMode := editMode st;
         editingStart :=
           adjustTime (orElse (Some (editingStart st)) "00:00") delta;
         editingEnde := editingEnde st |}
  | _ =>
      {| NEXT_ID := NEXT_ID st; eintraege := eintraege st;
         splits := splits st; editingEntryId := editingEntryId st;
         editMode := editMode st; editingStart := editingStart st;
         editingEnde :=
           adjustTime (orElse (Some (editingEnde st)) "00:00") delta |}
  end.

(** [handleDeleteEntry], the dialog being confirmed. *)
Definition handleDeleteEntry (i : Z) (st : App) : App :=
  let relatedSplit :=
    find (fun s => (firstId s =? i) || (secondId s =? i)) (splits st) in
  let newEintraege :=
    match relatedSplit with
    | Some relatedSplit =>
        filter (fun e => negb (id e =? firstId relatedSplit)
                         && negb (id e =? secondId relatedSplit))
               (eintraege st)
    | None => filter (fun e => negb (id e =? i)) (eintraege st)
    end in
  let newSplits :=
    match relatedSplit with
    | Some relatedSplit =>
        filter (fun s => negb (String.eqb (split_id s) (split_id relatedSplit)))
               (splits st)
    | None => splits st
    end in
  let st' := updateSplits newSplits (updateEintraege newEintraege st) in
  match editingEntryId st with
  | Some j => if j =? i then resetEditState st' else st'
  | None => st'
  end.

(** What the user can do, and the states that can arise. *)
Inductive Action : Type :=
| Load (savedEintraege : list Eintrag) (savedSplits : list SplitEntry)
| AddStart (today currentTime : string) (confirm : bool)
| AddEnde (currentTime : string)
| AddFixedNoon (date : string)
| StartEditing (currentTime : string) (i : Z) (mode : EditMode)
| StepEdit (delta : Z)
| SaveEdit
| CancelEdit
| Delete (i : Z).

Definition step (a : Action) (st : App) : App :=
  match a with
  | Load es ss => loadData es ss st
  | AddStart today now confirm => handleAddStart today now confirm st
  | AddEnde now => handleAddEnde now st
  | AddFixedNoon d => handleAddFixedNoonEntry d st
  | StartEditing now i mode => startEditing now i mode st
  | StepEdit delta => stepEdit delta st
  | SaveEdit => handleSaveEdit st
  | CancelEdit => resetEditState st
  | Delete i => handleDeleteEntry i st
  end.

(** The state on mount: [NEXT_ID] is the clock reading [now]. *)
Definition initial (now : Z) : App :=
  {| NEXT_ID := now; eintraege := []; splits := [];
     editingEntryId := None; editMode := none;
     editingStart := ""; editingEnde := "" |}.

Inductive reachable : App -> Prop :=
| reach_init : forall now, reachable (initial now)
| reach_step : forall a st, reachable st -> reachable (step a st).

(* ================================================================== *)
(** * Notions used in the statements *)

(** An interval with end [e] fits within one day: its start and its end
    read as minutes [s] and [m] with [s <= m <= 1440]. *)
Definition withinDay (base : Eintrag) (e : string) : Prop :=
  exists s m, timeToMinutes (start base) = Num s
              /\ endMinutes e = Num m /\ s <= m <= 1440.

(** The two halves and the pair that a split of [base], ending at [e], is
    to produce when the counter stands at [n]. *)
Definition firstHalf (base : Eintrag) (n : Z) : Eintrag :=
  {| id := n + 1; date := date base; start := start base;
     ende := Some "24:00" |}.

Definition secondHalf (base : Eintrag) (e : string) (n : Z) : Eintrag :=
  {| id := n + 2; date := date base; start := "00:00"; ende := Some e |}.

Definition pairOf (n : Z) : SplitEntry :=
  {| split_id := String_ (Num (n + 1)) ++ "-" ++ String_ (Num (n + 2));
     firstId := n + 1; secondId := n + 2 |}.

Definition unchanged (base : Eintrag) (n : Z) : SplitResult * Z :=
  ({| entries := [base]; split := None |}, n).

Definition halved (base : Eintrag) (e : string) (n : Z) : SplitResult * Z :=
  ({| entries := [firstHalf base n; secondHalf base e n];
      split := Some (pairOf n) |}, n + 2).

(** Sorted by id, the largest first. *)
Definition sortedDesc (l : list Eintrag) : Prop :=
  StronglySorted (fun a b => id b <= id a) l.

Definition isOpen (e : Eintrag) : bool := negb (truthy (ende e)).

(** The pair [q] names the id [i] as one of its halves; [findSplit] is the
    lookup that the handlers make for it. *)
Definition refersTo (i : Z) (q : SplitEntry) : bool :=
  (firstId q =? i) || (secondId q =? i).

Definition findSplit (i : Z) (ss : list SplitEntry) : option SplitEntry :=
  find (refersTo i) ss.

Definition findEntry (i : Z) (l : list Eintrag) : option Eintrag :=
  find (fun e => id e =? i) l.

(** Every id held by the store has been issued by the counter. *)
Definition idsIssued (st : App) : Prop :=
  (forall e, In e (eintraege st) -> id e <= NEXT_ID st)
  /\ (forall q, In q (splits st) ->
        firstId q <= NEXT_ID st /\ secondId q <= NEXT_ID st).

(** The entries and pairs that [handleSaveEdit] and [handleDeleteEntry] keep
    when they take the pair [p] out. *)
Definition withoutHalves (p : SplitEntry) (l : list Eintrag) : list Eintrag :=
  filter (fun e => negb (id e =? firstId p) && negb (id e =? secondId p)) l.

Definition withoutPair (p : SplitEntry) (ss : list SplitEntry)
    : list SplitEntry :=
  filter (fun s => negb (String.eqb (split_id s) (split_id p))) ss.

(** The civil date that a string [YYYY-MM-DD] names, its day number, the
    string that names the day of a given number, and the date [k] calendar
    days after the one a string names. *)
Definition parseDay (ds : string) : option (Z * Z * Z) :=
  if negb ((String.length ds =? 10)%nat && sep ds 4 "-" && sep ds 7 "-")
  then None
  else
    match field ds 0 4, field ds 5 2, field ds 8 2 with
    | Some y, Some mo, Some d =>
        if (1 <=? mo) && (mo <=? 12) && (1 <=? d) && (d <=? daysInMonth y mo)
        then Some (y, mo, d) else None
    | _, _, _ => None
    end.

Definition dayNumber (ds : string) : option Z :=
  option_map (fun ymd => days_from_civil (fst (fst ymd)) (snd (fst ymd))
                                         (snd ymd))
             (parseDay ds).

Definition isoDay (z : Z) : string :=
  let ymd := civil_from_days z in
  isoYear (fst (fst ymd)) ++ "-" ++ padN 2 (snd (fst ymd))
  ++ "-" ++ padN 2 (snd ymd).

Definition shiftDays (k : Z) (ds : string) : option string :=
  option_map (fun z => isoDay (z + k)) (dayNumber ds).

(** The longest that month [m] can be, and the check of the month and day
    arithmetic of the calendar on the month [m1 + 1] and day [d1 + 1]. *)
Definition maxDay (m : Z) : Z :=
  if m =? 2 then 29
  else if (m =? 4) || (m =? 6) || (m =? 9) || (m =? 11) then 30 else 31.

Definition chkMonth (m1 d1 : Z) : bool :=
  let m := m1 + 1 in
  let d := d1 + 1 in
  implb (d <=? maxDay m)
    (let mp := (m + 9) mod 12 in
     let doy := (153 * mp + 2) / 5 + d - 1 in
     ((5 * doy + 2) / 153 =? mp)
     && (doy - (153 * mp + 2) / 5 + 1 =? d)
     && ((if mp <? 10 then mp + 3 else mp - 9) =? m)
     && (0 <=? doy) && (doy <=? 365)
     && implb (doy =? 365) ((m =? 2) && (d =? 29))).

(** The check of the month and day that the calendar gives to the day
    [doy] of a year that starts in March. *)
Definition chkDoy (doy : Z) : bool :=
  let mp := (5 * doy + 2) / 153 in
  let d := doy - (153 * mp + 2) / 5 + 1 in
  let m := if mp <? 10 then mp + 3 else mp - 9 in
  (1 <=? m) && (m <=? 12) && (1 <=? d) && (d <=? maxDay m)
  && implb ((m =? 2) && (d =? 29)) (doy =? 365)
  && implb (doy =? 365) (m =? 2).

(** The check that [z], written with [k] digits, reads back as [z]. *)
Definition chkPad (k : nat) (z : Z) : bool :=
  (String.length (padN k z) =? k)%nat
  && match digits_value 0 (padN k z) with
     | Some v => v =? z
     | None => false
     end.

(** The character [c] does not occur in [s]. *)
Fixpoint noChar (c : ascii) (s : string) : bool :=
  match s with
  | EmptyString => true
  | String a s' => negb (Ascii.eqb a c) && noChar c s'
  end.

(* ================================================================== *)
(** * The store in good order *)

(** The pair [p] has its two halves in the collection [l]: an entry that
    ends at 24:00, and a closed entry of the same date that starts at
    00:00. *)
Definition halvesIn (l : list Eintrag) (p : SplitEntry) : Prop :=
  exists f s,
    In f l /\ In s l /\ id f = firstId p /\ id s = secondId p
    /\ ende f = Some "24:00" /\ start s = "00:00" /\ date s = date f
    /\ truthy (ende s) = true.

Definition sharesId (p q : SplitEntry) : Prop :=
  firstId p = firstId q \/ firstId p = secondId q
  \/ secondId p = firstId q \/ secondId p = secondId q.

(** The ids of the entries are distinct; every id of an entry or of a pair
    has been issued by the counter; every pair has its halves; no id is
    named by two pairs, nor twice by one. *)
Definition goodStore (n : Z) (l : list Eintrag) (ss : list SplitEntry)
    : Prop :=
  NoDup (map id l)
  /\ (forall e, In e l -> id e <= n)
  /\ (forall q, In q ss -> firstId q <= n /\ secondId q <= n)
  /\ (forall q, In q ss -> halvesIn l q)
  /\ (forall p q, In p ss -> In q ss -> sharesId p q -> p = q)
  /\ (forall q, In q ss -> firstId q <> secondId q).

Definition wellFormed (st : App) : Prop :=
  sortedDesc (eintraege st)
  /\ goodStore (NEXT_ID st) (eintraege st) (splits st).

Definition isLoad (a : Action) : bool :=
  match a with
  | Load _ _ => true
  | _ => false
  end.

(** More of the host's [Date]: the day of the week and the fields of the
    time of the day, with the methods that read and write them in local
    time.  A method that reads a field of the invalid date gives NaN, and
    one that writes to it, or is given NaN, leaves the date invalid. *)
Definition msPerHour : Z := 3600000.
Definition WeekDay (t : Z) : Z := (Day t + 4) mod 7.
Definition HourFromTime (t : Z) : Z := (t / msPerHour) mod 24.
Definition MinFromTime (t : Z) : Z := (t / msPerMinute) mod 60.
Definition SecFromTime (t : Z) : Z := (t / 1000) mod 60.
Definition msFromTime (t : Z) : Z := t mod 1000.

Definition MakeTime (hour min sec ms : Z) : Z :=
  hour * msPerHour + min * msPerMinute + sec * 1000 + ms.

(** Two hosts: one whose offset is [o] milliseconds at every instant, and
    one whose offset goes from [o] to [o + msPerHour] at the instant [T],
    as at the beginning of daylight saving time, the local times of the
    hour skipped being read with the offset [o].  Neither reads a string
    outside the date-time format. *)
Definition fixedZone (o : Z) : Host :=
  {| tzaUTC := fun _ => o; tzaLocal := fun _ => o;
     parseOther := fun _ => None |}.

Definition springForward (T o : Z) : Host :=
  {| tzaUTC := fun t => if t <? T then o else o + msPerHour;
     tzaLocal := fun t => if t <? T + o + msPerHour then o else o + msPerHour;
     parseOther := fun _ => None |}.

(** Within an hour of the local time [L0] no local time is skipped: each
    one, taken to UTC and back, is itself; and its offset is less than a
    day. *)
Definition noGapAround (host : Host) (L0 : Z) : Prop :=
  forall L, Z.abs (L - L0) <= msPerHour ->
    LocalTime host (UTC host L) = L /\ Z.abs (tzaLocal host L) < msPerDay.

Definition readField (f : Z -> Z) (host : Host) (t : option Z) : number :=
  match t with
  | Some t => Num (f (LocalTime host t))
  | None => NaN
  end.

Definition getDay : Host -> option Z -> number := readField WeekDay.
Definition getHours : Host -> option Z -> number :=
  readField HourFromTime.
Definition getMinutes : Host -> option Z -> number :=
  readField MinFromTime.

Definition setMinutes (host : Host) (t : option Z) (min : number) : option Z :=
  match t, min with
  | Some t, Num m =>
      let lt := LocalTime host t in
      TimeClip (UTC host (MakeDate (Day lt)
                          (MakeTime (HourFromTime lt) m (SecFromTime lt)
                                    (msFromTime lt))))
  | _, _ => None
  end.

Definition setHours (host : Host) (t : option Z) (hour : number) : option Z :=
  match t, hour with
  | Some t, Num h =>
      let lt := LocalTime host t in
      TimeClip (UTC host (MakeDate (Day lt)
                          (MakeTime h (MinFromTime lt) (SecFromTime lt)
                                    (msFromTime lt))))
  | _, _ => None
  end.

(** [getTodayDate], [now] being the time value of [new Date()]. *)
Definition getTodayDate (now : Z) : option string :=
  option_map (fun iso => hd "" (JS.split "T" iso)) (toISOString (Some now)).

(** [getWeekdayAbbr]; [None] is the [undefined] that an index which is not
    one of the array gives. *)
Definition weekdays : list string := ["SO"; "MO"; "DI"; "MI"; "DO"; "FR"; "SA"].

Definition getWeekdayAbbr (host : Host) (dateStr : string) : option string :=
  let date := newDate host (dateStr ++ "T00:00:00") in
  match getDay host date with
  | Num k => if k <? 0 then None else nth_error weekdays (Z.to_nat k)
  | NaN => None
  end.

(** [getRoundedNow], [now] being the time value of [new Date()]. *)
Definition getRoundedNow (host : Host) (now : Z) : string :=
  let now0 := Some now in
  let minutes := getMinutes host now0 in
  let roundedMinutes := mul (round_div minutes 5) (Num 5) in
  let now1 := setMinutes host now0 (if number_eqb roundedMinutes (Num 60)
                                  then Num 0 else roundedMinutes) in
  let now2 := if number_eqb roundedMinutes (Num 60)
              then setHours host now1 (add (getHours host now1) (Num 1))
              else now1 in
  pad2 (getHours host now2) ++ ":" ++ pad2 (getMinutes host now2).

(** [getNextDay]; [None] stands for the exception that [toISOString] throws
    on the invalid date. *)
Definition getNextDay (host : Host) (dateStr : string) : option string :=
  let date := newDate host (dateStr ++ "T00:00:00") in
  let date := setDate host date
                (option_map (fun d => d + 1) (getDate host date)) in
  option_map (fun iso => hd "" (JS.split "T" iso)) (toISOString date).

(** [uniqueDates]: the adjusted dates of the entries, each once
    ([Array.from(new Set(...))] keeps the first occurrences in their order),
    sorted as strings by code units ([sort()] without a comparator) and
    reversed.  [None] stands for the exception that
    [getAdjustedDateForEntry] throws. *)
Fixpoint mapThrow {A B : Type} (f : A -> option B) (l : list A)
    : option (list B) :=
  match l with
  | [] => Some []
  | x :: r =>
      match f x with
      | None => None
      | Some y => option_map (cons y) (mapThrow f r)
      end
  end.

Definition addOnce (seen : list string) (x : string) : list string :=
  if existsb (String.eqb x) seen then seen else (seen ++ [x])%list.

Definition setOf (xs : list string) : list string := fold_left addOnce xs [].

Fixpoint insertStr (x : string) (l : list string) : list string :=
  match l with
  | [] => [x]
  | y :: r => if String.leb x y then x :: y :: r else y :: insertStr x r
  end.

Definition sortStr (l : list string) : list string := fold_right insertStr [] l.

Definition uniqueDates (host : Host) (eintraege : list Eintrag)
    (splits : list SplitEntry) : option (list string) :=
  option_map (fun ds => rev (sortStr (setOf ds)))
             (mapThrow (fun e => getAdjustedDateForEntry host e splits)
                       eintraege).

(** The day number that a date string names, 0 when it names none; a day
    whose year the calendar writes with four digits, as far as the checks
    of this development reach. *)
Definition dayOf (ds : string) : Z :=
  match dayNumber ds with
  | Some z => z
  | None => 0
  end.

Definition plainYear (z : Z) : Prop :=
  1970 <= fst (fst (civil_from_days z)) <= 2399.

(** The state after a sequence of actions, the first of the list first. *)
Definition run (acts : list Action) (st : App) : App :=
  fold_left (fun s a => step a s) acts st.

(** The [totalMinutes] of [getTotalDurationForEntries]. *)
Definition totalMinutes (entries : list Eintrag) : number :=
  fold_left (fun sum e => add sum (getDurationMinutes (start e) (ende e)))
            (filter (fun e => truthy (ende e)) entries) (Num 0).

(** The sum of the values of [dur] over a list of entries. *)
Definition sumOver (dur : Eintrag -> Z) (l : list Eintrag) : Z :=
  fold_right (fun e acc => dur e + acc) 0 l.

(* ================================================================== *)
(** * Facts about the primitives *)

Section Primitives.

Lemma Qfloor_div (x : Z) (k : positive) :
  Qfloor (inject_Z x / inject_Z (Zpos k)) = x / Zpos k.
Proof.
  unfold Qdiv, Qinv, Qmult, inject_Z, Qfloor; simpl.
  now rewrite Z.mul_1_r.
Qed.

Lemma Math_round_div (x : Z) (k : positive) :
  Math_round (inject_Z x / inject_Z (Zpos k)) = (2 * x + Zpos k) / (2 * Zpos k).
Proof.
  unfold Math_round, Qdiv, Qinv, Qmult, Qplus, inject_Z, Qfloor.
  cbn [Qnum Qden Pos.mul].
  rewrite Pos2Z.inj_mul. f_equal; lia.
Qed.

(** [Math.round] sends a tie to the integer above. *)
Lemma Math_round_tie (n : Z) : Math_round (inject_Z n + (1 # 2)) = n + 1.
Proof.
  unfold Math_round, Qplus, inject_Z, Qfloor; simpl.
  replace ((n * 2 + 1) * 2 + 2) with ((n + 1) * 4) by lia.
  now rewrite Z.div_mul.
Qed.

Lemma forallb_upto (P : Z -> bool) (n : Z) :
  forallb P (map Z.of_nat (seq 0 (Z.to_nat n))) = true ->
  forall z, 0 <= z < n -> P z = true.
Proof.
  intros H z Hz.
  rewrite forallb_forall in H.
  apply H, in_map_iff.
  exists (Z.to_nat z); split; [lia | apply in_seq; lia].
Qed.

Lemma Some_eq_num (x y : Z) : Num x = Num y -> x = y.
Proof. intros H. now injection H. Qed.

Lemma number_eqb_eq a b : number_eqb a b = true -> a = b.
Proof.
  destruct a, b; simpl; intros H; try discriminate; auto.
  apply Z.eqb_eq in H; now subst.
Qed.

(** A clock string written by the code reads back as the minutes it was
    written from. *)
Lemma clock_reads_back (h m : Z) :
  0 <= h < 100 -> 0 <= m < 60 ->
  timeToMinutes (pad2 (Num h) ++ ":" ++ pad2 (Num m)) = Num (h * 60 + m)
  /\ String.length (pad2 (Num h) ++ ":" ++ pad2 (Num m)) = 5%nat.
Proof.
  intros Hh Hm.
  pose (chk := fun h m =>
    number_eqb (timeToMinutes (pad2 (Num h) ++ ":" ++ pad2 (Num m)))
               (Num (h * 60 + m))
    && (String.length (pad2 (Num h) ++ ":" ++ pad2 (Num m)) =? 5)%nat).
  assert (A : forallb (fun h => forallb (chk h)
                                       (map Z.of_nat (seq 0 (Z.to_nat 60))))
                      (map Z.of_nat (seq 0 (Z.to_nat 100))) = true)
    by (vm_compute; reflexivity).
  pose proof (forallb_upto _ _ A h Hh) as B; cbv beta in B.
  pose proof (forallb_upto _ _ B m Hm) as C.
  unfold chk in C. apply andb_true_iff in C. destruct C as [C1 C2].
  split; [now apply number_eqb_eq | now apply Nat.eqb_eq].
Qed.

End Primitives.

(* ================================================================== *)
(** * Durations and time values *)

Section Durations.

Lemma getDurationMinutes_some (start e : string) (s m : Z) :
  e <> "" -> timeToMinutes start = Num s -> endMinutes e = Num m ->
  getDurationMinutes start (Some e) = Num (Z.max 0 (m - s)).
Proof.
  intros He Hs Hm.
  unfold getDurationMinutes, truthy, endMinutes in *.
  destruct (String.eqb_spec e "") as [E | _]; [contradiction | cbn [negb]].
  rewrite Hs.
  destruct (String.eqb e "24:00").
  - injection Hm as <-. reflexivity.
  - rewrite Hm. reflexivity.
Qed.

Lemma getDuration_closed (start e : string) (s m : Z) :
  e <> "" -> timeToMinutes start = Num s -> endMinutes e = Num m ->
  getDuration start (Some e) =
    if m - s <=? 0 then "-"
    else pad2 (Num ((m - s) / 60)) ++ ":" ++ pad2 (Num ((m - s) mod 60)).
Proof.
  intros He Hs Hm.
  unfold getDuration.
  rewrite (getDurationMinutes_some start e s m He Hs Hm).
  unfold truthy.
  destruct (String.eqb_spec e "") as [E | _]; [contradiction | cbn [negb]].
  unfold leb.
  destruct (Z.leb_spec (m - s) 0) as [L | L].
  - rewrite (proj2 (Z.leb_le _ _)) by lia. reflexivity.
  - rewrite (proj2 (Z.leb_gt _ _)) by lia.
    rewrite Z.max_r by lia.
    unfold floor_div, rem. rewrite Qfloor_div.
    change (60 =? 0) with false. cbv iota.
    rewrite Z.rem_mod_nonneg by lia. reflexivity.
Qed.

(** C8.  [getDuration] gives ["-"] for an interval without end; for an
    interval whose start and end read as [s] and [m] minutes (the end
    ["24:00"] reading as 1440) it gives ["-"] when [m - s <= 0], and
    otherwise the hours and minutes of [m - s], each padded to two digits,
    around a colon: below a hundred hours that is a five-character clock
    string which reads back as [m - s] minutes.  The four documented values
    are as stated. *)
Theorem getDuration_spec (start : string) :
  getDuration start None = "-"
  /\ (forall e s m,
        e <> "" -> timeToMinutes start = Num s -> endMinutes e = Num m ->
        (m - s <= 0 -> getDuration start (Some e) = "-")
        /\ (0 < m - s ->
            getDuration start (Some e) =
              pad2 (Num ((m - s) / 60)) ++ ":" ++ pad2 (Num ((m - s) mod 60)))
        /\ (0 < m - s < 6000 ->
            String.length (getDuration start (Some e)) = 5%nat
            /\ timeToMinutes (getDuration start (Some e)) = Num (m - s)))
  /\ endMinutes "24:00" = Num 1440
  /\ getDuration "09:00" (Some "17:30") = "08:30"
  /\ getDuration "23:00" (Some "24:00") = "01:00"
  /\ getDuration "09:00" None = "-"
  /\ getDuration "10:00" (Some "09:00") = "-".
Proof.
  split; [reflexivity | split].
  - intros e s m He Hs Hm.
    pose proof (getDuration_closed start e s m He Hs Hm) as C.
    split; [| split].
    + intros L. rewrite C. now rewrite (proj2 (Z.leb_le _ _)) by lia.
    + intros L. rewrite C. now rewrite (proj2 (Z.leb_gt _ _)) by lia.
    + intros L. rewrite C. rewrite (proj2 (Z.leb_gt _ _)) by lia.
      assert (R : 0 <= (m - s) / 60 < 100)
        by (split; [apply Z.div_pos; lia | apply Z.div_lt_upper_bound; lia]).
      assert (M : 0 <= (m - s) mod 60 < 60) by (apply Z.mod_pos_bound; lia).
      destruct (clock_reads_back _ _ R M) as [C1 C2].
      split; [exact C2 |].
      rewrite C1. f_equal. pose proof (Z.div_mod (m - s) 60); lia.
  - repeat split; reflexivity.
Qed.

Lemma getDuration_spec_witness :
  getDuration "09:00" (Some "17:30") = "08:30"
  /\ String.length (getDuration "09:00" (Some "17:30")) = 5%nat
  /\ timeToMinutes (getDuration "09:00" (Some "17:30")) = Num 510
  /\ getDuration "10:00" (Some "09:00") = "-".
Proof.
  destruct (getDuration_spec "09:00") as [_ [H _]].
  destruct (H "17:30" 540 1050) as [_ [H2 H3]];
    [discriminate | reflexivity | reflexivity |].
  destruct H3 as [H3 H4]; [lia |].
  split; [exact (H2 ltac:(lia)) | split; [exact H3 | split; [exact H4 |]]].
  destruct (getDuration_spec "10:00") as [_ [H' _]].
  destruct (H' "09:00" 600 540) as [H1 _];
    [discriminate | reflexivity | reflexivity |].
  apply H1; lia.
Defined.

(** C9.  [minutesToTime] on an integer: the value is clamped to
    [[0, 1435]], then rounded to [5 * Math.round(total / 5)], which is the
    multiple of 5 nearest to the clamped value (at most 2 away; [Math.round]
    sends a tie up); the result is at most 1435, so the value 1440 never
    arises and the day never advances; hours and minutes are written with
    two digits each, and the string reads back as the rounded value of
    minutes.  [minutesToTime(1450)] is ["23:55"], [minutesToTime(-5)] is
    ["00:00"]. *)
Theorem minutesToTime_spec (z : Z) :
  let total := Z.max 0 (Z.min z 1435) in
  let rounded := Math_round (inject_Z total / inject_Z 5) * 5 in
  minutesToTime (Num z) =
    pad2 (Num (rounded / 60)) ++ ":" ++ pad2 (Num (rounded mod 60))
  /\ rounded mod 5 = 0
  /\ Z.abs (rounded - total) <= 2
  /\ 0 <= rounded <= 1435
  /\ rounded <> 1440
  /\ String.length (minutesToTime (Num z)) = 5%nat
  /\ timeToMinutes (minutesToTime (Num z)) = Num rounded
  /\ (forall n, Math_round (inject_Z n + (1 # 2)) = n + 1)
  /\ minutesToTime (Num 1450) = "23:55"
  /\ minutesToTime (Num (-5)) = "00:00".
Proof.
  intros total rounded.
  assert (Ht : 0 <= total <= 1435) by (unfold total; lia).
  assert (Hr : rounded = (2 * total + 5) / 10 * 5)
    by (unfold rounded; now rewrite Math_round_div).
  assert (Hb : rounded mod 5 = 0 /\ Z.abs (rounded - total) <= 2
               /\ 0 <= rounded <= 1435).
  { rewrite Hr. split; [apply Z.mod_mul; lia |].
    pose proof (Z.div_mod (2 * total + 5) 10 ltac:(lia)).
    pose proof (Z.mod_pos_bound (2 * total + 5) 10 ltac:(lia)).
    lia. }
  destruct Hb as (Hb1 & Hb2 & Hb3).
  assert (E : minutesToTime (Num z) =
              pad2 (Num (rounded / 60)) ++ ":" ++ pad2 (Num (rounded mod 60))).
  { unfold minutesToTime, Math_min, Math_max, round_div, mul, floor_div, rem.
    change (23 * 60 + 55) with 1435. fold total. fold rounded.
    rewrite Qfloor_div. change (60 =? 0) with false. cbv iota.
    rewrite Z.rem_mod_nonneg by lia. reflexivity. }
  assert (R : 0 <= rounded / 60 < 100)
    by (split; [apply Z.div_pos; lia | apply Z.div_lt_upper_bound; lia]).
  assert (M : 0 <= rounded mod 60 < 60) by (apply Z.mod_pos_bound; lia).
  destruct (clock_reads_back _ _ R M) as [C1 C2].
  split; [exact E |].
  split; [exact Hb1 |].
  split; [exact Hb2 |].
  split; [exact Hb3 |].
  split; [lia |].
  split; [now rewrite E |].
  split; [rewrite E, C1; f_equal; pose proof (Z.div_mod rounded 60); lia |].
  split; [exact Math_round_tie |].
  split; reflexivity.
Qed.

End Durations.

(* ================================================================== *)
(** * Splitting and merging *)

Section Splitting.





(** The test of [createEntriesWithOptionalSplit] decides [withinDay]. *)
Lemma withinDay_test (base : Eintrag) (e : string) :
  withinDay base e <->
  geb (endMinutes e) (timeToMinutes (start base))
    && leb (endMinutes e) (Num (24 * 60)) = true.
Proof.
  unfold withinDay. split.
  - intros (s & m & Hs & Hm & Hle). rewrite Hs, Hm. simpl.
    apply andb_true_iff. split; apply Z.leb_le; lia.
  - intros H. apply andb_true_iff in H. destruct H as [H1 H2].
    destruct (endMinutes e) as [| m]; [discriminate |].
    destruct (timeToMinutes (start base)) as [| s]; [discriminate |].
    simpl in H1, H2. apply Z.leb_le in H1, H2.
    exists s, m. repeat split; auto; lia.
Qed.

Lemma split_present (base : Eintrag) (e : string) (n : Z) :
  ende base = Some e -> e <> "" ->
  createEntriesWithOptionalSplit base n =
    if geb (endMinutes e) (timeToMinutes (start base))
       && leb (endMinutes e) (Num (24 * 60))
    then unchanged base n else halved base e n.
Proof.
  intros He Hne.
  unfold createEntriesWithOptionalSplit. rewrite He.
  unfold truthy. destruct (String.eqb_spec e "") as [E | _];
    [contradiction | cbn [negb]].
  fold (endMinutes e).
  destruct (geb (endMinutes e) (timeToMinutes (start base))
            && leb (endMinutes e) (Num (24 * 60))); [reflexivity |].
  unfold halved, firstHalf, secondHalf, pairOf, bind, generateId, ret.
  replace (n + 1 + 1) with (n + 2) by lia. reflexivity.
Qed.

Lemma split_absent (base : Eintrag) (n : Z) :
  ende base = None \/ ende base = Some "" ->
  createEntriesWithOptionalSplit base n = unchanged base n.
Proof.
  intros [H | H]; unfold createEntriesWithOptionalSplit; rewrite H;
    reflexivity.
Qed.

Lemma split_within (base : Eintrag) (e : string) (n : Z) :
  ende base = Some e -> e <> "" -> withinDay base e ->
  createEntriesWithOptionalSplit base n = unchanged base n.
Proof.
  intros He Hne W. rewrite (split_present base e n He Hne).
  apply withinDay_test in W. now rewrite W.
Qed.

Lemma split_beyond (base : Eintrag) (e : string) (n : Z) :
  ende base = Some e -> e <> "" -> ~ withinDay base e ->
  createEntriesWithOptionalSplit base n = halved base e n.
Proof.
  intros He Hne W. rewrite (split_present base e n He Hne).
  destruct (geb (endMinutes e) (timeToMinutes (start base))
            && leb (endMinutes e) (Num (24 * 60))) eqn:T; [| reflexivity].
  exfalso. apply W, withinDay_test, T.
Qed.

Lemma crossing_beyond (base : Eintrag) (e : string) (s m : Z) :
  timeToMinutes (start base) = Num s -> endMinutes e = Num m ->
  m < s -> ~ withinDay base e.
Proof.
  intros Hs Hm L (s' & m' & Hs' & Hm' & Hle).
  rewrite Hs in Hs'. rewrite Hm in Hm'.
  injection Hs' as <-. injection Hm' as <-. lia.
Qed.

(** Over the store the splitter computes what it computes on values; it
    keeps every object of the store as it was, and when nothing is split it
    hands back the reference it was given and the store itself. *)
Lemma store_split (base : Eintrag) (n : Z) (h : Store.store) (r : Store.ref) :
  Store.read h r = Some base ->
  exists refs h',
    Store.createEntriesWithOptionalSplit r h n
      = Some ({| Store.entryRefs := refs;
                 Store.splitOf :=
                   split (fst (createEntriesWithOptionalSplit base n)) |},
              h', snd (createEntriesWithOptionalSplit base n))
    /\ (forall a e, Store.read h a = Some e -> Store.read h' a = Some e)
    /\ map (Store.read h') refs
       = map Some (entries (fst (createEntriesWithOptionalSplit base n)))
    /\ (createEntriesWithOptionalSplit base n = unchanged base n ->
        refs = [r] /\ h' = h).
Proof.
  intros Hr.
  assert (Same : exists refs h',
    Some ({| Store.entryRefs := [r]; Store.splitOf := None |}, h, n)
      = Some ({| Store.entryRefs := refs;
                 Store.splitOf := split (fst (unchanged base n)) |},
              h', snd (unchanged base n))
    /\ (forall a e, Store.read h a = Some e -> Store.read h' a = Some e)
    /\ map (Store.read h') refs = map Some (entries (fst (unchanged base n)))
    /\ (unchanged base n = unchanged base n -> refs = [r] /\ h' = h)).
  { exists [r], h. cbn. rewrite Hr. auto. }
  unfold Store.createEntriesWithOptionalSplit. rewrite Hr.
  destruct (ende base) as [e |] eqn:He.
  - destruct (String.eqb_spec e "") as [-> | Hne].
    + rewrite (split_absent base n) by (now right). exact Same.
    + rewrite (split_present base e n He Hne). fold (endMinutes e).
      unfold truthy.
      destruct (String.eqb_spec e "") as [E | _]; [contradiction |].
      cbn [negb].
      destruct (geb (endMinutes e) (timeToMinutes (start base))
                && leb (endMinutes e) (Num (24 * 60))); [exact Same |].
      unfold generateId, Store.alloc.
      replace (n + 1 + 1) with (n + 2) by lia.
      exists [List.length h; List.length (h ++ [firstHalf base n])],
             ((h ++ [firstHalf base n]) ++ [secondHalf base e n])%list.
      split; [reflexivity |]. split; [| split].
      * intros a x Ha. unfold Store.read in *.
        assert (La : (a < List.length h)%nat)
          by (apply nth_error_Some; congruence).
        rewrite nth_error_app1 by (rewrite length_app; simpl; lia).
        rewrite nth_error_app1 by exact La. exact Ha.
      * unfold Store.read. cbn [map halved fst entries].
        rewrite nth_error_app1 by (rewrite length_app; simpl; lia).
        rewrite nth_error_app2 by lia. rewrite Nat.sub_diag.
        rewrite nth_error_app2 by lia. rewrite Nat.sub_diag. reflexivity.
      * unfold halved, unchanged. intros C. discriminate C.
  - rewrite (split_absent base n) by (now left). exact Same.
Qed.

(** C1.  [createEntriesWithOptionalSplit] on a candidate [base], the
    counter standing at [n].  If the end is absent ([undefined] or empty),
    or if start and end read as minutes [s] and [m] (["24:00"] as 1440) with
    [s <= m <= 1440], the result is the candidate itself, alone, with no
    pair, and no id is issued.  In every other case, which for the times of
    a day means [m < s], and in particular whenever [m < s], the candidate's
    id is dropped, the two ids [n + 1] and [n + 2] are issued, and the result
    is the entry from the candidate's start to ["24:00"] and the entry from
    ["00:00"] to the candidate's end, both on the candidate's date, with the
    pair that names them, its id being the two ids joined by a dash.  Over a
    store of objects the function gives the same entries and pair, leaves
    every object as it was, the candidate among them, and gives back the
    candidate's own reference when it does not split. *)
Theorem split_spec (base : Eintrag) (n : Z) :
  (ende base = None \/ ende base = Some "" ->
   createEntriesWithOptionalSplit base n = unchanged base n)
  /\ (forall e, ende base = Some e -> e <> "" ->
        (withinDay base e ->
         createEntriesWithOptionalSplit base n = unchanged base n)
        /\ (~ withinDay base e ->
            createEntriesWithOptionalSplit base n = halved base e n)
        /\ (forall s m, timeToMinutes (start base) = Num s ->
              endMinutes e = Num m ->
              (m < s -> createEntriesWithOptionalSplit base n = halved base e n)
              /\ (m <= 1440 -> (~ withinDay base e <-> m < s))))
  /\ (forall h r, Store.read h r = Some base ->
      exists refs h',
        Store.createEntriesWithOptionalSplit r h n
          = Some ({| Store.entryRefs := refs;
                     Store.splitOf :=
                       split (fst (createEntriesWithOptionalSplit base n)) |},
                  h', snd (createEntriesWithOptionalSplit base n))
        /\ (forall a e, Store.read h a = Some e -> Store.read h' a = Some e)
        /\ map (Store.read h') refs
           = map Some (entries (fst (createEntriesWithOptionalSplit base n)))
        /\ (createEntriesWithOptionalSplit base n = unchanged base n ->
            refs = [r] /\ h' = h)).
Proof.
  split; [apply split_absent |].
  split; [| exact (store_split base n)].
  intros e He Hne.
  split; [apply (split_within base e n He Hne) |].
  split; [apply (split_beyond base e n He Hne) |].
  intros s m Hs Hm.
  split.
  - intros L. apply (split_beyond base e n He Hne).
    exact (crossing_beyond base e s m Hs Hm L).
  - intros L. split; [| exact (crossing_beyond base e s m Hs Hm)].
    intros W. destruct (Z.lt_ge_cases m s) as [G | G]; [exact G |].
    exfalso. apply W. exists s, m. repeat split; auto; lia.
Qed.

Lemma split_spec_witness :
  createEntriesWithOptionalSplit
    (mkEintrag 7 "2024-03-09" "09:00" (Some "17:30")) 1000
  = ({| entries := [mkEintrag 7 "2024-03-09" "09:00" (Some "17:30")];
        split := None |}, 1000)
  /\ createEntriesWithOptionalSplit
       (mkEintrag 7 "2024-03-09" "23:50" (Some "00:10")) 1000
     = ({| entries := [mkEintrag 1001 "2024-03-09" "23:50" (Some "24:00");
                       mkEintrag 1002 "2024-03-09" "00:00" (Some "00:10")];
           split := Some (mkSplit "1001-1002" 1001 1002) |}, 1002)
  /\ createEntriesWithOptionalSplit (mkEintrag 7 "2024-03-09" "09:00" None) 1000
     = ({| entries := [mkEintrag 7 "2024-03-09" "09:00" None];
           split := None |}, 1000)
  /\ exists refs h',
       Store.createEntriesWithOptionalSplit 0%nat
         [mkEintrag 7 "2024-03-09" "23:50" (Some "00:10")] 1000
       = Some ({| Store.entryRefs := refs;
                  Store.splitOf := Some (mkSplit "1001-1002" 1001 1002) |},
               h', 1002)
       /\ Store.read h' 0%nat
          = Some (mkEintrag 7 "2024-03-09" "23:50" (Some "00:10")).
Proof.
  split; [| split; [| split]].
  - destruct (split_spec (mkEintrag 7 "2024-03-09" "09:00" (Some "17:30")) 1000)
      as [_ [H _]].
    destruct (H "17:30" eq_refl ltac:(discriminate)) as [H1 _].
    apply H1. exists 540, 1050. repeat split; try reflexivity; lia.
  - destruct (split_spec (mkEintrag 7 "2024-03-09" "23:50" (Some "00:10")) 1000)
      as [_ [H _]].
    destruct (H "00:10" eq_refl ltac:(discriminate)) as [_ [_ H3]].
    destruct (H3 1430 10 eq_refl eq_refl) as [H4 _].
    apply H4. lia.
  - destruct (split_spec (mkEintrag 7 "2024-03-09" "09:00" None) 1000)
      as [H _].
    apply H. now left.
  - destruct (split_spec (mkEintrag 7 "2024-03-09" "23:50" (Some "00:10")) 1000)
      as [_ [_ H]].
    destruct (H [mkEintrag 7 "2024-03-09" "23:50" (Some "00:10")] 0%nat eq_refl)
      as (refs & h' & E & Keep & _).
    exists refs, h'. split; [exact E |]. now apply Keep.
Defined.



End Splitting.

(* ================================================================== *)
(** * The order of the collection *)

Section Order.

Lemma insertById_In (x y : Eintrag) (l : list Eintrag) :
  In y (insertById x l) <-> y = x \/ In y l.
Proof.
  induction l as [| z l IH]; simpl.
  - intuition.
  - destruct (id z <=? id x); simpl; [intuition | rewrite IH; intuition].
Qed.

Lemma insertById_perm (x : Eintrag) (l : list Eintrag) :
  Permutation (insertById x l) (x :: l).
Proof.
  induction l as [| z l IH]; simpl; [reflexivity |].
  destruct (id z <=? id x); [reflexivity |].
  rewrite IH. apply perm_swap.
Qed.

Lemma sortById_perm (l : list Eintrag) : Permutation (sortById l) l.
Proof.
  induction l as [| x l IH]; simpl; [reflexivity |].
  rewrite insertById_perm. now constructor.
Qed.

Lemma sortById_In (x : Eintrag) (l : list Eintrag) :
  In x (sortById l) <-> In x l.
Proof.
  split; apply Permutation_in;
    [apply sortById_perm | symmetry; apply sortById_perm].
Qed.

Lemma insertById_sorted (x : Eintrag) (l : list Eintrag) :
  sortedDesc l -> sortedDesc (insertById x l).
Proof.
  unfold sortedDesc. induction 1 as [| z l Hs IH Hz]; simpl.
  - constructor; constructor.
  - destruct (Z.leb_spec (id z) (id x)) as [L | L].
    + constructor; [constructor; assumption |].
      constructor; [exact L |].
      rewrite Forall_forall in *. intros y Hy. specialize (Hz y Hy). lia.
    + constructor; [exact IH |].
      rewrite Forall_forall in *. intros y Hy.
      apply insertById_In in Hy. destruct Hy as [-> | Hy]; [lia | auto].
Qed.

Lemma sortById_sorted (l : list Eintrag) : sortedDesc (sortById l).
Proof.
  induction l as [| x l IH]; simpl; [constructor | now apply insertById_sorted].
Qed.

(** The sort leaves a sorted collection as it is. *)
Lemma sortById_fixed (l : list Eintrag) : sortedDesc l -> sortById l = l.
Proof.
  unfold sortedDesc. induction 1 as [| z l Hs IH Hz]; simpl; [reflexivity |].
  rewrite IH. destruct l as [| y l]; [reflexivity |].
  simpl. inversion Hz as [| ? ? Hy _]; subst.
  now rewrite (proj2 (Z.leb_le _ _) Hy).
Qed.

Lemma sortedDesc_filter (p : Eintrag -> bool) (l : list Eintrag) :
  sortedDesc l -> sortedDesc (filter p l).
Proof.
  unfold sortedDesc. induction 1 as [| z l Hs IH Hz]; simpl; [constructor |].
  destruct (p z); [| exact IH].
  constructor; [exact IH |].
  rewrite Forall_forall in *. intros y Hy. apply filter_In in Hy. now apply Hz.
Qed.

Lemma sortedDesc_app_le (l1 l2 : list Eintrag) (t x : Eintrag) :
  sortedDesc (l1 ++ t :: l2)%list -> In x l1 -> id t <= id x.
Proof.
  unfold sortedDesc. induction l1 as [| z l1 IH]; simpl; intros H Hx;
    [contradiction |].
  inversion H as [| ? ? Hs Hz]; subst.
  destruct Hx as [-> | Hx]; [| now apply IH].
  rewrite Forall_forall in Hz. apply Hz, in_or_app. right. now left.
Qed.

(** The last element that satisfies [p], as [getOpenEntryInfo] takes it. *)
Lemma last_filter (p : Eintrag -> bool) (l : list Eintrag) (e : Eintrag) :
  In e l -> p e = true ->
  exists l1 t l2,
    l = (l1 ++ t :: l2)%list /\ p t = true
    /\ (forall x, In x l2 -> p x = false)
    /\ filter p l <> []
    /\ forall d, last (filter p l) d = t.
Proof.
  induction l as [| x l IH] using rev_ind; intros Hin Hp; [contradiction |].
  rewrite filter_app. simpl.
  destruct (p x) eqn:Px.
  - exists l, x, []. repeat split; auto.
    + intros y [].
    + intros E. apply app_eq_nil in E. destruct E; discriminate.
    + intros d. apply last_last.
  - apply in_app_or in Hin. destruct Hin as [Hin | [-> | []]];
      [| congruence].
    destruct (IH Hin Hp) as (l1 & t & l2 & E & Pt & Hl2 & Hne & Hl).
    exists l1, t, (l2 ++ [x])%list. rewrite app_nil_r.
    repeat split; auto.
    + rewrite E, <- app_assoc. reflexivity.
    + intros y Hy. apply in_app_or in Hy.
      destruct Hy as [Hy | [<- | []]]; auto.
Qed.

Lemma getOpenEntryInfo_last (l : list Eintrag) (e : Eintrag) :
  In e l -> isOpen e = true ->
  exists l1 t l2,
    l = (l1 ++ t :: l2)%list /\ isOpen t = true
    /\ (forall x, In x l2 -> isOpen x = false)
    /\ getOpenEntryInfo l = {| hasOpen := true; open_id := Some (id t) |}.
Proof.
  intros Hin Ho.
  destruct (last_filter isOpen l e Hin Ho)
    as (l1 & t & l2 & E & Pt & Hl2 & Hne & Hl).
  exists l1, t, l2. repeat split; auto.
  unfold getOpenEntryInfo. fold isOpen.
  change (fun e0 : Eintrag => negb (truthy (ende e0))) with isOpen.
  destruct (filter isOpen l) as [| e0 r] eqn:F; [congruence |].
  now rewrite Hl.
Qed.

(** Every handler that replaces the collection stores it sorted. *)
Lemma updateEintraege_sorted (l : list Eintrag) (st : App) :
  sortedDesc (eintraege (updateEintraege l st)).
Proof. apply sortById_sorted. Qed.

Lemma commitEdit_sorted l ss base n st :
  sortedDesc (eintraege (commitEdit l ss base n st)).
Proof.
  unfold commitEdit. destruct (createEntriesWithOptionalSplit base n).
  apply sortById_sorted.
Qed.

Lemma saveEdit_sorted (eid : Z) (st : App) :
  sortedDesc (eintraege st) -> sortedDesc (eintraege (saveEdit eid st)).
Proof.
  intros H. unfold saveEdit.
  destruct (find _ (eintraege st)) as [original |]; [| exact H].
  destruct (find _ (splits st)) as [existingSplit |].
  - cbv zeta.
    destruct (find _ (eintraege st)) as [first |];
      [destruct (find _ (eintraege st)) as [second |] |];
      apply commitEdit_sorted.
  - apply commitEdit_sorted.
Qed.

Lemma step_sorted (a : Action) (st : App) :
  sortedDesc (eintraege st) -> sortedDesc (eintraege (step a st)).
Proof.
  intros H. destruct a; simpl.
  - apply sortById_sorted.
  - unfold handleAddStart.
    destruct (hasOpen (getOpenEntryInfo (eintraege st)) && negb confirm);
      [exact H | apply sortById_sorted].
  - unfold handleAddEnde.
    destruct (hasOpen (getOpenEntryInfo (eintraege st))); [| exact H].
    destruct (open_id (getOpenEntryInfo (eintraege st))); [| exact H].
    destruct (find _ (eintraege st)); [| exact H].
    destruct (createEntriesWithOptionalSplit _ _). apply sortById_sorted.
  - apply sortById_sorted.
  - unfold startEditing. destruct mode; exact H.
  - unfold stepEdit. destruct (editMode st); exact H.
  - unfold handleSaveEdit.
    destruct (editingEntryId st) as [eid |]; [| exact H].
    destruct (negb _); [exact H |].
    destruct (editMode st), (String.eqb (editingStart st) ""),
      (String.eqb (editingEnde st) "");
      first [exact H | now apply saveEdit_sorted].
  - exact H.
  - unfold handleDeleteEntry.
    destruct (editingEntryId st) as [j |];
      [destruct (j =? i) |]; apply sortById_sorted.
Qed.

Lemma reachable_sorted (st : App) : reachable st -> sortedDesc (eintraege st).
Proof.
  induction 1 as [now | a st _ IH]; [constructor | now apply step_sorted].
Qed.

End Order.

(* ================================================================== *)
(** * Closing the open entry *)

Section Closing.

Lemma split_entries_closed (base : Eintrag) (n : Z) (x : Eintrag) :
  truthy (ende base) = true ->
  In x (entries (fst (createEntriesWithOptionalSplit base n))) ->
  isOpen x = false.
Proof.
  intros Ht Hx. unfold isOpen.
  destruct (ende base) as [e |] eqn:He; [| discriminate].
  assert (Hne : e <> "") by (intros ->; discriminate).
  rewrite (split_present base e n He Hne) in Hx.
  destruct (geb _ _ && leb _ _); simpl in Hx.
  - destruct Hx as [<- | []]. rewrite He, Ht. reflexivity.
  - destruct Hx as [<- | [<- | []]]; cbn [secondHalf firstHalf ende];
      [reflexivity | now rewrite Ht].
Qed.

Lemma find_id_some (i : Z) (l : list Eintrag) (t : Eintrag) :
  In t l -> id t = i ->
  exists o, find (fun e => id e =? i) l = Some o /\ id o = i /\ In o l.
Proof.
  intros Hin Hid.
  destruct (find (fun e => id e =? i) l) as [o |] eqn:F.
  - exists o. apply find_some in F. destruct F as [F1 F2].
    apply Z.eqb_eq in F2. auto.
  - exfalso. apply (find_none _ _ F) in Hin. apply Z.eqb_neq in Hin. auto.
Qed.

(** C10.  In every state that can arise the collection is sorted by id,
    the largest first: [updateEintraege] and [loadData] store it sorted,
    and no handler stores it otherwise.  Hence, when an entry is open,
    [getOpenEntryInfo]
    names the last open entry of the collection, whose id is the smallest
    among the open entries; and [handleAddEnde] closes the entries of that
    id and no other: afterwards the open entries are those open before,
    less those of that id. *)
Theorem closing_targets_oldest (st : App) :
  reachable st ->
  sortedDesc (eintraege st)
  /\ (forall a, sortedDesc (eintraege (step a st)))
  /\ (forall l es ss,
        sortedDesc (eintraege (updateEintraege l st))
        /\ sortedDesc (eintraege (loadData es ss st)))
  /\ (forall e, In e (eintraege st) -> isOpen e = true ->
      exists l1 t l2,
        eintraege st = (l1 ++ t :: l2)%list
        /\ isOpen t = true
        /\ (forall x, In x l2 -> isOpen x = false)
        /\ getOpenEntryInfo (eintraege st)
           = {| hasOpen := true; open_id := Some (id t) |}
        /\ (forall x, In x (eintraege st) -> isOpen x = true -> id t <= id x)
        /\ (forall currentTime x, currentTime <> "" ->
              (In x (eintraege (handleAddEnde currentTime st))
               /\ isOpen x = true)
              <-> (In x (eintraege st) /\ isOpen x = true /\ id x <> id t))).
Proof.
  intros Hr. pose proof (reachable_sorted st Hr) as Hs.
  split; [exact Hs |].
  split; [intros a; now apply step_sorted |].
  split; [intros l es ss; split; apply sortById_sorted |].
  intros e Hin Ho.
  destruct (getOpenEntryInfo_last _ e Hin Ho)
    as (l1 & t & l2 & E & Pt & Hl2 & G).
  exists l1, t, l2.
  split; [exact E |]. split; [exact Pt |]. split; [exact Hl2 |].
  split; [exact G |]. split.
  - intros x Hx Hox. rewrite E in Hx, Hs.
    apply in_app_or in Hx. destruct Hx as [Hx | [<- | Hx]].
    + now apply (sortedDesc_app_le l1 l2 t x).
    + lia.
    + rewrite (Hl2 x Hx) in Hox. discriminate.
  - intros currentTime x Hnow.
    assert (Ht : In t (eintraege st))
      by (rewrite E; apply in_or_app; right; now left).
    destruct (find_id_some (id t) _ t Ht eq_refl) as (o & Fo & Io & _).
    unfold handleAddEnde. rewrite G. cbn [hasOpen open_id]. rewrite Fo.
    set (base := {| id := id o; date := date o; start := start o;
                    ende := Some currentTime |}).
    pose proof (split_entries_closed base (NEXT_ID st) x) as C.
    destruct (createEntriesWithOptionalSplit base (NEXT_ID st)) as [r n].
    cbn [updateSplits updateEintraege eintraege fst] in *.
    rewrite sortById_In, in_app_iff, filter_In, Io.
    assert (Tb : truthy (ende base) = true).
    { cbn. destruct (String.eqb_spec currentTime ""); [contradiction | easy]. }
    split.
    + intros [[[Hx Hid] | Hx] Hox].
      * apply negb_true_iff, Z.eqb_neq in Hid. auto.
      * rewrite (C Tb Hx) in Hox. discriminate.
    + intros (Hx & Hox & Hid). split; [| exact Hox].
      left. split; [exact Hx |]. now apply negb_true_iff, Z.eqb_neq.
Qed.

Lemma closing_targets_oldest_witness :
  let st := step (AddStart "2024-03-09" "09:00" true)
              (step (AddStart "2024-03-09" "08:00" true) (initial 1000)) in
  map id (eintraege st) = [1002; 1001]
  /\ sortedDesc (eintraege st)
  /\ getOpenEntryInfo (eintraege st)
     = {| hasOpen := true; open_id := Some 1001 |}
  /\ map id (eintraege (handleAddEnde "17:00" st)) = [1002; 1001]
  /\ map isOpen (eintraege (handleAddEnde "17:00" st)) = [true; false].
Proof.
  intros st.
  assert (R : reachable st) by (do 2 apply reach_step; apply reach_init).
  destruct (closing_targets_oldest st R) as [H1 _].
  repeat split; try reflexivity. exact H1.
Defined.

End Closing.

(* ================================================================== *)
(** * Deleting *)

Section Deleting.

Lemma findSplit_some (i : Z) (ss : list SplitEntry) (q : SplitEntry) :
  In q ss -> refersTo i q = true ->
  exists p, findSplit i ss = Some p /\ In p ss /\ refersTo i p = true.
Proof.
  intros Hin Hq. unfold findSplit.
  destruct (find (refersTo i) ss) as [p |] eqn:F.
  - exists p. apply find_some in F. tauto.
  - rewrite (find_none _ _ F q Hin) in Hq. discriminate.
Qed.

Lemma withoutHalves_In (p : SplitEntry) (l : list Eintrag) (e : Eintrag) :
  In e (withoutHalves p l) <->
  In e l /\ id e <> firstId p /\ id e <> secondId p.
Proof.
  unfold withoutHalves. rewrite filter_In, andb_true_iff, !negb_true_iff,
    !Z.eqb_neq. tauto.
Qed.

Lemma withoutPair_In (p : SplitEntry) (ss : list SplitEntry) (q : SplitEntry) :
  In q (withoutPair p ss) <-> In q ss /\ split_id q <> split_id p.
Proof.
  unfold withoutPair. rewrite filter_In, negb_true_iff.
  destruct (String.eqb_spec (split_id q) (split_id p)); intuition congruence.
Qed.

Lemma handleDeleteEntry_eintraege (i : Z) (st : App) :
  eintraege (handleDeleteEntry i st) =
    sortById match findSplit i (splits st) with
             | Some p => withoutHalves p (eintraege st)
             | None => filter (fun e => negb (id e =? i)) (eintraege st)
             end.
Proof.
  unfold handleDeleteEntry, findSplit, refersTo, withoutHalves.
  destruct (editingEntryId st) as [j |]; [destruct (j =? i) |]; reflexivity.
Qed.

Lemma handleDeleteEntry_splits (i : Z) (st : App) :
  splits (handleDeleteEntry i st) =
    match findSplit i (splits st) with
    | Some p => withoutPair p (splits st)
    | None => splits st
    end.
Proof.
  unfold handleDeleteEntry, findSplit, refersTo, withoutPair.
  destruct (editingEntryId st) as [j |]; [destruct (j =? i) |]; reflexivity.
Qed.

(** C4.  [handleDeleteEntry] on the id [i].  If a pair of the split
    collection names [i], then for the pair [p] that the lookup finds (the
    pair of [i], when ids are named once) the entries kept are exactly those
    whose id is neither half of [p], so none has the id [i], and the pairs
    kept are those whose id differs from that of [p], so [p] is gone: both
    halves and the pair go together.  If no pair names [i], the entries
    kept are exactly those whose id is not [i] and the split collection is
    unchanged.  A sorted collection keeps its order in both cases. *)
Theorem delete_spec (i : Z) (st : App) :
  ((exists q, In q (splits st) /\ refersTo i q = true) ->
   exists p, findSplit i (splits st) = Some p
     /\ In p (splits st) /\ (firstId p = i \/ secondId p = i)
     /\ (forall e, In e (eintraege (handleDeleteEntry i st)) <->
                   In e (eintraege st)
                   /\ id e <> firstId p /\ id e <> secondId p)
     /\ (forall e, In e (eintraege (handleDeleteEntry i st)) -> id e <> i)
     /\ (forall q, In q (splits (handleDeleteEntry i st)) <->
                   In q (splits st) /\ split_id q <> split_id p)
     /\ ~ In p (splits (handleDeleteEntry i st))
     /\ (sortedDesc (eintraege st) ->
         eintraege (handleDeleteEntry i st) = withoutHalves p (eintraege st)))
  /\ ((forall q, In q (splits st) -> refersTo i q = false) ->
      (forall e, In e (eintraege (handleDeleteEntry i st)) <->
                 In e (eintraege st) /\ id e <> i)
      /\ splits (handleDeleteEntry i st) = splits st
      /\ (sortedDesc (eintraege st) ->
          eintraege (handleDeleteEntry i st)
          = filter (fun e => negb (id e =? i)) (eintraege st))).
Proof.
  split.
  - intros (q & Hq & Rq).
    destruct (findSplit_some i _ q Hq Rq) as (p & F & Hp & Rp).
    exists p. rewrite handleDeleteEntry_eintraege, handleDeleteEntry_splits, F.
    assert (Hi : firstId p = i \/ secondId p = i).
    { unfold refersTo in Rp. apply orb_true_iff in Rp.
      destruct Rp as [R | R]; apply Z.eqb_eq in R; auto. }
    assert (A : forall e, In e (sortById (withoutHalves p (eintraege st))) <->
                          In e (eintraege st)
                          /\ id e <> firstId p /\ id e <> secondId p)
      by (intros e; now rewrite sortById_In, withoutHalves_In).
    split; [reflexivity |]. split; [exact Hp |]. split; [exact Hi |].
    split; [exact A |]. split.
    { intros e He. apply A in He. destruct Hi; lia. }
    split; [intros q'; apply withoutPair_In |]. split.
    { intros C. apply withoutPair_In in C. now destruct C. }
    intros Hs. apply sortById_fixed. now apply sortedDesc_filter.
  - intros Hno.
    assert (F : findSplit i (splits st) = None).
    { unfold findSplit. destruct (find (refersTo i) (splits st)) as [p |] eqn:F;
        [| reflexivity].
      apply find_some in F. destruct F as [F1 F2].
      rewrite (Hno p F1) in F2. discriminate. }
    rewrite handleDeleteEntry_eintraege, handleDeleteEntry_splits, F.
    split; [| split; [reflexivity |]].
    + intros e. rewrite sortById_In, filter_In, negb_true_iff, Z.eqb_neq.
      tauto.
    + intros Hs. apply sortById_fixed. now apply sortedDesc_filter.
Qed.

Lemma delete_spec_witness :
  let first := mkEintrag 1002 "2024-03-09" "23:50" (Some "24:00") in
  let second := mkEintrag 1003 "2024-03-09" "00:00" (Some "00:10") in
  let other := mkEintrag 1001 "2024-03-08" "09:00" (Some "17:00") in
  let st := mkApp 1003 [second; first; other] [mkSplit "1002-1003" 1002 1003]
                  None none "" "" in
  eintraege (handleDeleteEntry 1003 st) = [other]
  /\ splits (handleDeleteEntry 1003 st) = []
  /\ eintraege (handleDeleteEntry 1001 st) = [second; first]
  /\ splits (handleDeleteEntry 1001 st) = splits st.
Proof.
  intros first second other st.
  destruct (delete_spec 1003 st) as [H _].
  destruct H as (p & F & _ & _ & _ & _ & _ & _ & H8).
  { exists (mkSplit "1002-1003" 1002 1003). split; [now left | reflexivity]. }
  injection F as <-.
  destruct (delete_spec 1001 st) as [_ H].
  destruct H as (_ & H2 & H3).
  { intros q [<- | []]. reflexivity. }
  split; [rewrite H8; [reflexivity | unfold sortedDesc] |].
  - repeat constructor; simpl; lia.
  - split; [reflexivity |]. split; [| exact H2].
    rewrite H3; [reflexivity |]. unfold sortedDesc.
    repeat constructor; simpl; lia.
Defined.

End Deleting.

(* ================================================================== *)
(** * Editing *)

Section Editing.

Lemma handleSaveEdit_passes (st : App) (eid : Z) :
  editingEntryId st = Some eid -> eid <> 0 ->
  ~ (editMode st = mode_start /\ editingStart st = "") ->
  ~ (editMode st = mode_ende /\ editingEnde st = "") ->
  handleSaveEdit st = saveEdit eid st.
Proof.
  intros He H0 H1 H2. unfold handleSaveEdit. rewrite He.
  unfold truthy_id. rewrite (proj2 (Z.eqb_neq eid 0) H0). cbn [negb].
  destruct (editMode st);
    destruct (String.eqb_spec (editingStart st) "");
    destruct (String.eqb_spec (editingEnde st) "");
    try reflexivity; exfalso; auto.
Qed.

Lemma commitEdit_fields l ss base n st :
  let out := createEntriesWithOptionalSplit base n in
  eintraege (commitEdit l ss base n st) = sortById (l ++ entries (fst out))
  /\ splits (commitEdit l ss base n st) = (ss ++ optList (split (fst out)))%list
  /\ NEXT_ID (commitEdit l ss base n st) = snd out.
Proof.
  unfold commitEdit. destruct (createEntriesWithOptionalSplit base n).
  repeat split.
Qed.

Lemma refersTo_ids (i : Z) (q : SplitEntry) :
  refersTo i q = true <-> firstId q = i \/ secondId q = i.
Proof.
  unfold refersTo. now rewrite orb_true_iff, !Z.eqb_eq.
Qed.

Lemma findEntry_some (i : Z) (l : list Eintrag) (e : Eintrag) :
  findEntry i l = Some e -> In e l /\ id e = i.
Proof.
  intros F. apply find_some in F. now rewrite Z.eqb_eq in F.
Qed.

Lemma saveEdit_pair (st : App) (eid : Z) (p : SplitEntry) (f s : Eintrag) :
  findSplit eid (splits st) = Some p ->
  findEntry (firstId p) (eintraege st) = Some f ->
  findEntry (secondId p) (eintraege st) = Some s ->
  saveEdit eid st =
    commitEdit (withoutHalves p (eintraege st)) (withoutPair p (splits st))
      (applyEdit st {| id := NEXT_ID st + 1; date := date f; start := start f;
                       ende := ende s |})
      (NEXT_ID st + 1) st.
Proof.
  intros Fp Ff Fs.
  pose proof (find_some _ _ Fp) as [_ Rp]. apply refersTo_ids in Rp.
  destruct (findEntry_some _ _ _ Ff) as [If Idf].
  destruct (findEntry_some _ _ _ Fs) as [Is Ids].
  assert (X : exists o, find (fun e => id e =? eid) (eintraege st) = Some o
                        /\ id o = eid /\ In o (eintraege st)).
  { destruct Rp as [R | R].
    - apply (find_id_some eid _ f If). congruence.
    - apply (find_id_some eid _ s Is). congruence. }
  destruct X as (o & Fo & Io & _).
  unfold saveEdit. rewrite Fo, Io.
  unfold findSplit, refersTo in Fp. rewrite Fp.
  unfold findEntry in Ff, Fs. cbv zeta. rewrite Ff, Fs.
  reflexivity.
Qed.

(** The ids that a split gives out are the candidate's own or new ones. *)
Lemma split_ids (base : Eintrag) (k : Z) :
  let out := createEntriesWithOptionalSplit base k in
  (forall x, In x (entries (fst out)) -> id x = id base \/ k < id x)
  /\ (forall q, split (fst out) = Some q -> k < firstId q /\ k < secondId q).
Proof.
  cbv zeta.
  destruct (ende base) as [e |] eqn:He.
  - destruct (String.eqb_spec e "") as [-> | Hne].
    + unfold createEntriesWithOptionalSplit. rewrite He. simpl.
      split; [intros x [<- | []]; now left | discriminate].
    + rewrite (split_present base e k He Hne).
      destruct (geb _ _ && leb _ _); simpl.
      * split; [intros x [<- | []]; now left | discriminate].
      * split.
        -- intros x [<- | [<- | []]]; simpl; right; lia.
        -- intros q H. injection H as <-. simpl. lia.
  - unfold createEntriesWithOptionalSplit. rewrite He. simpl.
    split; [intros x [<- | []]; now left | discriminate].
Qed.

(** C3.  [handleSaveEdit] when the edit passes the checks and the entry
    edited belongs to a pair [p] whose halves [f] and [s] are both in the
    collection.  The halves are merged ([buildBaseFromSplit]: date and start
    of the first, end of the second, a new id), the edited field is set on
    the merged entry, and the result is split again; the new collection is
    the old one less the entries with the id of either half, with the
    entries of the new split added, and sorted; the new split collection is
    the old one less the pairs with the id of [p], with the new pair, if any,
    added.  When the ids of the store are ids issued before, no entry with
    the id of either half is left and [p] is gone, whichever half the edit
    was made on.  In particular, setting the start to a value that reads
    as no later than the second half's end (itself within the day) leaves
    one new entry in their place, with the edited start and the second
    half's end, named by no pair.  The field set is the one being edited:
    the start when the start is edited, the merged entry's other fields
    being kept, and the end otherwise; so an edit of the end to a value
    that reads as before the first half's start leaves two new halves
    linked by a new pair, the second ending at the edited value, and an
    edit of the end to a value not before that start and within the day
    leaves one new entry from the first half's start to the edited
    value. *)
Theorem edit_pair_spec (st : App) (eid : Z) (p : SplitEntry) (f s : Eintrag) :
  editingEntryId st = Some eid -> eid <> 0 ->
  ~ (editMode st = mode_start /\ editingStart st = "") ->
  ~ (editMode st = mode_ende /\ editingEnde st = "") ->
  findSplit eid (splits st) = Some p ->
  findEntry (firstId p) (eintraege st) = Some f ->
  findEntry (secondId p) (eintraege st) = Some s ->
  let n := NEXT_ID st in
  let merged := fst (buildBaseFromSplit f s n) in
  let out := createEntriesWithOptionalSplit (applyEdit st merged) (n + 1) in
  let st' := handleSaveEdit st in
  (firstId p = eid \/ secondId p = eid)
  /\ merged = {| id := n + 1; date := date f; start := start f;
                 ende := ende s |}
  /\ eintraege st'
     = sortById (withoutHalves p (eintraege st) ++ entries (fst out))
  /\ splits st'
     = (withoutPair p (splits st) ++ optList (split (fst out)))%list
  /\ NEXT_ID st' = snd out
  /\ (idsIssued st ->
      (forall e, In e (eintraege st') ->
                 id e <> firstId p /\ id e <> secondId p)
      /\ ~ In p (splits st'))
  /\ (forall e sv m,
        editMode st = mode_start -> ende s = Some e -> e <> "" ->
        timeToMinutes (editingStart st) = Num sv -> endMinutes e = Num m ->
        sv <= m <= 1440 ->
        let single := {| id := n + 1; date := date f;
                         start := editingStart st; ende := Some e |} in
        eintraege st' = sortById (withoutHalves p (eintraege st) ++ [single])
        /\ splits st' = withoutPair p (splits st)
        /\ (idsIssued st ->
            forall q, In q (splits st') -> refersTo (id single) q = false))
  /\ (editMode st = mode_start ->
      applyEdit st merged = {| id := n + 1; date := date f;
                               start := editingStart st; ende := ende s |})
  /\ (editMode st <> mode_start ->
      applyEdit st merged = {| id := n + 1; date := date f;
                               start := start f;
                               ende := Some (editingEnde st) |})
  /\ (forall sv m,
        editMode st = mode_ende ->
        timeToMinutes (start f) = Num sv ->
        endMinutes (editingEnde st) = Num m ->
        let edited := {| id := n + 1; date := date f; start := start f;
                         ende := Some (editingEnde st) |} in
        (m < sv ->
         eintraege st'
           = sortById (withoutHalves p (eintraege st)
                       ++ [firstHalf edited (n + 1);
                           secondHalf edited (editingEnde st) (n + 1)])
         /\ splits st' = (withoutPair p (splits st) ++ [pairOf (n + 1)])%list
         /\ NEXT_ID st' = n + 3)
        /\ (sv <= m <= 1440 ->
            eintraege st'
              = sortById (withoutHalves p (eintraege st) ++ [edited])
            /\ splits st' = withoutPair p (splits st)
            /\ NEXT_ID st' = n + 1)).
Proof.
  intros He H0 V1 V2 Fp Ff Fs n merged out st'.
  assert (Em : merged = {| id := n + 1; date := date f; start := start f;
                           ende := ende s |}) by reflexivity.
  assert (Es : st' = commitEdit (withoutHalves p (eintraege st))
                       (withoutPair p (splits st)) (applyEdit st merged)
                       (n + 1) st).
  { unfold st'. rewrite (handleSaveEdit_passes st eid He H0 V1 V2).
    now rewrite (saveEdit_pair st eid p f s Fp Ff Fs). }
  destruct (commitEdit_fields (withoutHalves p (eintraege st))
              (withoutPair p (splits st)) (applyEdit st merged) (n + 1) st)
    as (C1 & C2 & C3).
  fold out in C1, C2, C3. rewrite <- Es in C1, C2, C3.
  pose proof (find_some _ _ Fp) as [Ip Rp]. apply refersTo_ids in Rp.
  split; [exact Rp |]. split; [exact Em |]. split; [exact C1 |].
  split; [exact C2 |]. split; [exact C3 |].
  destruct (split_ids (applyEdit st merged) (n + 1)) as [S1 S2].
  fold out in S1, S2.
  assert (Ib : id (applyEdit st merged) = n + 1)
    by (unfold applyEdit; destruct (editMode st); reflexivity).
  split; [| split; [| split; [| split]]].
  - intros [_ I2]. destruct (I2 p Ip) as [L1 L2]. fold n in L1, L2.
    split.
    + intros e Hin. rewrite C1, sortById_In, in_app_iff in Hin.
      destruct Hin as [Hin | Hin].
      * apply withoutHalves_In in Hin. tauto.
      * apply S1 in Hin. rewrite Ib in Hin. lia.
    + rewrite C2, in_app_iff. intros [Hin | Hin].
      * apply withoutPair_In in Hin. now destruct Hin.
      * destruct (split (fst out)) as [q |] eqn:Q; [| contradiction].
        destruct Hin as [<- | []]. destruct (S2 q eq_refl). lia.
  - intros e sv m Hmode Hse Hne Hsv Hm Hle single.
    assert (Ea : applyEdit st merged = single).
    { unfold applyEdit. rewrite Hmode, Em. cbn. now rewrite Hse. }
    assert (Eo : out = unchanged single (n + 1)).
    { unfold out. rewrite Ea.
      apply (split_within single e (n + 1) eq_refl Hne).
      exists sv, m. repeat split; auto; lia. }
    rewrite Eo in C1, C2. cbn in C1, C2. rewrite app_nil_r in C2.
    split; [exact C1 |]. split; [exact C2 |].
    intros [_ I2] q Hq. rewrite C2 in Hq. apply withoutPair_In in Hq.
    destruct Hq as [Hq _]. destruct (I2 q Hq) as [L1 L2]. fold n in L1, L2.
    unfold refersTo. cbn [single id].
    apply orb_false_iff. split; apply Z.eqb_neq; lia.
  - intros Hmode. unfold applyEdit. now rewrite Hmode, Em.
  - intros Hmode. unfold applyEdit. rewrite Em.
    destruct (editMode st); [reflexivity | now elim Hmode | reflexivity].
  - intros sv m Hmode Hsv Hm edited.
    assert (Hne : editingEnde st <> "")
      by (intros E; apply V2; split; assumption).
    assert (Ea : applyEdit st merged = edited)
      by (unfold applyEdit; now rewrite Hmode, Em).
    split.
    + intros Lt.
      assert (Eo : out = halved edited (editingEnde st) (n + 1)).
      { unfold out. rewrite Ea.
        apply (split_beyond edited (editingEnde st) (n + 1) eq_refl Hne).
        exact (crossing_beyond edited (editingEnde st) sv m Hsv Hm Lt). }
      rewrite Eo in C1, C2, C3. cbn in C1, C2, C3.
      split; [exact C1 |]. split; [exact C2 | rewrite C3; lia].
    + intros Le.
      assert (Eo : out = unchanged edited (n + 1)).
      { unfold out. rewrite Ea.
        apply (split_within edited (editingEnde st) (n + 1) eq_refl Hne).
        exists sv, m. repeat split; auto; lia. }
      rewrite Eo in C1, C2, C3. cbn in C1, C2, C3. rewrite app_nil_r in C2.
      split; [exact C1 |]. split; [exact C2 | exact C3].
Qed.

Lemma edit_pair_spec_witness :
  let first := mkEintrag 1002 "2024-03-09" "23:50" (Some "24:00") in
  let second := mkEintrag 1003 "2024-03-09" "00:00" (Some "00:10") in
  let st := mkApp 1003 [second; first] [mkSplit "1002-1003" 1002 1003]
                  (Some 1002) mode_start "00:05" "" in
  let st2 := mkApp 1003 [second; first] [mkSplit "1002-1003" 1002 1003]
                   (Some 1003) mode_ende "" "00:20" in
  eintraege (handleSaveEdit st)
    = [mkEintrag 1004 "2024-03-09" "00:05" (Some "00:10")]
  /\ splits (handleSaveEdit st) = []
  /\ NEXT_ID (handleSaveEdit st) = 1004
  /\ eintraege (handleSaveEdit st2)
     = [mkEintrag 1006 "2024-03-09" "00:00" (Some "00:20");
        mkEintrag 1005 "2024-03-09" "23:50" (Some "24:00")]
  /\ splits (handleSaveEdit st2) = [mkSplit "1005-1006" 1005 1006].
Proof.
  intros first second st st2.
  assert (W1 : ~ (editMode st2 = mode_start /\ editingStart st2 = ""))
    by (intros [C _]; discriminate C).
  assert (W2 : ~ (editMode st2 = mode_ende /\ editingEnde st2 = ""))
    by (intros [_ C]; discriminate C).
  pose proof (edit_pair_spec st2 1003 (mkSplit "1002-1003" 1002 1003)
                first second eq_refl ltac:(discriminate) W1 W2
                eq_refl eq_refl eq_refl) as G.
  cbv zeta in G. destruct G as (_ & _ & _ & _ & _ & _ & _ & _ & _ & G).
  destruct (G 1430 20 eq_refl eq_refl eq_refl) as [G1 _].
  destruct (G1 ltac:(lia)) as (F1 & F2 & _).
  assert (V1 : ~ (editMode st = mode_start /\ editingStart st = ""))
    by (intros [_ C]; discriminate C).
  assert (V2 : ~ (editMode st = mode_ende /\ editingEnde st = ""))
    by (intros [C _]; discriminate C).
  pose proof (edit_pair_spec st 1002 (mkSplit "1002-1003" 1002 1003)
                first second eq_refl ltac:(discriminate) V1 V2
                eq_refl eq_refl eq_refl) as H.
  cbv zeta in H. destruct H as (_ & _ & _ & _ & H5 & _ & H7 & _).
  destruct (H7 "00:10" 5 10 eq_refl eq_refl ltac:(discriminate)
               eq_refl eq_refl ltac:(lia)) as (E1 & E2 & _).
  split; [rewrite E1; reflexivity |].
  split; [rewrite E2; reflexivity |].
  split; [rewrite H5; reflexivity |].
  split; [rewrite F1; reflexivity | rewrite F2; reflexivity].
Defined.

(** C7.  [handleSaveEdit] changes nothing at all when the start is being
    edited and the value is empty, or the end is being edited and the value
    is empty, or no entry is being edited; and when no entry has the id
    being edited it leaves the collection, the split collection and the
    counter as they are (it only closes the edit form). *)
Theorem edit_blocked (st : App) :
  (editMode st = mode_start -> editingStart st = "" -> handleSaveEdit st = st)
  /\ (editMode st = mode_ende -> editingEnde st = "" -> handleSaveEdit st = st)
  /\ (editingEntryId st = None \/ editingEntryId st = Some 0 ->
      handleSaveEdit st = st)
  /\ (forall eid, editingEntryId st = Some eid ->
        (forall e, In e (eintraege st) -> id e <> eid) ->
        eintraege (handleSaveEdit st) = eintraege st
        /\ splits (handleSaveEdit st) = splits st
        /\ NEXT_ID (handleSaveEdit st) = NEXT_ID st).
Proof.
  split; [| split; [| split]].
  - intros Hm Hv. unfold handleSaveEdit. rewrite Hm, Hv.
    destruct (editingEntryId st); [| reflexivity].
    destruct (negb _); reflexivity.
  - intros Hm Hv. unfold handleSaveEdit. rewrite Hm, Hv.
    destruct (editingEntryId st); [| reflexivity].
    destruct (negb _); [reflexivity |].
    destruct (String.eqb (editingStart st) ""); reflexivity.
  - intros [H | H]; unfold handleSaveEdit; rewrite H; reflexivity.
  - intros eid He Hno. unfold handleSaveEdit. rewrite He.
    assert (S : saveEdit eid st = resetEditState st).
    { unfold saveEdit.
      destruct (find _ (eintraege st)) as [o |] eqn:F; [| reflexivity].
      apply find_some in F. destruct F as [F1 F2]. apply Z.eqb_eq in F2.
      now destruct (Hno o F1). }
    destruct (negb _); [auto |].
    destruct (editMode st), (String.eqb (editingStart st) ""),
      (String.eqb (editingEnde st) ""); rewrite ?S; auto.
Qed.

Lemma edit_blocked_witness :
  let e := mkEintrag 1001 "2024-03-09" "09:00" (Some "17:00") in
  handleSaveEdit (mkApp 1001 [e] [] (Some 1001) mode_start "" "") 
    = mkApp 1001 [e] [] (Some 1001) mode_start "" ""
  /\ handleSaveEdit (mkApp 1001 [e] [] (Some 1001) mode_ende "" "")
    = mkApp 1001 [e] [] (Some 1001) mode_ende "" ""
  /\ eintraege (handleSaveEdit
                  (mkApp 1001 [e] [] (Some 77) mode_start "08:00" ""))
    = [e].
Proof.
  intros e.
  split; [| split].
  - now apply (proj1 (edit_blocked _)).
  - now apply (proj1 (proj2 (edit_blocked _))).
  - apply (proj2 (proj2 (proj2 (edit_blocked
              (mkApp 1001 [e] [] (Some 77) mode_start "08:00" "")))) 77
             eq_refl).
    intros x [<- | []]. discriminate.
Defined.

End Editing.

(* ================================================================== *)
(** * The calendar *)

Section Calendar.

Lemma days_of_civil_of_days (z : Z) :
  days_from_civil (fst (fst (civil_from_days z)))
                  (snd (fst (civil_from_days z)))
                  (snd (civil_from_days z)) = z.
Proof.
  unfold civil_from_days, days_from_civil. cbv zeta. cbn [fst snd].
  repeat match goal with
         | |- context [if ?b then _ else _] =>
             let E := fresh in destruct b eqn:E
         end;
    rewrite ?Z.leb_le, ?Z.leb_gt, ?Z.ltb_lt, ?Z.ltb_ge in *;
    Z.div_mod_to_equations; lia.
Qed.

Lemma chkMonth_all :
  forallb (fun m1 => forallb (chkMonth m1) (map Z.of_nat (seq 0 (Z.to_nat 31))))
          (map Z.of_nat (seq 0 (Z.to_nat 12))) = true.
Proof. vm_compute. reflexivity. Qed.

Lemma year_of_era (yoe doy : Z) :
  0 <= yoe < 400 -> 0 <= doy <= 365 ->
  (doy = 365 ->
   (yoe + 1) mod 4 = 0
   /\ ((yoe + 1) mod 100 <> 0 \/ (yoe + 1) mod 400 = 0)) ->
  let doe := yoe * 365 + yoe / 4 - yoe / 100 + doy in
  0 <= doe < 146097
  /\ (doe - doe / 1460 + doe / 36524 - doe / 146096) / 365 = yoe.
Proof.
  intros Hy Hd Hl doe. unfold doe. Z.div_mod_to_equations; lia.
Qed.

Lemma daysInMonth_max (y m : Z) : daysInMonth y m <= maxDay m.
Proof.
  unfold daysInMonth, maxDay.
  destruct (m =? 2); [destruct (isLeap y); lia |].
  destruct (_ || _); lia.
Qed.

Lemma maxDay_31 (m : Z) : maxDay m <= 31.
Proof.
  unfold maxDay. destruct (m =? 2); [lia |]. destruct (_ || _); lia.
Qed.

Lemma civil_from_days_parts (z era doe yoe doy mp : Z) :
  z + 719468 = era * 146097 + doe -> 0 <= doe < 146097 ->
  (doe - doe / 1460 + doe / 36524 - doe / 146096) / 365 = yoe ->
  doy = doe - (365 * yoe + yoe / 4 - yoe / 100) ->
  mp = (5 * doy + 2) / 153 ->
  civil_from_days z =
    (yoe + era * 400 + (if (if mp <? 10 then mp + 3 else mp - 9) <=? 2
                        then 1 else 0),
     if mp <? 10 then mp + 3 else mp - 9,
     doy - (153 * mp + 2) / 5 + 1).
Proof.
  intros Hz Hdoe Hyoe Hdoy Hmp.
  assert (E : (z + 719468) / 146097 = era)
    by (symmetry; apply (Z.div_unique_pos _ _ _ doe); lia).
  unfold civil_from_days. rewrite E. cbv zeta.
  replace (z + 719468 - era * 146097) with doe by lia.
  rewrite Hyoe, <- Hdoy, <- Hmp. reflexivity.
Qed.

(** The day number of a date of the calendar names that date. *)
Lemma civil_of_days_of_civil (y m d : Z) :
  1 <= m <= 12 -> 1 <= d <= daysInMonth y m ->
  civil_from_days (days_from_civil y m d) = (y, m, d).
Proof.
  intros Hm Hd.
  pose proof (daysInMonth_max y m) as Hmax.
  pose proof (maxDay_31 m) as Hd31.
  pose proof (forallb_upto _ _ chkMonth_all (m - 1) ltac:(lia)) as C.
  cbv beta in C.
  pose proof (forallb_upto _ _ C (d - 1) ltac:(lia)) as C'. clear C.
  unfold chkMonth in C'. cbv zeta in C'.
  replace (m - 1 + 1) with m in C' by lia.
  replace (d - 1 + 1) with d in C' by lia.
  rewrite (proj2 (Z.leb_le d (maxDay m))) in C' by lia. cbn [implb] in C'.
  unfold days_from_civil. cbv zeta.
  set (y' := if m <=? 2 then y - 1 else y).
  set (era := y' / 400). set (yoe := y' - era * 400).
  set (mp := (m + 9) mod 12) in *.
  set (doy := (153 * mp + 2) / 5 + d - 1) in *.
  set (doe := yoe * 365 + yoe / 4 - yoe / 100 + doy).
  apply andb_true_iff in C'; destruct C' as [C' C6].
  apply andb_true_iff in C'; destruct C' as [C' C5].
  apply andb_true_iff in C'; destruct C' as [C' C4].
  apply andb_true_iff in C'; destruct C' as [C' C3].
  apply andb_true_iff in C'; destruct C' as [C1 C2].
  apply Z.eqb_eq in C1, C2, C3. apply Z.leb_le in C4, C5.
  assert (Hyoe : 0 <= yoe < 400)
    by (unfold yoe, era; Z.div_mod_to_equations; lia).
  assert (L : doy = 365 ->
              (yoe + 1) mod 4 = 0
              /\ ((yoe + 1) mod 100 <> 0 \/ (yoe + 1) mod 400 = 0)).
  { intros D.
    rewrite (proj2 (Z.eqb_eq doy 365) D) in C6. cbn [implb] in C6.
    apply andb_true_iff in C6. destruct C6 as [M2 D29].
    apply Z.eqb_eq in M2, D29.
    assert (Y : y = yoe + 1 + era * 400)
      by (unfold yoe, y'; rewrite M2; cbn; lia).
    unfold daysInMonth in Hd. rewrite M2 in Hd. cbn [Z.eqb Pos.eqb] in Hd.
    destruct (isLeap y) eqn:Lp; [| lia].
    unfold isLeap in Lp.
    apply andb_true_iff in Lp. destruct Lp as [L4 L100].
    apply Z.eqb_eq in L4.
    split; [rewrite Y in L4; Z.div_mod_to_equations; lia |].
    apply orb_true_iff in L100. destruct L100 as [L100 | L400]; [left | right].
    - apply negb_true_iff, Z.eqb_neq in L100.
      rewrite Y in L100. Z.div_mod_to_equations; lia.
    - apply Z.eqb_eq in L400. rewrite Y in L400. Z.div_mod_to_equations; lia. }
  destruct (year_of_era yoe doy Hyoe ltac:(lia) L) as [B1 B2].
  fold doe in B1, B2.
  rewrite (civil_from_days_parts _ era doe yoe doy mp);
    [| lia | exact B1 | exact B2 | unfold doe; lia | congruence].
  rewrite C3. f_equal; [f_equal |]; [| lia].
  unfold yoe, y'. destruct (m <=? 2); lia.
Qed.

Lemma days_from_civil_day (y m d : Z) :
  days_from_civil y m d = days_from_civil y m 1 + d - 1.
Proof. unfold days_from_civil. cbv zeta. lia. Qed.

Lemma MakeDay_civil (y m d : Z) :
  1 <= m <= 12 -> MakeDay y (m - 1) d = days_from_civil y m d.
Proof.
  intros Hm. unfold MakeDay.
  replace ((m - 1) / 12) with 0 by (Z.div_mod_to_equations; lia).
  replace ((m - 1) mod 12 + 1) with m by (Z.div_mod_to_equations; lia).
  rewrite Z.add_0_r. now rewrite (days_from_civil_day y m d).
Qed.

(** Day numbers count the days of the calendar one after the other, from
    1970-01-01: within a month, from a month to the next, from a year to
    the next. *)
Lemma epoch_day : days_from_civil 1970 1 1 = 0.
Proof. reflexivity. Qed.

Lemma next_day (y m d : Z) :
  days_from_civil y m (d + 1) = days_from_civil y m d + 1.
Proof.
  rewrite (days_from_civil_day y m d), (days_from_civil_day y m (d + 1)). lia.
Qed.

Lemma next_month (y m : Z) :
  1 <= m <= 11 ->
  days_from_civil y (m + 1) 1 = days_from_civil y m (daysInMonth y m) + 1.
Proof.
  intros Hm.
  assert (M : m = 1 \/ m = 2 \/ m = 3 \/ m = 4 \/ m = 5 \/ m = 6 \/ m = 7
              \/ m = 8 \/ m = 9 \/ m = 10 \/ m = 11) by lia.
  unfold days_from_civil, daysInMonth, isLeap. cbv zeta.
  repeat match goal with
         | H : _ \/ _ |- _ => destruct H as [-> | H]
         end;
    try subst m;
    cbn [Z.add Z.eqb Z.leb Z.compare Pos.compare Pos.compare_cont Pos.add
         Pos.succ Pos.eqb orb];
    try (Z.div_mod_to_equations; lia).
  all: destruct (y mod 4 =? 0) eqn:E4; destruct (y mod 100 =? 0) eqn:E100;
    destruct (y mod 400 =? 0) eqn:E400; cbn [andb orb negb];
    rewrite ?Z.eqb_eq, ?Z.eqb_neq in *; Z.div_mod_to_equations; lia.
Qed.

Lemma next_year (y : Z) :
  days_from_civil (y + 1) 1 1 = days_from_civil y 12 31 + 1.
Proof.
  unfold days_from_civil. cbv zeta.
  cbn [Z.leb Z.compare Pos.compare Pos.compare_cont].
  replace (y + 1 - 1) with y by lia.
  Z.div_mod_to_equations; lia.
Qed.

Lemma days_from_civil_bounds (y m d : Z) :
  0 <= y <= 9999 -> 1 <= m <= 12 -> 1 <= d <= 31 ->
  -719900 <= days_from_civil y m d <= 2933000.
Proof.
  intros Hy Hm Hd. unfold days_from_civil. cbv zeta.
  destruct (m <=? 2); Z.div_mod_to_equations; lia.
Qed.

End Calendar.

(* ================================================================== *)
(** * Date strings *)

Section DateStrings.

Lemma append_assoc (a b c : string) : (a ++ b) ++ c = a ++ b ++ c.
Proof. induction a as [| x a IH]; simpl; [reflexivity | now rewrite IH]. Qed.

Lemma length_append (a b : string) :
  String.length (a ++ b) = (String.length a + String.length b)%nat.
Proof. induction a as [| x a IH]; simpl; [reflexivity | now rewrite IH]. Qed.

Lemma noChar_append (c : ascii) (a b : string) :
  noChar c (a ++ b) = noChar c a && noChar c b.
Proof.
  induction a as [| x a IH]; simpl; [reflexivity |].
  now rewrite IH, andb_assoc.
Qed.

Lemma split_nonempty (c : ascii) (s : string) : JS.split c s <> [].
Proof.
  induction s as [| x s IH]; simpl; [discriminate |].
  destruct (Ascii.eqb x c); [discriminate |].
  destruct (JS.split c s); [contradiction | discriminate].
Qed.

(** The first field of a split is what stands before the separator. *)
Lemma split_hd (c : ascii) (a r : string) :
  noChar c a = true -> hd "" (JS.split c (a ++ String c r)) = a.
Proof.
  induction a as [| x a IH]; simpl; intros H.
  - now rewrite Ascii.eqb_refl.
  - apply andb_true_iff in H. destruct H as [H1 H2].
    apply negb_true_iff in H1. rewrite H1.
    specialize (IH H2).
    destruct (JS.split c (a ++ String c r)) as [| w ws] eqn:E.
    + now destruct (split_nonempty c (a ++ String c r)).
    + simpl in *. now subst.
Qed.

Lemma noT_uint (d : Decimal.uint) :
  noChar "T" (NilEmpty.string_of_uint d) = true.
Proof. induction d; simpl; auto. Qed.

Lemma noT_String (z : Z) : noChar "T" (String_ (Num z)) = true.
Proof.
  unfold String_, NilZero.string_of_int, NilZero.string_of_uint.
  destruct (Z.to_int z) as [d | d].
  - destruct d; try reflexivity; apply (noT_uint (_ d)).
  - cbn [noChar]. destruct d; try reflexivity; apply (noT_uint (_ d)).
Qed.

Lemma noT_cycle (n : nat) (cur : string) :
  noChar "T" cur = true -> noChar "T" (cycle n cur "0") = true.
Proof.
  revert cur. induction n as [| n IH]; intros cur H; [reflexivity |].
  destruct cur as [| a r]; simpl.
  - now apply IH.
  - simpl in H. apply andb_true_iff in H. destruct H as [H1 H2].
    rewrite H1. now apply IH.
Qed.

Lemma noT_padN (n : nat) (z : Z) : noChar "T" (padN n z) = true.
Proof.
  unfold padN, padStart.
  destruct (n <=? String.length (String_ (Num z)))%nat; [apply noT_String |].
  rewrite noChar_append, noT_String, noT_cycle; reflexivity.
Qed.

Lemma noT_isoYear (y : Z) : noChar "T" (isoYear y) = true.
Proof.
  unfold isoYear. destruct ((0 <=? y) && (y <=? 9999)); [apply noT_padN |].
  rewrite noChar_append, noT_padN. now destruct (y <? 0).
Qed.

Lemma noT_isoDay (z : Z) : noChar "T" (isoDay z) = true.
Proof.
  unfold isoDay. cbv zeta.
  now rewrite !noChar_append, noT_isoYear, !noT_padN.
Qed.

Lemma digit_of_bounds (a : ascii) (d : Z) : digit_of a = Some d -> 0 <= d <= 9.
Proof.
  unfold digit_of.
  destruct ((48 <=? N_of_ascii a)%N && (N_of_ascii a <=? 57)%N) eqn:E;
    [| discriminate].
  apply andb_true_iff in E. destruct E as [E1 E2].
  apply N.leb_le in E1, E2. intros H. injection H as <-. lia.
Qed.

Lemma digits_value_cons (acc : Z) (a : ascii) (s : string) :
  digits_value acc (String a s) =
    match digit_of a with
    | Some d => digits_value (10 * acc + d) s
    | None => None
    end.
Proof. reflexivity. Qed.

Lemma digits_value_nil (acc : Z) : digits_value acc "" = Some acc.
Proof. reflexivity. Qed.

Lemma Some_eq (a b : Z) : Some a = Some b -> a = b.
Proof. congruence. Qed.

Lemma digits4_bounds (c0 c1 c2 c3 : ascii) (y : Z) :
  digits_value 0 (String c0 (String c1 (String c2 (String c3 "")))) = Some y ->
  0 <= y <= 9999.
Proof.
  rewrite digits_value_cons.
  destruct (digit_of c0) as [d0 |] eqn:E0; [| discriminate].
  rewrite digits_value_cons.
  destruct (digit_of c1) as [d1 |] eqn:E1; [| discriminate].
  rewrite digits_value_cons.
  destruct (digit_of c2) as [d2 |] eqn:E2; [| discriminate].
  rewrite digits_value_cons.
  destruct (digit_of c3) as [d3 |] eqn:E3; [| discriminate].
  apply digit_of_bounds in E0, E1, E2, E3.
  rewrite digits_value_nil. intros H. apply Some_eq in H. lia.
Qed.

Lemma string_length10 (ds : string) :
  String.length ds = 10%nat ->
  exists c0 c1 c2 c3 c4 c5 c6 c7 c8 c9,
    ds = String c0 (String c1 (String c2 (String c3 (String c4 (String c5
         (String c6 (String c7 (String c8 (String c9 ""))))))))).
Proof.
  intros H.
  do 10 (destruct ds as [| ? ds]; [discriminate |]).
  destruct ds; [| discriminate].
  repeat eexists.
Qed.

(** What [parseDay] accepts is a date of the calendar with a year of four
    digits. *)
Lemma parseDay_valid (ds : string) (y m d : Z) :
  parseDay ds = Some (y, m, d) ->
  0 <= y <= 9999 /\ 1 <= m <= 12 /\ 1 <= d <= daysInMonth y m.
Proof.
  unfold parseDay.
  destruct (String.length ds =? 10)%nat eqn:L; [| discriminate].
  apply Nat.eqb_eq in L.
  destruct (string_length10 ds L)
    as (c0 & c1 & c2 & c3 & c4 & c5 & c6 & c7 & c8 & c9 & ->).
  unfold field, sep.
  cbn [String.length append substring get Nat.eqb andb negb].
  destruct (negb _); [discriminate |].
  destruct (digits_value 0 (String c0 _)) as [y' |] eqn:Ey; [| discriminate].
  destruct (digits_value 0 (String c5 _)) as [m' |]; [| discriminate].
  destruct (digits_value 0 (String c8 _)) as [d' |]; [| discriminate].
  destruct ((1 <=? m') && (m' <=? 12) && (1 <=? d')
            && (d' <=? daysInMonth y' m')) eqn:V; [| discriminate].
  intros H. injection H as <- <- <-.
  apply digits4_bounds in Ey.
  repeat (apply andb_true_iff in V; destruct V as [V ?]).
  rewrite Z.leb_le in *. lia.
Qed.

(** [new Date(ds + "T00:00:00")], for a string [ds] that names a day of
    the calendar, is the local midnight of that day. *)
Lemma isoLocal_parseDay (ds : string) (y m d : Z) :
  parseDay ds = Some (y, m, d) ->
  isoLocal (ds ++ "T00:00:00") = Some (MakeDate (MakeDay y (m - 1) d) 0).
Proof.
  unfold parseDay.
  destruct (String.length ds =? 10)%nat eqn:L; [| discriminate].
  apply Nat.eqb_eq in L.
  destruct (string_length10 ds L)
    as (c0 & c1 & c2 & c3 & c4 & c5 & c6 & c7 & c8 & c9 & ->).
  unfold isoLocal, clockAt, field, sep.
  cbn [String.length append substring get Nat.eqb Nat.add andb negb].
  change (digits_value 0 "00") with (Some 0).
  rewrite !Ascii.eqb_refl. cbn [andb negb].
  change (0 <=? 23) with true. change (0 <=? 59) with true. cbn [andb].
  destruct (Ascii.eqb c4 "-" && Ascii.eqb c7 "-"); [| discriminate].
  cbn [negb].
  destruct (digits_value 0 (String c0 _)) as [y' |]; [| discriminate].
  destruct (digits_value 0 (String c5 _)) as [m' |]; [| discriminate].
  destruct (digits_value 0 (String c8 _)) as [d' |]; [| discriminate].
  destruct (_ && _); [| discriminate].
  intros H. injection H as <- <- <-. reflexivity.
Qed.

Lemma newDate_parseDay (host : Host) (ds : string) (y m d : Z) :
  parseDay ds = Some (y, m, d) ->
  newDate host (ds ++ "T00:00:00")
  = TimeClip (UTC host (MakeDate (MakeDay y (m - 1) d) 0)).
Proof.
  intros P. unfold newDate. now rewrite (isoLocal_parseDay ds y m d P).
Qed.

Lemma Day_midnight (D : Z) : Day (D * msPerDay) = D.
Proof. unfold Day, msPerDay. now rewrite Z.div_mul. Qed.

Lemma TimeWithinDay_midnight (D : Z) : TimeWithinDay (D * msPerDay) = 0.
Proof. unfold TimeWithinDay, msPerDay. now rewrite Z.mod_mul. Qed.

Lemma clip_ok (t : Z) : Z.abs t <= 8640000000000000 -> TimeClip t = Some t.
Proof. intros H. unfold TimeClip. now rewrite (proj2 (Z.leb_le _ _) H). Qed.

(** The date that [toISOString] writes, up to the [T], is the date of the
    day in UTC. *)
Lemma toISOString_day (t : Z) :
  option_map (fun iso => hd "" (JS.split "T" iso)) (toISOString (Some t))
  = Some (isoDay (Day t)).
Proof.
  cbn [toISOString option_map]. f_equal.
  unfold YearFromTime, MonthFromTime, DateFromTime.
  set (z := Day t).
  replace (snd (fst (civil_from_days z)) - 1 + 1)
    with (snd (fst (civil_from_days z))) by lia.
  match goal with
  | |- hd "" (JS.split "T" (?a ++ "-" ++ ?b ++ "-" ++ ?c ++ "T" ++ ?r)) = _ =>
      replace (a ++ "-" ++ b ++ "-" ++ c ++ "T" ++ r)
        with (isoDay z ++ String "T" r)
        by (unfold isoDay; cbv zeta; now rewrite !append_assoc)
  end.
  apply split_hd, noT_isoDay.
Qed.

End DateStrings.

(* ================================================================== *)
(** * Dates written and read *)

Section DatesWritten.

Lemma era_year (doe : Z) :
  0 <= doe < 146097 ->
  let yoe := (doe - doe / 1460 + doe / 36524 - doe / 146096) / 365 in
  let doy := doe - (365 * yoe + yoe / 4 - yoe / 100) in
  0 <= yoe < 400 /\ 0 <= doy <= 365
  /\ (doy = 365 ->
      (yoe + 1) mod 4 = 0
      /\ ((yoe + 1) mod 100 <> 0 \/ (yoe + 1) mod 400 = 0)).
Proof.
  intros H yoe doy. unfold doy, yoe. Z.div_mod_to_equations; lia.
Qed.

Lemma chkDoy_all : forallb chkDoy (map Z.of_nat (seq 0 (Z.to_nat 366))) = true.
Proof. vm_compute. reflexivity. Qed.

(** Every day number is the number of a date of the calendar. *)
Lemma civil_from_days_valid (z : Z) :
  1 <= snd (fst (civil_from_days z)) <= 12
  /\ 1 <= snd (civil_from_days z)
          <= daysInMonth (fst (fst (civil_from_days z)))
                         (snd (fst (civil_from_days z))).
Proof.
  set (era := (z + 719468) / 146097).
  set (doe := z + 719468 - era * 146097).
  assert (Hdoe : 0 <= doe < 146097)
    by (unfold doe, era; Z.div_mod_to_equations; lia).
  destruct (era_year doe Hdoe) as (Hy & Hd & Hl). cbv zeta in Hy, Hd, Hl.
  set (yoe := (doe - doe / 1460 + doe / 36524 - doe / 146096) / 365) in *.
  set (doy := doe - (365 * yoe + yoe / 4 - yoe / 100)) in *.
  rewrite (civil_from_days_parts z era doe yoe doy ((5 * doy + 2) / 153));
    [| unfold doe; lia | exact Hdoe | reflexivity | reflexivity | reflexivity].
  cbn [fst snd].
  pose proof (forallb_upto _ _ chkDoy_all doy ltac:(lia)) as C.
  unfold chkDoy in C. cbv zeta in C.
  set (mp := (5 * doy + 2) / 153) in *.
  set (d := doy - (153 * mp + 2) / 5 + 1) in *.
  set (m := if mp <? 10 then mp + 3 else mp - 9) in *.
  apply andb_true_iff in C; destruct C as [C C6].
  apply andb_true_iff in C; destruct C as [C C5].
  apply andb_true_iff in C; destruct C as [C C4].
  apply andb_true_iff in C; destruct C as [C C3].
  apply andb_true_iff in C; destruct C as [C1 C2].
  apply Z.leb_le in C1, C2, C3, C4.
  split; [lia |]. split; [lia |].
  unfold daysInMonth. unfold maxDay in C4.
  destruct (m =? 2) eqn:M2; [| exact C4].
  apply Z.eqb_eq in M2.
  destruct (Z.eq_dec d 29) as [D29 | D29]; [| destruct (isLeap _); lia].
  rewrite (proj2 (Z.eqb_eq d 29) D29) in C5. cbn [andb implb] in C5.
  apply Z.eqb_eq in C5. destruct (Hl C5) as [L4 L100].
  rewrite (proj2 (Z.leb_le m 2)) by lia.
  replace (isLeap (yoe + era * 400 + 1)) with true; [lia |].
  symmetry. unfold isLeap. apply andb_true_iff. split.
  - apply Z.eqb_eq. Z.div_mod_to_equations; lia.
  - apply orb_true_iff. destruct L100 as [L | L]; [left | right].
    + apply negb_true_iff, Z.eqb_neq. Z.div_mod_to_equations; lia.
    + apply Z.eqb_eq. Z.div_mod_to_equations; lia.
Qed.

Lemma chkPad4_all :
  forallb (fun i => chkPad 4 (1970 + i))
          (map Z.of_nat (seq 0 (Z.to_nat 430))) = true.
Proof. vm_compute. reflexivity. Qed.

Lemma chkPad2_all :
  forallb (chkPad 2) (map Z.of_nat (seq 0 (Z.to_nat 100))) = true.
Proof. vm_compute. reflexivity. Qed.

Lemma pad4_reads (y : Z) :
  1970 <= y <= 2399 ->
  exists a b c d,
    padN 4 y = String a (String b (String c (String d "")))
    /\ digits_value 0 (String a (String b (String c (String d "")))) = Some y.
Proof.
  intros H.
  pose proof (forallb_upto _ _ chkPad4_all (y - 1970) ltac:(lia)) as C.
  cbv beta in C. replace (1970 + (y - 1970)) with y in C by lia.
  unfold chkPad in C. apply andb_true_iff in C. destruct C as [C1 C2].
  apply Nat.eqb_eq in C1.
  destruct (padN 4 y) as [| a [| b [| c [| d [| ? ?]]]]]; try discriminate.
  exists a, b, c, d. split; [reflexivity |].
  destruct (digits_value 0 _) as [v |]; [| discriminate].
  apply Z.eqb_eq in C2. now subst.
Qed.

Lemma pad2_reads (v : Z) :
  0 <= v <= 99 ->
  exists a b,
    padN 2 v = String a (String b "")
    /\ digits_value 0 (String a (String b "")) = Some v.
Proof.
  intros H. pose proof (forallb_upto _ _ chkPad2_all v ltac:(lia)) as C.
  unfold chkPad in C. apply andb_true_iff in C. destruct C as [C1 C2].
  apply Nat.eqb_eq in C1.
  destruct (padN 2 v) as [| a [| b [| ? ?]]]; try discriminate.
  exists a, b. split; [reflexivity |].
  destruct (digits_value 0 _) as [w |]; [| discriminate].
  apply Z.eqb_eq in C2. now subst.
Qed.

(** The string written for a day of the years 1970 to 2399 names that
    day. *)
Lemma parseDay_isoDay (z : Z) :
  1970 <= fst (fst (civil_from_days z)) <= 2399 ->
  parseDay (isoDay z) = Some (civil_from_days z)
  /\ dayNumber (isoDay z) = Some z.
Proof.
  intros Hy.
  destruct (civil_from_days_valid z) as [Hm Hd].
  pose proof (days_of_civil_of_days z) as R.
  assert (P : parseDay (isoDay z) = Some (civil_from_days z)).
  { unfold isoDay. cbv zeta.
    destruct (civil_from_days z) as [[y m] d]. cbn [fst snd] in *.
    pose proof (daysInMonth_max y m) as Hmax. pose proof (maxDay_31 m) as H31.
    unfold isoYear.
    rewrite (proj2 (andb_true_iff (0 <=? y) (y <=? 9999)))
      by (split; apply Z.leb_le; lia).
    destruct (pad4_reads y Hy) as (a & b & c & e & -> & Ey).
    destruct (pad2_reads m ltac:(lia)) as (f & g & -> & Em).
    destruct (pad2_reads d ltac:(lia)) as (i & j & -> & Ed).
    unfold parseDay, field, sep.
    cbn [String.length append substring get Nat.eqb andb negb].
    rewrite !Ascii.eqb_refl. cbn [andb negb].
    rewrite Ey, Em, Ed.
    rewrite (proj2 (Z.leb_le 1 m)), (proj2 (Z.leb_le m 12)),
      (proj2 (Z.leb_le 1 d)), (proj2 (Z.leb_le d _)) by lia.
    reflexivity. }
  split; [exact P |].
  unfold dayNumber. rewrite P. cbn [option_map]. now rewrite R.
Qed.

End DatesWritten.

(* ================================================================== *)
(** * The adjusted date *)

(** Closes a goal that is decided by evaluation. *)
Ltac evaluated := vm_compute; first [reflexivity | discriminate].

Section Adjusted.

Lemma findSplit_none (i : Z) (ss : list SplitEntry) :
  (forall q, In q ss -> refersTo i q = false) -> findSplit i ss = None.
Proof.
  intros H. unfold findSplit.
  destruct (find (refersTo i) ss) as [p |] eqn:F; [| reflexivity].
  apply find_some in F. destruct F as [F1 F2].
  rewrite (H p F1) in F2. discriminate.
Qed.

(** [setDate(getDate() + k)] moves the local time by [k] days. *)
Lemma setDate_shift (host : Host) (t k : Z) :
  setDate host (Some t) (option_map (fun d => d + k) (getDate host (Some t)))
  = TimeClip (UTC host (LocalTime host t + k * msPerDay)).
Proof.
  cbn [getDate option_map setDate]. cbv zeta.
  set (lt := LocalTime host t).
  do 2 f_equal.
  unfold YearFromTime, MonthFromTime, DateFromTime.
  destruct (civil_from_days_valid (Day lt)) as [Hm Hd].
  pose proof (days_of_civil_of_days (Day lt)) as R.
  destruct (civil_from_days (Day lt)) as [[y m] d]. cbn [fst snd] in *.
  replace (m - 1 + 1 - 1) with (m - 1) by lia.
  rewrite (MakeDay_civil y m (d + k) Hm).
  rewrite (days_from_civil_day y m (d + k)).
  rewrite (days_from_civil_day y m d) in R.
  unfold MakeDate, TimeWithinDay, Day, msPerDay in *.
  pose proof (Z.div_mod lt 86400000 ltac:(lia)). lia.
Qed.

(** The date that the source computes [k] days on from the date [ds] of day
    number [D]: [ds] is read as local midnight, with the offset [a] of that
    local time; the instant found has the offset [b]; [k] days are added to
    its local time, which is read with its offset [c]; and the date in UTC
    of the instant found is written. *)
Lemma shifted_by (host : Host) (k : Z) (ds : string) (D : Z) :
  dayNumber ds = Some D -> 0 <= k <= 2 ->
  let M := D * msPerDay in
  let a := tzaLocal host M in
  let b := tzaUTC host (M - a) in
  let c := tzaLocal host (M - a + b + k * msPerDay) in
  Z.abs a < msPerDay -> Z.abs b < msPerDay -> Z.abs c < msPerDay ->
  let d0 := newDate host (ds ++ "T00:00:00") in
  let d1 := setDate host d0 (option_map (fun d => d + k) (getDate host d0)) in
  option_map (fun iso => hd "" (JS.split "T" iso)) (toISOString d1)
  = Some (isoDay (Day (M - a + b + k * msPerDay - c))).
Proof.
  intros HD Hk M a b c Ha Hb Hc d0 d1. unfold d1, d0. clear d0 d1.
  unfold dayNumber in HD.
  destruct (parseDay ds) as [[[y m] d] |] eqn:P; [| discriminate].
  cbn [option_map fst snd] in HD. apply Some_eq in HD.
  destruct (parseDay_valid ds y m d P) as (Hy & Hm & Hd).
  pose proof (daysInMonth_max y m) as Hmax. pose proof (maxDay_31 m) as H31.
  pose proof (days_from_civil_bounds y m d Hy Hm ltac:(lia)) as B.
  rewrite HD in B.
  rewrite (newDate_parseDay host ds y m d P), (MakeDay_civil y m d Hm), HD.
  assert (E0 : UTC host (MakeDate D 0) = M - a)
    by (unfold UTC, MakeDate; rewrite Z.add_0_r; reflexivity).
  rewrite E0.
  rewrite clip_ok by (unfold M, msPerDay in *; lia).
  rewrite setDate_shift.
  assert (E1 : LocalTime host (M - a) = M - a + b) by reflexivity.
  rewrite E1.
  assert (E2 : UTC host (M - a + b + k * msPerDay)
               = M - a + b + k * msPerDay - c) by reflexivity.
  rewrite E2.
  rewrite clip_ok by (unfold M, msPerDay in *; lia).
  apply toISOString_day.
Qed.

(** C5.  On the code.  For an entry that no pair names, and for the first
    half of a pair, [getAdjustedDateForEntry] gives the entry's own date.
    For the second half of a pair, whose stored date names the day [D], it
    reads that date as local midnight, adds two days to the local time, and
    writes the date in UTC of the instant found: the date of the day
    [D + 2] where the offset in force at the local midnight two days on is
    zero or negative, and the date of the day [D + 1], one day short, where
    it is positive (local midnight being read where it exists, the offsets
    at the first two readings then agreeing).  One hour ahead of UTC the
    second half of a pair stored on 2024-03-09 has the adjusted date
    2024-03-10, and not 2024-03-11.  A day written in the years 1970 to
    2399 reads back as that day. *)
Theorem adjusted_date_spec (host : Host) (entry : Eintrag)
    (ss : list SplitEntry) :
  ((forall q, In q ss -> refersTo (id entry) q = false) ->
   getAdjustedDateForEntry host entry ss = Some (date entry))
  /\ ((exists q, In q ss /\ firstId q = id entry) ->
      (forall q, In q ss -> secondId q <> id entry) ->
      getAdjustedDateForEntry host entry ss = Some (date entry))
  /\ ((exists q, In q ss /\ secondId q = id entry) ->
      (forall q, In q ss -> firstId q <> id entry) ->
      forall D, dayNumber (date entry) = Some D ->
      let M := D * msPerDay in
      let a := tzaLocal host M in
      let b := tzaUTC host (M - a) in
      let c := tzaLocal host (M - a + b + 2 * msPerDay) in
      Z.abs a < msPerDay -> Z.abs b < msPerDay -> Z.abs c < msPerDay ->
      getAdjustedDateForEntry host entry ss
        = Some (isoDay (Day (M - a + b + 2 * msPerDay - c)))
      /\ (a = b -> c <= 0 ->
          getAdjustedDateForEntry host entry ss = Some (isoDay (D + 2)))
      /\ (a = b -> 0 < c ->
          getAdjustedDateForEntry host entry ss = Some (isoDay (D + 1))))
  /\ (forall z, 1970 <= fst (fst (civil_from_days z)) <= 2399 ->
                dayNumber (isoDay z) = Some z)
  /\ getAdjustedDateForEntry (fixedZone 3600000)
       (mkEintrag 1003 "2024-03-09" "00:00" (Some "00:10"))
       [mkSplit "1002-1003" 1002 1003] = Some "2024-03-10"
  /\ shiftDays 2 "2024-03-09" = Some "2024-03-11".
Proof.
  split; [| split; [| split; [| split; [| split]]]].
  - intros Hno. unfold getAdjustedDateForEntry.
    pose proof (findSplit_none _ _ Hno) as F.
    unfold findSplit, refersTo in F. now rewrite F.
  - intros (q & Hq & Fq) Hsec. unfold getAdjustedDateForEntry.
    destruct (find _ ss) as [p |] eqn:F; [| reflexivity].
    apply find_some in F. destruct F as [F1 _].
    now rewrite (proj2 (Z.eqb_neq _ _) (Hsec p F1)).
  - intros (q & Hq & Sq) Hfst D HD M a b c Ha Hb Hc.
    assert (Rq : refersTo (id entry) q = true)
      by (apply refersTo_ids; now right).
    destruct (findSplit_some _ _ q Hq Rq) as (p & F & Ip & Rp).
    apply refersTo_ids in Rp.
    destruct Rp as [Rp | Rp]; [now destruct (Hfst p Ip) |].
    assert (G : getAdjustedDateForEntry host entry ss
                = Some (isoDay (Day (M - a + b + 2 * msPerDay - c)))).
    { unfold getAdjustedDateForEntry.
      unfold findSplit, refersTo in F. rewrite F, (proj2 (Z.eqb_eq _ _) Rp).
      exact (shifted_by host 2 (date entry) D HD ltac:(lia) Ha Hb Hc). }
    split; [exact G |].
    split; intros Eab Hs; rewrite G; do 2 f_equal;
      unfold M, Day, msPerDay in *; Z.div_mod_to_equations; lia.
  - intros z Hz. now apply parseDay_isoDay.
  - vm_compute. reflexivity.
  - vm_compute. reflexivity.
Qed.

Lemma adjusted_date_spec_witness :
  getAdjustedDateForEntry (fixedZone 3600000)
    (mkEintrag 1001 "2024-03-08" "09:00" (Some "17:00"))
    [mkSplit "1002-1003" 1002 1003] = Some "2024-03-08"
  /\ getAdjustedDateForEntry (fixedZone 3600000)
       (mkEintrag 1002 "2024-02-28" "23:50" (Some "24:00"))
       [mkSplit "1002-1003" 1002 1003] = Some "2024-02-28"
  /\ getAdjustedDateForEntry (fixedZone (-18000000))
       (mkEintrag 1003 "2024-02-28" "00:00" (Some "00:10"))
       [mkSplit "1002-1003" 1002 1003] = Some "2024-03-01"
  /\ getAdjustedDateForEntry (fixedZone 3600000)
       (mkEintrag 1003 "2024-02-28" "00:00" (Some "00:10"))
       [mkSplit "1002-1003" 1002 1003] = Some "2024-02-29"
  /\ getAdjustedDateForEntry (springForward 1711846800000 0)
       (mkEintrag 1003 "2024-03-30" "00:00" (Some "00:10"))
       [mkSplit "1002-1003" 1002 1003] = Some "2024-03-31"
  /\ dayNumber "2024-03-01" = Some 19783.
Proof.
  assert (P : exists q, In q [mkSplit "1002-1003" 1002 1003]
                        /\ secondId q = 1003)
    by (exists (mkSplit "1002-1003" 1002 1003); split;
        [now left | reflexivity]).
  assert (N : forall q, In q [mkSplit "1002-1003" 1002 1003] ->
                        firstId q <> 1003)
    by (intros q [<- | []]; discriminate).
  split; [| split; [| split; [| split; [| split]]]].
  - apply (proj1 (adjusted_date_spec (fixedZone 3600000)
               (mkEintrag 1001 "2024-03-08" "09:00" (Some "17:00"))
               [mkSplit "1002-1003" 1002 1003])).
    intros q [<- | []]. reflexivity.
  - apply (proj1 (proj2 (adjusted_date_spec (fixedZone 3600000)
               (mkEintrag 1002 "2024-02-28" "23:50" (Some "24:00"))
               [mkSplit "1002-1003" 1002 1003]))).
    + exists (mkSplit "1002-1003" 1002 1003). split; [now left | reflexivity].
    + intros q [<- | []]. discriminate.
  - pose proof (proj1 (proj2 (proj2 (adjusted_date_spec
                (fixedZone (-18000000))
                (mkEintrag 1003 "2024-02-28" "00:00" (Some "00:10"))
                [mkSplit "1002-1003" 1002 1003]))) P N 19781 eq_refl) as H.
    cbv zeta in H.
    destruct H as (_ & H & _); [evaluated | evaluated | evaluated |].
    exact (eq_trans (H eq_refl ltac:(evaluated)) eq_refl).
  - pose proof (proj1 (proj2 (proj2 (adjusted_date_spec
                (fixedZone 3600000)
                (mkEintrag 1003 "2024-02-28" "00:00" (Some "00:10"))
                [mkSplit "1002-1003" 1002 1003]))) P N 19781 eq_refl) as H.
    cbv zeta in H.
    destruct H as (_ & _ & H); [evaluated | evaluated | evaluated |].
    exact (eq_trans (H eq_refl ltac:(evaluated)) eq_refl).
  - pose proof (proj1 (proj2 (proj2 (adjusted_date_spec
                (springForward 1711846800000 0)
                (mkEintrag 1003 "2024-03-30" "00:00" (Some "00:10"))
                [mkSplit "1002-1003" 1002 1003]))) P N 19812 eq_refl) as H.
    cbv zeta in H.
    destruct H as (_ & _ & H);
      [evaluated | evaluated | evaluated |].
    exact (eq_trans (H eq_refl ltac:(evaluated)) eq_refl).
  - apply (proj1 (proj2 (proj2 (proj2 (adjusted_date_spec (fixedZone 0)
               (mkEintrag 0 "" "" None) [])))) 19783).
    cbn. lia.
Defined.

End Adjusted.

(* ================================================================== *)
(** * The fixed entry *)

Section Fixed.

Lemma sortById_newest (e : Eintrag) (l : list Eintrag) :
  (forall x, In x l -> id x < id e) ->
  sortById (l ++ [e]) = e :: sortById l.
Proof.
  intros H. unfold sortById. rewrite fold_right_app.
  cbn [fold_right insertById].
  induction l as [| x l IH]; [reflexivity |].
  cbn [fold_right]. rewrite IH by (intros y Hy; apply H; now right).
  cbn [insertById].
  rewrite (proj2 (Z.leb_gt _ _)); [reflexivity |]. apply H. now left.
Qed.



End Fixed.

(* ================================================================== *)
(** * The store stays in good order *)

Section GoodOrder.

Lemma goodStore_perm (n : Z) (l l' : list Eintrag) (ss : list SplitEntry) :
  Permutation l l' -> goodStore n l ss -> goodStore n l' ss.
Proof.
  intros P (G1 & G2 & G3 & G4 & G5 & G6).
  repeat split; auto.
  - apply (Permutation_NoDup (Permutation_map id P) G1).
  - intros e He. apply G2. apply (Permutation_in _ (Permutation_sym P) He).
  - apply G3. assumption.
  - apply G3. assumption.
  - intros q Hq.
    destruct (G4 q Hq) as (f & s & Hf & Hs & R).
    exists f, s. split; [apply (Permutation_in _ P Hf) |].
    split; [apply (Permutation_in _ P Hs) | exact R].
Qed.

Lemma NoDup_map_filter (keep : Eintrag -> bool) (l : list Eintrag) :
  NoDup (map id l) -> NoDup (map id (filter keep l)).
Proof.
  induction l as [| x l IH]; simpl; intros H; [constructor |].
  inversion H as [| ? ? Hx Hl]; subst.
  destruct (keep x); [| now apply IH].
  simpl. constructor; [| now apply IH].
  intros C. apply Hx. apply in_map_iff in C. destruct C as (y & E & Hy).
  apply filter_In in Hy. apply in_map_iff. exists y. tauto.
Qed.

(** Taking entries and pairs out keeps the store in good order, provided
    the halves of the pairs that stay are among the entries that stay. *)
Lemma goodStore_remove (n : Z) (l : list Eintrag) (ss : list SplitEntry)
    (keep : Eintrag -> bool) (keepS : SplitEntry -> bool) :
  goodStore n l ss ->
  (forall q e, In q ss -> keepS q = true -> In e l ->
               refersTo (id e) q = true -> keep e = true) ->
  goodStore n (filter keep l) (filter keepS ss).
Proof.
  intros (G1 & G2 & G3 & G4 & G5 & G6) K.
  split; [now apply NoDup_map_filter |].
  split; [intros e He; apply filter_In in He; now apply G2 |].
  split; [intros q Hq; apply filter_In in Hq; now apply G3 |].
  split.
  - intros q Hq. apply filter_In in Hq. destruct Hq as [Hq Kq].
    destruct (G4 q Hq) as (f & s & Hf & Hs & If & Is & R).
    exists f, s.
    split; [apply filter_In; split; [exact Hf |];
            apply (K q f Hq Kq Hf); apply refersTo_ids; now left |].
    split; [apply filter_In; split; [exact Hs |];
            apply (K q s Hq Kq Hs); apply refersTo_ids; now right |].
    auto.
  - split.
    + intros p q Hp Hq. apply filter_In in Hp, Hq. apply G5; tauto.
    + intros q Hq. apply filter_In in Hq. now apply G6.
Qed.

Lemma halvesIn_app (l l' : list Eintrag) (q : SplitEntry) :
  halvesIn l q -> halvesIn (l ++ l') q.
Proof.
  intros (f & s & Hf & Hs & R). exists f, s.
  split; [apply in_or_app; now left |].
  split; [apply in_or_app; now left | exact R].
Qed.

(** Adding what the splitter gives for a candidate whose id is free keeps
    the store in good order. *)
Lemma goodStore_add (n k : Z) (l : list Eintrag) (ss : list SplitEntry)
    (base : Eintrag) :
  goodStore n l ss -> n <= k -> id base <= k ->
  (forall e, In e l -> id e <> id base) ->
  goodStore (snd (createEntriesWithOptionalSplit base k))
            (l ++ entries (fst (createEntriesWithOptionalSplit base k)))
            (ss ++ optList (split (fst (createEntriesWithOptionalSplit base k)))).
Proof.
  intros (G1 & G2 & G3 & G4 & G5 & G6) Hk Hb Hfree.
  assert (Same : goodStore k (l ++ [base]) (ss ++ [])).
  { rewrite app_nil_r.
    split.
    { rewrite map_app. apply NoDup_app; [exact G1 | repeat constructor; auto |].
      intros a Ha [<- | []]. apply in_map_iff in Ha.
      destruct Ha as (e & E & He). now apply (Hfree e He). }
    split.
    { intros e He. apply in_app_or in He.
      destruct He as [He | [<- | []]]; [specialize (G2 e He); lia | exact Hb]. }
    split; [intros q Hq; specialize (G3 q Hq); lia |].
    split; [intros q Hq; apply halvesIn_app; now apply G4 |].
    split; assumption. }
  destruct (ende base) as [e |] eqn:He;
    [| rewrite (split_absent base k) by (now left); exact Same].
  destruct (String.eqb_spec e "") as [-> | Hne];
    [rewrite (split_absent base k) by (now right); exact Same |].
  rewrite (split_present base e k He Hne).
  destruct (geb _ _ && leb _ _); [exact Same |].
  cbn [halved fst snd entries split optList].
  split.
  { rewrite map_app. cbn [map firstHalf secondHalf id].
    apply NoDup_app; [exact G1 | |].
    - constructor; [intros [C | []]; lia | repeat constructor; auto].
    - intros a Ha Hin. apply in_map_iff in Ha. destruct Ha as (x & E & Hx).
      specialize (G2 x Hx). destruct Hin as [C | [C | []]]; lia. }
  split.
  { intros x Hx. apply in_app_or in Hx.
    destruct Hx as [Hx | [<- | [<- | []]]];
      [specialize (G2 x Hx); lia | cbn; lia | cbn; lia]. }
  split.
  { intros q Hq. apply in_app_or in Hq.
    destruct Hq as [Hq | [<- | []]];
      [specialize (G3 q Hq); lia | cbn; lia]. }
  split.
  { intros q Hq. apply in_app_or in Hq. destruct Hq as [Hq | [<- | []]].
    - apply halvesIn_app. now apply G4.
    - exists (firstHalf base k), (secondHalf base e k).
      split; [apply in_or_app; right; now left |].
      split; [apply in_or_app; right; right; now left |].
      cbn. repeat split.
      destruct (String.eqb_spec e ""); [contradiction | reflexivity]. }
  split.
  { intros p q Hp Hq S. apply in_app_or in Hp, Hq.
    destruct Hp as [Hp | [<- | []]], Hq as [Hq | [<- | []]].
    - now apply G5.
    - exfalso. specialize (G3 p Hp). unfold sharesId in S. cbn in S. lia.
    - exfalso. specialize (G3 q Hq). unfold sharesId in S. cbn in S. lia.
    - reflexivity. }
  intros q Hq. apply in_app_or in Hq.
  destruct Hq as [Hq | [<- | []]]; [now apply G6 | cbn; lia].
Qed.

Lemma split_counter (base : Eintrag) (k : Z) :
  k <= snd (createEntriesWithOptionalSplit base k).
Proof.
  destruct (ende base) as [e |] eqn:He;
    [| rewrite (split_absent base k) by (now left); cbn; lia].
  destruct (String.eqb_spec e "") as [-> | Hne];
    [rewrite (split_absent base k) by (now right); cbn; lia |].
  rewrite (split_present base e k He Hne).
  destruct (geb _ _ && leb _ _); cbn; lia.
Qed.

(** The pattern of every handler that changes the collections: entries and
    pairs are taken out, the output of the splitter is added, and the
    collection is stored sorted. *)
Lemma replace_wellFormed (n k : Z) (l : list Eintrag) (ss : list SplitEntry)
    (keep : Eintrag -> bool) (keepS : SplitEntry -> bool) (base : Eintrag) :
  goodStore n l ss ->
  (forall q e, In q ss -> keepS q = true -> In e l ->
               refersTo (id e) q = true -> keep e = true) ->
  n <= k -> id base <= k ->
  (forall e, In e l -> keep e = true -> id e <> id base) ->
  let out := createEntriesWithOptionalSplit base k in
  sortedDesc (sortById (filter keep l ++ entries (fst out)))
  /\ goodStore (snd out)
       (sortById (filter keep l ++ entries (fst out)))
       (filter keepS ss ++ optList (split (fst out))).
Proof.
  intros G K Hk Hb Hfree out.
  split; [apply sortById_sorted |].
  apply (goodStore_perm _ (filter keep l ++ entries (fst out)));
    [symmetry; apply sortById_perm |].
  apply (goodStore_add n k); auto.
  - now apply goodStore_remove.
  - intros e He. apply filter_In in He. now apply Hfree.
Qed.

Lemma filter_all {A : Type} (l : list A) : filter (fun _ => true) l = l.
Proof. induction l as [| x l IH]; simpl; [reflexivity | now rewrite IH]. Qed.

Lemma halves_found (l : list Eintrag) (p : SplitEntry) :
  halvesIn l p ->
  (exists f, findEntry (firstId p) l = Some f)
  /\ (exists s, findEntry (secondId p) l = Some s).
Proof.
  intros (f & s & Hf & Hs & If & Is & _). split.
  - destruct (find_id_some (firstId p) l f Hf If) as (o & F & _). now exists o.
  - destruct (find_id_some (secondId p) l s Hs Is) as (o & F & _). now exists o.
Qed.

Lemma findSplit_refers (i : Z) (ss : list SplitEntry) (p : SplitEntry) :
  findSplit i ss = Some p -> In p ss /\ refersTo i p = true.
Proof. intros F. exact (find_some _ _ F). Qed.

Lemma findSplit_none_refers (i : Z) (ss : list SplitEntry) (q : SplitEntry) :
  findSplit i ss = None -> In q ss -> refersTo i q = false.
Proof. intros F Hq. exact (find_none _ _ F q Hq). Qed.

(** Taking the pair [p] and its halves out leaves the halves of the other
    pairs in. *)
Lemma keep_without (n : Z) (l : list Eintrag) (ss : list SplitEntry)
    (p : SplitEntry) :
  goodStore n l ss -> In p ss ->
  forall q e, In q ss ->
    negb (String.eqb (split_id q) (split_id p)) = true -> In e l ->
    refersTo (id e) q = true ->
    negb (id e =? firstId p) && negb (id e =? secondId p) = true.
Proof.
  intros (_ & _ & _ & _ & G5 & _) Hp q e Hq Kq He R.
  apply refersTo_ids in R.
  apply andb_true_iff. split; apply negb_true_iff, Z.eqb_neq; intros C;
    assert (E : q = p) by (apply G5; auto; unfold sharesId; lia);
    subst q; rewrite String.eqb_refl in Kq; discriminate.
Qed.

Lemma saveEdit_wellFormed (eid : Z) (st : App) :
  wellFormed st ->
  wellFormed (saveEdit eid st) /\ NEXT_ID st <= NEXT_ID (saveEdit eid st).
Proof.
  intros [Hs G]. unfold saveEdit.
  destruct (find _ (eintraege st)) as [original |] eqn:Fo;
    [| split; [split; assumption | cbn; lia]].
  destruct (find_some _ _ Fo) as [Io Ido]. apply Z.eqb_eq in Ido.
  destruct (find _ (splits st)) as [p |] eqn:Fp.
  - destruct (findSplit_refers _ _ _ Fp) as [Ip Rp].
    pose proof G as (_ & G2 & _ & G4 & _).
    destruct (halves_found _ _ (G4 p Ip)) as [[f Ff] [s Fs]].
    unfold findEntry in Ff, Fs. cbv zeta. rewrite Ff, Fs.
    cbn [buildBaseFromSplit bind generateId ret].
    set (base := applyEdit st _).
    assert (Ib : id base = NEXT_ID st + 1)
      by (unfold base, applyEdit; destruct (editMode st); reflexivity).
    destruct (replace_wellFormed (NEXT_ID st) (NEXT_ID st + 1)
                (eintraege st) (splits st)
                (fun e => negb (id e =? firstId p)
                          && negb (id e =? secondId p))
                (fun q => negb (String.eqb (split_id q) (split_id p)))
                base G (keep_without _ _ _ p G Ip)) as [W1 W2];
      [lia | lia | intros e He _; specialize (G2 e He); lia |].
    pose proof (split_counter base (NEXT_ID st + 1)) as Hc.
    destruct (commitEdit_fields
                (filter (fun e => negb (id e =? firstId p)
                                  && negb (id e =? secondId p))
                        (eintraege st))
                (filter (fun q => negb (String.eqb (split_id q) (split_id p)))
                        (splits st))
                base (NEXT_ID st + 1) st) as (C1 & C2 & C3).
    unfold wellFormed. rewrite C1, C2, C3. split; [split; assumption | lia].
  - pose proof G as (_ & G2 & _).
    cbn [generateId].
    set (base := applyEdit st _).
    assert (Ib : id base = NEXT_ID st + 1)
      by (unfold base, applyEdit; destruct (editMode st); reflexivity).
    destruct (replace_wellFormed (NEXT_ID st) (NEXT_ID st + 1)
                (eintraege st) (splits st)
                (fun e => negb (id e =? id original))
                (fun _ => true) base G) as [W1 W2];
      [| lia | lia | intros e He _; specialize (G2 e He); lia |].
    { intros q e Hq _ He R. apply negb_true_iff, Z.eqb_neq. intros C.
      rewrite C in R.
      pose proof (findSplit_none_refers _ _ q Fp Hq) as N.
      unfold refersTo in R, N. congruence. }
    rewrite filter_all in W2.
    pose proof (split_counter base (NEXT_ID st + 1)) as Hc.
    destruct (commitEdit_fields
                (filter (fun e => negb (id e =? id original)) (eintraege st))
                (splits st) base (NEXT_ID st + 1) st) as (C1 & C2 & C3).
    unfold wellFormed. rewrite C1, C2, C3. split; [split; assumption | lia].
Qed.

Lemma handleAddEnde_wellFormed (currentTime : string) (st : App) :
  wellFormed st ->
  wellFormed (handleAddEnde currentTime st)
  /\ NEXT_ID st <= NEXT_ID (handleAddEnde currentTime st).
Proof.
  intros [Hs G]. unfold handleAddEnde.
  destruct (hasOpen _); [| split; [split; assumption | lia]].
  destruct (open_id _) as [oid |]; [| split; [split; assumption | lia]].
  destruct (find _ (eintraege st)) as [o |] eqn:Fo;
    [| split; [split; assumption | lia]].
  destruct (find_some _ _ Fo) as [Io _].
  pose proof G as (_ & G2 & _).
  set (base := {| id := id o; date := date o; start := start o;
                  ende := Some currentTime |}).
  destruct (replace_wellFormed (NEXT_ID st) (NEXT_ID st)
              (eintraege st) (splits st)
              (fun e => negb (id e =? id o))
              (fun s => negb (firstId s =? id o) && negb (secondId s =? id o))
              base G) as [W1 W2];
    [| lia | exact (G2 o Io) | |].
  { intros q e Hq Kq He R. apply negb_true_iff, Z.eqb_neq. intros C.
    rewrite C in R. unfold refersTo in R.
    apply andb_true_iff in Kq. destruct Kq as [K1 K2].
    apply negb_true_iff in K1, K2. rewrite K1, K2 in R. discriminate. }
  { intros e He Ke. apply negb_true_iff, Z.eqb_neq in Ke. exact Ke. }
  pose proof (split_counter base (NEXT_ID st)) as Hc.
  destruct (createEntriesWithOptionalSplit base (NEXT_ID st)) as [r n'].
  cbn [fst snd] in *. split; [split; assumption | exact Hc].
Qed.

Lemma add_entry_wellFormed (st : App) (e : Eintrag) :
  wellFormed st -> id e = NEXT_ID st + 1 ->
  createEntriesWithOptionalSplit e (NEXT_ID st + 1)
    = unchanged e (NEXT_ID st + 1) ->
  wellFormed (updateEintraege (eintraege st ++ [e])
                              (setNextId (NEXT_ID st + 1) st)).
Proof.
  intros [Hs G] Ie U.
  pose proof G as (_ & G2 & _).
  destruct (replace_wellFormed (NEXT_ID st) (NEXT_ID st + 1)
              (eintraege st) (splits st) (fun _ => true) (fun _ => true)
              e G) as [W1 W2];
    [auto | lia | lia | intros x Hx _; specialize (G2 x Hx); lia |].
  rewrite U in W1, W2. cbn [unchanged fst snd entries split optList] in W1, W2.
  rewrite !filter_all, app_nil_r in *.
  split; [exact W1 | exact W2].
Qed.

Lemma handleDeleteEntry_wellFormed (i : Z) (st : App) :
  wellFormed st -> wellFormed (handleDeleteEntry i st).
Proof.
  intros [Hs G].
  assert (W : sortedDesc (eintraege (handleDeleteEntry i st))
              /\ goodStore (NEXT_ID st) (eintraege (handleDeleteEntry i st))
                           (splits (handleDeleteEntry i st))).
  { rewrite handleDeleteEntry_eintraege, handleDeleteEntry_splits.
    split; [apply sortById_sorted |].
    destruct (findSplit i (splits st)) as [p |] eqn:Fp.
    - destruct (findSplit_refers _ _ _ Fp) as [Ip _].
      apply (goodStore_perm _ (withoutHalves p (eintraege st)));
        [symmetry; apply sortById_perm |].
      apply goodStore_remove; [exact G |].
      exact (keep_without _ _ _ p G Ip).
    - apply (goodStore_perm _ (filter (fun e => negb (id e =? i))
                                      (eintraege st)));
        [symmetry; apply sortById_perm |].
      rewrite <- (filter_all (splits st)).
      apply goodStore_remove; [exact G |].
      intros q e Hq _ He R. apply negb_true_iff, Z.eqb_neq. intros C.
      rewrite C in R.
      rewrite (findSplit_none_refers _ _ q Fp Hq) in R. discriminate. }
  unfold wellFormed.
  assert (N : NEXT_ID (handleDeleteEntry i st) = NEXT_ID st).
  { unfold handleDeleteEntry.
    destruct (editingEntryId st) as [j |]; [destruct (j =? i) |]; reflexivity. }
  now rewrite N.
Qed.

Lemma initial_wellFormed (now : Z) : wellFormed (initial now).
Proof.
  unfold wellFormed, goodStore. cbn.
  split; [constructor |]. split; [constructor |].
  split; [intros ? [] |]. split; [intros ? [] |].
  split; [intros ? [] |]. split; [intros ? ? [] | intros ? []].
Qed.

(** From a store in good order every action other than loading from
    storage gives a store in good order, and no action lowers the
    counter. *)
Lemma step_good (a : Action) (st : App) :
  wellFormed st -> isLoad a = false ->
  wellFormed (step a st) /\ NEXT_ID st <= NEXT_ID (step a st).
Proof.
  intros W L.
  assert (Keep : forall st', eintraege st' = eintraege st ->
                             splits st' = splits st ->
                             NEXT_ID st' = NEXT_ID st ->
                             wellFormed st' /\ NEXT_ID st <= NEXT_ID st').
  { intros st' E1 E2 E3. unfold wellFormed. rewrite E1, E2, E3.
    split; [exact W | lia]. }
  destruct a; try discriminate L; cbn [step].
  - (* AddStart *)
    unfold handleAddStart.
    destruct (hasOpen _ && negb confirm);
      [exact (Keep st eq_refl eq_refl eq_refl) |].
    cbn [generateId]. split; [| cbn; lia].
    apply add_entry_wellFormed; [exact W | reflexivity |].
    apply split_absent. now left.
  - (* AddEnde *)
    exact (handleAddEnde_wellFormed currentTime st W).
  - (* AddFixedNoon *)
    unfold handleAddFixedNoonEntry. cbn [generateId].
    split; [| cbn; lia].
    apply add_entry_wellFormed; [exact W | reflexivity |].
    apply (split_within _ "12:00"); [reflexivity | discriminate |].
    exists 720, 720. repeat split; try reflexivity; lia.
  - (* StartEditing *)
    apply (Keep (startEditing currentTime i mode st));
      unfold startEditing; destruct mode; reflexivity.
  - (* StepEdit *)
    apply (Keep (stepEdit delta st));
      unfold stepEdit; destruct (editMode st); reflexivity.
  - (* SaveEdit *)
    unfold handleSaveEdit.
    destruct (editingEntryId st) as [eid |];
      [| exact (Keep st eq_refl eq_refl eq_refl)].
    destruct (negb _); [exact (Keep st eq_refl eq_refl eq_refl) |].
    pose proof (saveEdit_wellFormed eid st W) as S.
    destruct (editMode st), (String.eqb (editingStart st) ""),
      (String.eqb (editingEnde st) "");
      first [exact (Keep st eq_refl eq_refl eq_refl) | exact S].
  - (* CancelEdit *)
    exact (Keep (resetEditState st) eq_refl eq_refl eq_refl).
  - (* Delete *)
    split; [now apply handleDeleteEntry_wellFormed |].
    unfold handleDeleteEntry.
    destruct (editingEntryId st) as [j |]; [destruct (j =? i) |]; cbn; lia.
Qed.

End GoodOrder.

(* ================================================================== *)
(** * Editing an entry outside a pair, and a pair with a half missing *)

Section EditingMore.

Lemma saveEdit_single (st : App) (eid : Z) (original : Eintrag) :
  findEntry eid (eintraege st) = Some original ->
  findSplit eid (splits st) = None ->
  saveEdit eid st =
    commitEdit (filter (fun e => negb (id e =? eid)) (eintraege st))
      (splits st)
      (applyEdit st {| id := NEXT_ID st + 1; date := date original;
                       start := start original; ende := ende original |})
      (NEXT_ID st + 1) st.
Proof.
  intros Fo Fp. destruct (findEntry_some _ _ _ Fo) as [_ Io].
  unfold saveEdit. unfold findEntry in Fo. rewrite Fo, Io.
  unfold findSplit, refersTo in Fp. rewrite Fp. reflexivity.
Qed.

Lemma saveEdit_fallback (st : App) (eid : Z) (original : Eintrag)
    (p : SplitEntry) :
  findEntry eid (eintraege st) = Some original ->
  findSplit eid (splits st) = Some p ->
  findEntry (firstId p) (eintraege st) = None
  \/ findEntry (secondId p) (eintraege st) = None ->
  saveEdit eid st =
    commitEdit (filter (fun e => negb (id e =? eid)) (eintraege st))
      (withoutPair p (splits st))
      (applyEdit st {| id := NEXT_ID st + 1; date := date original;
                       start := start original; ende := ende original |})
      (NEXT_ID st + 1) st.
Proof.
  intros Fo Fp Miss. destruct (findEntry_some _ _ _ Fo) as [_ Io].
  unfold saveEdit. unfold findEntry in Fo. rewrite Fo, Io.
  unfold findSplit, refersTo in Fp. rewrite Fp. cbv zeta.
  unfold findEntry in Miss.
  destruct Miss as [M | M]; rewrite M; [reflexivity |].
  destruct (find (fun e => id e =? firstId p) (eintraege st)); reflexivity.
Qed.

Lemma commitEdit_form l ss base n st :
  editingEntryId (commitEdit l ss base n st) = None
  /\ editMode (commitEdit l ss base n st) = none
  /\ editingStart (commitEdit l ss base n st) = ""
  /\ editingEnde (commitEdit l ss base n st) = "".
Proof.
  unfold commitEdit. destruct (createEntriesWithOptionalSplit base n).
  repeat split.
Qed.

Lemma applyEdit_id (st : App) (base : Eintrag) :
  id (applyEdit st base) = id base.
Proof. unfold applyEdit. destruct (editMode st); reflexivity. Qed.

(** X1.  [handleSaveEdit] on an entry that no pair names, the edit passing
    the checks.  The entry is copied under a new id, the edited field is set
    on the copy (the other fields are the entry's own), and the copy goes
    through the splitter; the new collection is the old one less the
    entries of the edited id, with the splitter's output added, and sorted;
    the pair, if one is produced, is added to the split collection; the
    edit form is closed.  When the ids of the store were issued by the
    counter no entry with the edited id is left, although one field only
    was changed. *)
Theorem edit_single_spec (st : App) (eid : Z) (original : Eintrag) :
  editingEntryId st = Some eid -> eid <> 0 ->
  ~ (editMode st = mode_start /\ editingStart st = "") ->
  ~ (editMode st = mode_ende /\ editingEnde st = "") ->
  findEntry eid (eintraege st) = Some original ->
  findSplit eid (splits st) = None ->
  let n := NEXT_ID st in
  let copy := {| id := n + 1; date := date original;
                 start := start original; ende := ende original |} in
  let out := createEntriesWithOptionalSplit (applyEdit st copy) (n + 1) in
  let st' := handleSaveEdit st in
  eintraege st'
    = sortById (filter (fun e => negb (id e =? eid)) (eintraege st)
                ++ entries (fst out))
  /\ splits st' = (splits st ++ optList (split (fst out)))%list
  /\ NEXT_ID st' = snd out /\ n < NEXT_ID st'
  /\ editingEntryId st' = None /\ editMode st' = none
  /\ (editMode st = mode_start ->
      applyEdit st copy = {| id := n + 1; date := date original;
                             start := editingStart st;
                             ende := ende original |})
  /\ (editMode st <> mode_start ->
      applyEdit st copy = {| id := n + 1; date := date original;
                             start := start original;
                             ende := Some (editingEnde st) |})
  /\ (idsIssued st -> forall e, In e (eintraege st') -> id e <> eid).
Proof.
  intros He H0 V1 V2 Fo Fp n copy out st'.
  assert (Es : st' = commitEdit
                       (filter (fun e => negb (id e =? eid)) (eintraege st))
                       (splits st) (applyEdit st copy) (n + 1) st).
  { unfold st'. rewrite (handleSaveEdit_passes st eid He H0 V1 V2).
    now rewrite (saveEdit_single st eid original Fo Fp). }
  destruct (commitEdit_fields
              (filter (fun e => negb (id e =? eid)) (eintraege st))
              (splits st) (applyEdit st copy) (n + 1) st) as (C1 & C2 & C3).
  destruct (commitEdit_form
              (filter (fun e => negb (id e =? eid)) (eintraege st))
              (splits st) (applyEdit st copy) (n + 1) st) as (F1 & F2 & _).
  fold out in C1, C2, C3. rewrite <- Es in C1, C2, C3, F1, F2.
  pose proof (split_counter (applyEdit st copy) (n + 1)) as Hc.
  fold out in Hc.
  split; [exact C1 |]. split; [exact C2 |]. split; [exact C3 |].
  split; [lia |]. split; [exact F1 |]. split; [exact F2 |].
  split; [intros M; unfold applyEdit; now rewrite M |].
  split; [intros M; unfold applyEdit; destruct (editMode st);
          [reflexivity | contradiction | reflexivity] |].
  intros [I1 _] e Hin. rewrite C1, sortById_In, in_app_iff in Hin.
  destruct Hin as [Hin | Hin].
  - apply filter_In in Hin. destruct Hin as [_ K].
    now apply negb_true_iff, Z.eqb_neq in K.
  - destruct (split_ids (applyEdit st copy) (n + 1)) as [S1 _].
    apply S1 in Hin. rewrite applyEdit_id in Hin. cbn [copy id] in Hin.
    destruct (findEntry_some _ _ _ Fo) as [Io Ido].
    specialize (I1 original Io). fold n in I1. lia.
Qed.

Lemma edit_single_spec_witness :
  let e := mkEintrag 1001 "2024-03-09" "09:00" (Some "17:00") in
  let st := mkApp 1001 [e] [] (Some 1001) mode_ende "" "08:00" in
  eintraege (handleSaveEdit st)
    = [mkEintrag 1004 "2024-03-09" "00:00" (Some "08:00");
       mkEintrag 1003 "2024-03-09" "09:00" (Some "24:00")]
  /\ splits (handleSaveEdit st) = [mkSplit "1003-1004" 1003 1004]
  /\ NEXT_ID (handleSaveEdit st) = 1004.
Proof.
  intros e st.
  assert (V1 : ~ (editMode st = mode_start /\ editingStart st = ""))
    by (intros [C _]; discriminate C).
  assert (V2 : ~ (editMode st = mode_ende /\ editingEnde st = ""))
    by (intros [_ C]; discriminate C).
  pose proof (edit_single_spec st 1001 e eq_refl ltac:(discriminate) V1 V2
                eq_refl eq_refl) as H.
  cbv zeta in H. destruct H as (H1 & H2 & H3 & _).
  rewrite H1, H2, H3. split; [reflexivity | split; reflexivity].
Defined.

(** X2.  [handleSaveEdit] on an entry of a pair one half of which is not
    in the collection, the edit passing the checks.  Only the entry edited
    is replaced: it is copied under a new id, the edited field is set, the
    copy goes through the splitter, and its output replaces the entries of
    the edited id; the old pair is dropped (every pair of its id), and the
    pair that the splitter produces, if any, is added. *)
Theorem edit_fallback_spec (st : App) (eid : Z) (original : Eintrag)
    (p : SplitEntry) :
  editingEntryId st = Some eid -> eid <> 0 ->
  ~ (editMode st = mode_start /\ editingStart st = "") ->
  ~ (editMode st = mode_ende /\ editingEnde st = "") ->
  findEntry eid (eintraege st) = Some original ->
  findSplit eid (splits st) = Some p ->
  findEntry (firstId p) (eintraege st) = None
  \/ findEntry (secondId p) (eintraege st) = None ->
  let n := NEXT_ID st in
  let copy := {| id := n + 1; date := date original;
                 start := start original; ende := ende original |} in
  let out := createEntriesWithOptionalSplit (applyEdit st copy) (n + 1) in
  let st' := handleSaveEdit st in
  eintraege st'
    = sortById (filter (fun e => negb (id e =? eid)) (eintraege st)
                ++ entries (fst out))
  /\ splits st' = (withoutPair p (splits st) ++ optList (split (fst out)))%list
  /\ NEXT_ID st' = snd out
  /\ (forall q, In q (withoutPair p (splits st)) -> In q (splits st'))
  /\ (forall q, In q (splits st') -> split_id q = split_id p ->
                split (fst out) = Some q).
Proof.
  intros He H0 V1 V2 Fo Fp Miss n copy out st'.
  assert (Es : st' = commitEdit
                       (filter (fun e => negb (id e =? eid)) (eintraege st))
                       (withoutPair p (splits st)) (applyEdit st copy)
                       (n + 1) st).
  { unfold st'. rewrite (handleSaveEdit_passes st eid He H0 V1 V2).
    now rewrite (saveEdit_fallback st eid original p Fo Fp Miss). }
  destruct (commitEdit_fields
              (filter (fun e => negb (id e =? eid)) (eintraege st))
              (withoutPair p (splits st)) (applyEdit st copy) (n + 1) st)
    as (C1 & C2 & C3).
  fold out in C1, C2, C3. rewrite <- Es in C1, C2, C3.
  split; [exact C1 |]. split; [exact C2 |]. split; [exact C3 |].
  split.
  - intros q Hq. rewrite C2. apply in_or_app. now left.
  - intros q Hq E. rewrite C2 in Hq. apply in_app_or in Hq.
    destruct Hq as [Hq | Hq].
    + apply withoutPair_In in Hq. now destruct Hq.
    + destruct (split (fst out)) as [q' |]; [| contradiction].
      destruct Hq as [<- | []]. reflexivity.
Qed.

Lemma edit_fallback_spec_witness :
  let second := mkEintrag 1003 "2024-03-09" "00:00" (Some "00:10") in
  let st := mkApp 1003 [second] [mkSplit "1002-1003" 1002 1003]
                  (Some 1003) mode_ende "" "00:20" in
  eintraege (handleSaveEdit st)
    = [mkEintrag 1004 "2024-03-09" "00:00" (Some "00:20")]
  /\ splits (handleSaveEdit st) = [].
Proof.
  intros second st.
  assert (V1 : ~ (editMode st = mode_start /\ editingStart st = ""))
    by (intros [C _]; discriminate C).
  assert (V2 : ~ (editMode st = mode_ende /\ editingEnde st = ""))
    by (intros [_ C]; discriminate C).
  pose proof (edit_fallback_spec st 1003 second
                (mkSplit "1002-1003" 1002 1003) eq_refl ltac:(discriminate)
                V1 V2 eq_refl eq_refl (or_introl eq_refl)) as H.
  cbv zeta in H. destruct H as (H1 & H2 & _).
  rewrite H1, H2. split; reflexivity.
Defined.

End EditingMore.

(* ================================================================== *)
(** * Opening the edit form on a half of a pair *)

Section EditingHalves.





End EditingHalves.

(* ================================================================== *)
(** * Opening and closing *)

Section OpeningClosing.

Lemma filter_keeps {A : Type} (f : A -> bool) (l : list A) :
  (forall x, In x l -> f x = true) -> filter f l = l.
Proof.
  induction l as [| x l IH]; simpl; intros H; [reflexivity |].
  rewrite (H x (or_introl eq_refl)). f_equal. apply IH. auto.
Qed.

Lemma filter_drops {A : Type} (f : A -> bool) (l : list A) :
  (forall x, In x l -> f x = false) -> filter f l = [].
Proof.
  induction l as [| x l IH]; simpl; intros H; [reflexivity |].
  rewrite (H x (or_introl eq_refl)). apply IH. auto.
Qed.

Lemma insertById_below (x : Eintrag) (l1 l2 : list Eintrag) :
  (forall y, In y l1 -> id x < id y) ->
  insertById x (l1 ++ l2) = (l1 ++ insertById x l2)%list.
Proof.
  induction l1 as [| y l1 IH]; intros H; [reflexivity |].
  cbn [app insertById].
  rewrite (proj2 (Z.leb_gt _ _) (H y (or_introl eq_refl))).
  f_equal. apply IH. intros z Hz. apply H. now right.
Qed.

(** Entries of larger ids, added at the end, come first once sorted. *)
Lemma sortById_app_newer (l l' : list Eintrag) :
  (forall x y, In x l -> In y l' -> id x < id y) ->
  sortById (l ++ l') = (sortById l' ++ sortById l)%list.
Proof.
  induction l as [| x l IH]; intros H.
  - cbn [app sortById fold_right]. now rewrite app_nil_r.
  - cbn [app]. change (sortById (x :: l ++ l'))
      with (insertById x (sortById (l ++ l'))).
    rewrite IH by (intros a b Ha Hb; apply H; [now right | exact Hb]).
    rewrite insertById_below; [reflexivity |].
    intros y Hy. apply (proj1 (sortById_In _ _)) in Hy. apply H; [now left | exact Hy].
Qed.

Lemma getOpenEntryInfo_closed (l : list Eintrag) :
  getOpenEntryInfo l = {| hasOpen := false; open_id := None |}
  <-> (forall e, In e l -> isOpen e = false).
Proof.
  unfold getOpenEntryInfo.
  change (fun e : Eintrag => negb (truthy (ende e))) with isOpen.
  split.
  - intros H e He.
    destruct (isOpen e) eqn:O; [exfalso | reflexivity].
    assert (Hin : In e (filter isOpen l)) by (apply filter_In; auto).
    destruct (filter isOpen l); [contradiction | discriminate].
  - intros H. now rewrite (filter_drops isOpen l H).
Qed.

Lemma last_default {A : Type} (y : A) (r : list A) (d d' : A) :
  last (y :: r) d = last (y :: r) d'.
Proof.
  revert y. induction r as [| z r IH]; intros y; [reflexivity |].
  change (last (y :: z :: r) d) with (last (z :: r) d).
  change (last (y :: z :: r) d') with (last (z :: r) d'). apply IH.
Qed.

Lemma getOpenEntryInfo_new (x : Eintrag) (l : list Eintrag) :
  isOpen x = true ->
  getOpenEntryInfo (x :: l) =
    if hasOpen (getOpenEntryInfo l) then getOpenEntryInfo l
    else {| hasOpen := true; open_id := Some (id x) |}.
Proof.
  intros O. unfold getOpenEntryInfo.
  change (fun e : Eintrag => negb (truthy (ende e))) with isOpen.
  cbn [filter]. rewrite O.
  destruct (filter isOpen l) as [| y r]; [reflexivity |].
  cbn [hasOpen]. do 2 f_equal. f_equal.
  change (last (x :: y :: r) x) with (last (y :: r) x).
  apply last_default.
Qed.

Lemma addStart_fields (today currentTime : string) (confirm : bool)
    (st : App) :
  hasOpen (getOpenEntryInfo (eintraege st)) = false \/ confirm = true ->
  eintraege (handleAddStart today currentTime confirm st)
    = sortById (eintraege st
                ++ [{| id := NEXT_ID st + 1; date := today;
                       start := currentTime; ende := None |}])
  /\ splits (handleAddStart today currentTime confirm st) = splits st
  /\ NEXT_ID (handleAddStart today currentTime confirm st) = NEXT_ID st + 1.
Proof.
  intros H. unfold handleAddStart.
  assert (E : hasOpen (getOpenEntryInfo (eintraege st)) && negb confirm
              = false)
    by (destruct H as [H | H]; rewrite H;
        [reflexivity | apply andb_false_r]).
  rewrite E. repeat split.
Qed.

(** X4.  [handleAddStart].  When an entry is open and the dialog is
    declined nothing changes.  Otherwise one id is issued and an open entry
    of that id, on the given date and with the given start, is added,
    whether or not another entry is open; the split collection is kept.
    In a sorted store whose ids were issued by the counter the new entry
    comes first, and the entry that [handleAddEnde] will close is the one
    that was to be closed before, if any entry was open, and the new one
    otherwise. *)
Theorem addStart_spec (today currentTime : string) (confirm : bool)
    (st : App) :
  let n := NEXT_ID st in
  let new := {| id := n + 1; date := today; start := currentTime;
                ende := None |} in
  let st' := handleAddStart today currentTime confirm st in
  (hasOpen (getOpenEntryInfo (eintraege st)) = true -> confirm = false ->
   st' = st)
  /\ (hasOpen (getOpenEntryInfo (eintraege st)) = false \/ confirm = true ->
      eintraege st' = sortById (eintraege st ++ [new])
      /\ splits st' = splits st /\ NEXT_ID st' = n + 1
      /\ (forall x, In x (eintraege st') <-> x = new \/ In x (eintraege st))
      /\ (idsIssued st -> sortedDesc (eintraege st) ->
          eintraege st' = new :: eintraege st
          /\ getOpenEntryInfo (eintraege st')
             = if hasOpen (getOpenEntryInfo (eintraege st))
               then getOpenEntryInfo (eintraege st)
               else {| hasOpen := true; open_id := Some (n + 1) |})).
Proof.
  intros n new st'. unfold st', handleAddStart. split.
  - intros H C. now rewrite H, C.
  - intros H.
    assert (E : hasOpen (getOpenEntryInfo (eintraege st)) && negb confirm
                = false).
    { destruct H as [H | H]; rewrite H;
        [reflexivity | apply andb_false_r]. }
    rewrite E. cbn [generateId]. fold n. fold new.
    cbn [updateEintraege setNextId eintraege splits NEXT_ID].
    split; [reflexivity |]. split; [reflexivity |]. split; [reflexivity |].
    split.
    { intros x. rewrite sortById_In, in_app_iff. simpl.
      intuition congruence. }
    intros [I1 _] Hs.
    assert (L : sortById (eintraege st ++ [new]) = new :: eintraege st).
    { rewrite sortById_newest; [now rewrite (sortById_fixed _ Hs) |].
      intros x Hx. specialize (I1 x Hx). cbn. fold n in I1. lia. }
    rewrite L. split; [reflexivity |].
    now apply getOpenEntryInfo_new.
Qed.

Lemma addStart_spec_witness :
  let e := mkEintrag 1001 "2024-03-09" "09:00" None in
  let st := mkApp 1001 [e] [] None none "" "" in
  handleAddStart "2024-03-09" "10:00" false st = st
  /\ eintraege (handleAddStart "2024-03-09" "10:00" true st)
     = [mkEintrag 1002 "2024-03-09" "10:00" None; e]
  /\ getOpenEntryInfo (eintraege (handleAddStart "2024-03-09" "10:00" true st))
     = {| hasOpen := true; open_id := Some 1001 |}.
Proof.
  intros e st.
  pose proof (addStart_spec "2024-03-09" "10:00" false st) as H1.
  pose proof (addStart_spec "2024-03-09" "10:00" true st) as H2.
  cbv zeta in H1, H2.
  destruct H1 as [H1 _]. destruct H2 as [_ H2].
  destruct (H2 (or_intror eq_refl)) as (_ & _ & _ & _ & H3).
  destruct H3 as [A B].
  - split; [intros x [<- | []]; cbn; lia | intros q []].
  - unfold sortedDesc. repeat constructor.
  - split; [now apply H1 |].
    split; [exact (eq_trans A eq_refl) | exact (eq_trans B eq_refl)].
Defined.

(** X5.  Opening and closing.  In a sorted store whose ids were issued by
    the counter and in which no entry is open, [handleAddStart] followed by
    [handleAddEnde] adds, in front of the collection, what the splitter
    gives for the interval from the start to the end on the date of the
    start, and adds the pair, if there is one, at the end of the split
    collection.  If the end is not before the start the one entry has the
    id issued at the start; if the end is before the start the two halves
    have the two ids issued after it, and the id issued at the start is
    not used again.  No entry is left open. *)
Theorem open_then_close (st : App) (today s e : string) (confirm : bool) :
  (forall x, In x (eintraege st) -> isOpen x = false) ->
  idsIssued st -> sortedDesc (eintraege st) -> e <> "" ->
  let n := NEXT_ID st in
  let base := {| id := n + 1; date := today; start := s; ende := Some e |} in
  let out := createEntriesWithOptionalSplit base (n + 1) in
  let st2 := handleAddEnde e (handleAddStart today s confirm st) in
  eintraege st2 = (sortById (entries (fst out)) ++ eintraege st)%list
  /\ splits st2 = (splits st ++ optList (split (fst out)))%list
  /\ NEXT_ID st2 = snd out
  /\ (forall x, In x (eintraege st2) -> isOpen x = false)
  /\ (forall sv m, timeToMinutes s = Num sv -> endMinutes e = Num m ->
        (sv <= m <= 1440 ->
         eintraege st2 = base :: eintraege st /\ splits st2 = splits st
         /\ NEXT_ID st2 = n + 1)
        /\ (m < sv ->
            eintraege st2
              = secondHalf base e (n + 1) :: firstHalf base (n + 1)
                  :: eintraege st
            /\ splits st2 = (splits st ++ [pairOf (n + 1)])%list
            /\ NEXT_ID st2 = n + 3)).
Proof.
  intros Closed [I1 I2] Hs Hne n base out st2.
  set (new := {| id := n + 1; date := today; start := s; ende := None |}).
  assert (Hno : getOpenEntryInfo (eintraege st)
                = {| hasOpen := false; open_id := None |})
    by (now apply getOpenEntryInfo_closed).
  destruct (addStart_fields today s confirm st) as (A1 & A2 & A3);
    [left; now rewrite Hno |].
  fold n in A1, A3. fold new in A1.
  set (st1 := handleAddStart today s confirm st) in *.
  assert (L1 : eintraege st1 = new :: eintraege st).
  { rewrite A1, sortById_newest; [now rewrite (sortById_fixed _ Hs) |].
    intros x Hx. specialize (I1 x Hx). cbn. fold n in I1. lia. }
  assert (G : getOpenEntryInfo (eintraege st1)
              = {| hasOpen := true; open_id := Some (n + 1) |}).
  { rewrite L1, getOpenEntryInfo_new by reflexivity. now rewrite Hno. }
  assert (Keep : filter (fun x => negb (id x =? n + 1)) (eintraege st)
                 = eintraege st).
  { apply filter_keeps. intros x Hx. specialize (I1 x Hx). fold n in I1.
    apply negb_true_iff, Z.eqb_neq. lia. }
  assert (KeepS : filter (fun q => negb (firstId q =? n + 1)
                                   && negb (secondId q =? n + 1)) (splits st)
                  = splits st).
  { apply filter_keeps. intros q Hq. destruct (I2 q Hq) as [J1 J2].
    fold n in J1, J2.
    apply andb_true_iff; split; apply negb_true_iff, Z.eqb_neq; lia. }
  assert (E : eintraege st2
                = sortById (eintraege st ++ entries (fst out))
              /\ splits st2 = (splits st ++ optList (split (fst out)))%list
              /\ NEXT_ID st2 = snd out).
  { unfold st2, handleAddEnde. rewrite G. cbn [hasOpen open_id].
    rewrite L1. unfold new. cbn [find id]. rewrite Z.eqb_refl.
    cbn [id date start filter]. rewrite Z.eqb_refl. cbn [negb].
    rewrite A3, A2, Keep, KeepS.
    change (createEntriesWithOptionalSplit _ (n + 1)) with out.
    destruct out as [r n']. cbn [fst snd]. repeat split. }
  destruct E as (E1 & E2 & E3).
  destruct (split_ids base (n + 1)) as [S1 _]. fold out in S1.
  assert (E1' : eintraege st2
                = (sortById (entries (fst out)) ++ eintraege st)%list).
  { rewrite E1, sortById_app_newer; [now rewrite (sortById_fixed _ Hs) |].
    intros x y Hx Hy. specialize (I1 x Hx). fold n in I1.
    destruct (S1 y Hy) as [C | C]; [rewrite C; cbn; lia | lia]. }
  split; [exact E1' |]. split; [exact E2 |]. split; [exact E3 |].
  split.
  { intros x Hx. rewrite E1' in Hx. apply in_app_or in Hx.
    destruct Hx as [Hx | Hx]; [| now apply Closed].
    apply (proj1 (sortById_In _ _)) in Hx.
    apply (split_entries_closed base (n + 1) x); [| exact Hx].
    cbn. destruct (String.eqb_spec e ""); [contradiction | reflexivity]. }
  intros sv m Hsv Hm. split.
  - intros Hle.
    assert (O : out = unchanged base (n + 1)).
    { apply (split_within base e (n + 1) eq_refl Hne).
      exists sv, m. repeat split; auto; lia. }
    rewrite E1', E2, E3, O. cbn. now rewrite app_nil_r.
  - intros Hlt.
    assert (O : out = halved base e (n + 1)).
    { apply (split_beyond base e (n + 1) eq_refl Hne).
      exact (crossing_beyond base e sv m Hsv Hm Hlt). }
    rewrite E1', E2, E3, O.
    cbn [halved fst snd entries split optList sortById fold_right
         insertById firstHalf secondHalf id].
    rewrite (proj2 (Z.leb_gt (n + 1 + 2) (n + 1 + 1))) by lia.
    repeat split. lia.
Qed.

Lemma open_then_close_witness :
  let st := mkApp 1001 [mkEintrag 1001 "2024-03-08" "09:00" (Some "17:00")]
                  [] None none "" "" in
  eintraege (handleAddEnde "00:10"
               (handleAddStart "2024-03-09" "23:50" false st))
  = [mkEintrag 1004 "2024-03-09" "00:00" (Some "00:10");
     mkEintrag 1003 "2024-03-09" "23:50" (Some "24:00");
     mkEintrag 1001 "2024-03-08" "09:00" (Some "17:00")]
  /\ eintraege (handleAddEnde "17:30"
                  (handleAddStart "2024-03-09" "09:00" false st))
     = [mkEintrag 1002 "2024-03-09" "09:00" (Some "17:30");
        mkEintrag 1001 "2024-03-08" "09:00" (Some "17:00")].
Proof.
  intros st.
  assert (C : forall x, In x (eintraege st) -> isOpen x = false)
    by (intros x [<- | []]; reflexivity).
  assert (I : idsIssued st)
    by (split; [intros x [<- | []]; cbn; lia | intros q []]).
  assert (S : sortedDesc (eintraege st))
    by (unfold sortedDesc; repeat constructor).
  pose proof (open_then_close st "2024-03-09" "23:50" "00:10" false C I S
                ltac:(discriminate)) as H1.
  pose proof (open_then_close st "2024-03-09" "09:00" "17:30" false C I S
                ltac:(discriminate)) as H2.
  cbv zeta in H1, H2.
  destruct H1 as (_ & _ & _ & _ & H1). destruct H2 as (_ & _ & _ & _ & H2).
  destruct (H1 1430 10 eq_refl eq_refl) as [_ A].
  destruct (H2 540 1050 eq_refl eq_refl) as [B _].
  destruct (A ltac:(lia)) as [A' _]. destruct (B ltac:(lia)) as [B' _].
  split; [exact (eq_trans A' eq_refl) | exact (eq_trans B' eq_refl)].
Defined.

(** X6.  Without an open entry there is nothing to close:
    [getOpenEntryInfo] reports no open entry exactly when every entry has
    an end, and then [handleAddEnde] leaves the whole state as it is. *)
Theorem addEnde_nothing_open (currentTime : string) (st : App) :
  (getOpenEntryInfo (eintraege st) = {| hasOpen := false; open_id := None |}
   <-> (forall e, In e (eintraege st) -> isOpen e = false))
  /\ ((forall e, In e (eintraege st) -> isOpen e = false) ->
      handleAddEnde currentTime st = st)
  /\ (hasOpen (getOpenEntryInfo (eintraege st)) = true ->
      exists e, In e (eintraege st) /\ isOpen e = true
                /\ open_id (getOpenEntryInfo (eintraege st)) = Some (id e)).
Proof.
  split; [apply getOpenEntryInfo_closed |]. split.
  - intros H. apply getOpenEntryInfo_closed in H.
    unfold handleAddEnde. now rewrite H.
  - intros H.
    destruct (filter isOpen (eintraege st)) as [| x r] eqn:F.
    + unfold getOpenEntryInfo in H.
      change (fun e : Eintrag => negb (truthy (ende e))) with isOpen in H.
      rewrite F in H. discriminate.
    + assert (Hx : In x (filter isOpen (eintraege st)))
        by (rewrite F; now left).
      apply filter_In in Hx. destruct Hx as [Hx Ox].
      destruct (getOpenEntryInfo_last _ x Hx Ox)
        as (l1 & t & l2 & E & Ot & _ & G).
      exists t. rewrite G. repeat split; auto.
      rewrite E. apply in_or_app. right. now left.
Qed.

Lemma addEnde_nothing_open_witness :
  handleAddEnde "17:00"
    (mkApp 1001 [mkEintrag 1001 "2024-03-08" "09:00" (Some "17:00")]
           [] None none "" "")
  = mkApp 1001 [mkEintrag 1001 "2024-03-08" "09:00" (Some "17:00")]
          [] None none "" "".
Proof.
  apply (proj1 (proj2 (addEnde_nothing_open "17:00" _))).
  intros e [<- | []]. reflexivity.
Defined.

End OpeningClosing.

(* ================================================================== *)
(** * Deleting, again *)

Section DeletingMore.

Lemma find_absent {A : Type} (f : A -> bool) (l : list A) :
  (forall x, In x l -> f x = false) -> find f l = None.
Proof.
  induction l as [| x l IH]; simpl; intros H; [reflexivity |].
  rewrite (H x (or_introl eq_refl)). apply IH. auto.
Qed.

Lemma handleDeleteEntry_editing (i : Z) (st : App) :
  editingEntryId (handleDeleteEntry i st)
  = match editingEntryId st with
    | Some j => if j =? i then None else Some j
    | None => None
    end
  /\ NEXT_ID (handleDeleteEntry i st) = NEXT_ID st.
Proof.
  unfold handleDeleteEntry.
  destruct (editingEntryId st) as [j |] eqn:E;
    [destruct (j =? i) |]; cbn; auto.
Qed.

(** Deleting an id that no entry, no pair and no edit has changes nothing. *)
Lemma handleDeleteEntry_same (i : Z) (st : App) :
  findSplit i (splits st) = None ->
  (forall e, In e (eintraege st) -> id e <> i) ->
  sortedDesc (eintraege st) -> editingEntryId st <> Some i ->
  handleDeleteEntry i st = st.
Proof.
  intros F K Hs Ed. unfold handleDeleteEntry.
  unfold findSplit, refersTo in F. rewrite F.
  rewrite (filter_keeps (fun e => negb (id e =? i)) (eintraege st))
    by (intros e He; apply negb_true_iff, Z.eqb_neq; now apply K).
  unfold updateSplits, updateEintraege. cbn.
  rewrite (sortById_fixed _ Hs).
  destruct st as [n l ss ed em es ee]. cbn in *.
  destruct ed as [j |]; [| reflexivity].
  destruct (Z.eqb_spec j i) as [-> | _]; [now elim Ed | reflexivity].
Qed.

Lemma handleDeleteEntry_gone (i : Z) (st : App) (e : Eintrag) :
  In e (eintraege (handleDeleteEntry i st)) -> id e <> i.
Proof.
  rewrite handleDeleteEntry_eintraege, sortById_In.
  destruct (findSplit i (splits st)) as [p |] eqn:F.
  - intros He. apply withoutHalves_In in He. destruct He as (_ & N1 & N2).
    destruct (findSplit_refers _ _ _ F) as [_ R].
    apply refersTo_ids in R. destruct R; congruence.
  - intros He. apply filter_In in He. destruct He as [_ N].
    now apply negb_true_iff, Z.eqb_neq in N.
Qed.

(** X7.  Deleting is final.  In a store in good order, after
    [handleDeleteEntry] on an id no entry has that id and no pair names it,
    so that deleting the same id again changes nothing at all; the id
    counter is never touched; and deleting an id that no entry has leaves
    the entries and the pairs as they are. *)
Theorem delete_again (i : Z) (st : App) :
  wellFormed st ->
  let st' := handleDeleteEntry i st in
  handleDeleteEntry i st' = st'
  /\ NEXT_ID st' = NEXT_ID st
  /\ (forall e, In e (eintraege st') -> id e <> i)
  /\ findSplit i (splits st') = None
  /\ ((forall e, In e (eintraege st) -> id e <> i) ->
      eintraege st' = eintraege st /\ splits st' = splits st).
Proof.
  intros [Hs G] st'.
  pose proof G as (_ & _ & _ & G4 & G5 & _).
  assert (Gone : forall e, In e (eintraege st') -> id e <> i)
    by (intros e; apply handleDeleteEntry_gone).
  assert (NoPair : findSplit i (splits st') = None).
  { unfold st'. rewrite handleDeleteEntry_splits.
    destruct (findSplit i (splits st)) as [p |] eqn:F; [| exact F].
    destruct (findSplit_refers _ _ _ F) as [Ip Rp].
    apply find_absent. intros q Hq.
    apply withoutPair_In in Hq. destruct Hq as [Iq Nq].
    destruct (refersTo i q) eqn:Rq; [exfalso | reflexivity].
    apply Nq. f_equal. symmetry. apply G5; auto.
    apply refersTo_ids in Rp. apply refersTo_ids in Rq.
    unfold sharesId. destruct Rp, Rq; subst; auto. }
  split.
  { apply handleDeleteEntry_same; auto.
    - unfold st'. rewrite handleDeleteEntry_eintraege. apply sortById_sorted.
    - unfold st'. rewrite (proj1 (handleDeleteEntry_editing i st)).
      destruct (editingEntryId st) as [j |]; [| discriminate].
      destruct (Z.eqb_spec j i); [discriminate | congruence]. }
  split; [apply handleDeleteEntry_editing |].
  split; [exact Gone |]. split; [exact NoPair |].
  intros Abs.
  assert (F : findSplit i (splits st) = None).
  { apply find_absent. intros q Hq.
    destruct (refersTo i q) eqn:Rq; [exfalso | reflexivity].
    destruct (G4 q Hq) as (f & s & Hf & Hs' & If & Is & _).
    apply refersTo_ids in Rq.
    destruct Rq as [R | R]; [apply (Abs f Hf) | apply (Abs s Hs')];
      congruence. }
  unfold st'. rewrite handleDeleteEntry_eintraege, handleDeleteEntry_splits, F.
  split; [| reflexivity].
  rewrite filter_keeps
    by (intros e He; apply negb_true_iff, Z.eqb_neq; now apply Abs).
  now apply sortById_fixed.
Qed.

Lemma delete_again_witness :
  let st := mkApp 1003
              [mkEintrag 1003 "2024-03-09" "00:00" (Some "00:10");
               mkEintrag 1002 "2024-03-09" "23:50" (Some "24:00");
               mkEintrag 1001 "2024-03-08" "09:00" (Some "17:00")]
              [mkSplit "1002-1003" 1002 1003] (Some 1003) mode_ende "" "00:10" in
  handleDeleteEntry 1003 (handleDeleteEntry 1003 st) = handleDeleteEntry 1003 st
  /\ eintraege (handleDeleteEntry 1003 st)
     = [mkEintrag 1001 "2024-03-08" "09:00" (Some "17:00")].
Proof.
  intros st.
  assert (W : wellFormed st).
  { split; [unfold sortedDesc; cbn; repeat constructor; cbn; lia |].
    split; [cbn; repeat constructor; cbn; intuition lia |].
    split; [intros e [<- | [<- | [<- | []]]]; cbn; lia |].
    split; [intros q [<- | []]; cbn; lia |].
    split.
    { intros q [<- | []].
      exists (mkEintrag 1002 "2024-03-09" "23:50" (Some "24:00")),
             (mkEintrag 1003 "2024-03-09" "00:00" (Some "00:10")).
      cbn. intuition. }
    split; [intros p q [<- | []] [<- | []] _; reflexivity |].
    intros q [<- | []]. cbn. lia. }
  pose proof (delete_again 1003 st W) as H. cbv zeta in H.
  destruct H as [H _]. split; [exact H | reflexivity].
Defined.

(** X8.  Deleting under an open edit.  [handleDeleteEntry] closes the edit
    only when the deleted id is the one being edited.  When one half of a
    pair is deleted while the other half is being edited, the edited entry
    is removed with it but the edit stays open on its id; saving that edit
    afterwards changes neither the entries nor the pairs nor the id
    counter. *)
Theorem delete_other_half (i j : Z) (st : App) (p : SplitEntry) :
  findSplit i (splits st) = Some p ->
  j = firstId p \/ j = secondId p -> j <> i ->
  editingEntryId st = Some j ->
  let st' := handleDeleteEntry i st in
  editingEntryId st' = Some j
  /\ editMode st' = editMode st
  /\ (forall e, In e (eintraege st') -> id e <> j)
  /\ eintraege (handleSaveEdit st') = eintraege st'
  /\ splits (handleSaveEdit st') = splits st'
  /\ NEXT_ID (handleSaveEdit st') = NEXT_ID st.
Proof.
  intros F Hj Ne Ed st'.
  assert (E1 : editingEntryId st' = Some j).
  { unfold st'. rewrite (proj1 (handleDeleteEntry_editing i st)), Ed.
    now rewrite (proj2 (Z.eqb_neq j i) Ne). }
  assert (E2 : editMode st' = editMode st).
  { unfold st', handleDeleteEntry. rewrite Ed.
    now rewrite (proj2 (Z.eqb_neq j i) Ne). }
  assert (Gone : forall e, In e (eintraege st') -> id e <> j).
  { intros e. unfold st'.
    rewrite handleDeleteEntry_eintraege, F, sortById_In.
    intros He. apply withoutHalves_In in He.
    destruct He as (_ & N1 & N2). destruct Hj; congruence. }
  assert (N : NEXT_ID st' = NEXT_ID st) by apply handleDeleteEntry_editing.
  split; [exact E1 |]. split; [exact E2 |]. split; [exact Gone |].
  assert (S : saveEdit j st' = resetEditState st').
  { unfold saveEdit. rewrite find_absent; [reflexivity |].
    intros e He. apply Z.eqb_neq. now apply Gone. }
  rewrite <- N. unfold handleSaveEdit. rewrite E1.
  destruct (negb (truthy_id (Some j))); [repeat split |].
  destruct (editMode st'), (String.eqb (editingStart st') ""),
    (String.eqb (editingEnde st') ""); rewrite ?S; repeat split.
Qed.

Lemma delete_other_half_witness :
  let st := mkApp 1003
              [mkEintrag 1003 "2024-03-09" "00:00" (Some "00:10");
               mkEintrag 1002 "2024-03-09" "23:50" (Some "24:00");
               mkEintrag 1001 "2024-03-08" "09:00" (Some "17:00")]
              [mkSplit "1002-1003" 1002 1003] (Some 1003) mode_ende "" "00:20" in
  editingEntryId (handleDeleteEntry 1002 st) = Some 1003
  /\ eintraege (handleSaveEdit (handleDeleteEntry 1002 st))
     = [mkEintrag 1001 "2024-03-08" "09:00" (Some "17:00")].
Proof.
  intros st.
  pose proof (delete_other_half 1002 1003 st (mkSplit "1002-1003" 1002 1003)
                eq_refl (or_intror eq_refl) ltac:(lia) eq_refl) as H.
  cbv zeta in H. destruct H as (A & _ & _ & B & _).
  split; [exact A | exact (eq_trans B eq_refl)].
Defined.

End DeletingMore.

(* ================================================================== *)
(** * Stepping a time *)

Section Stepping.

Lemma minutesToTime_clamp (z : Z) :
  minutesToTime (Num z) = minutesToTime (Num (Z.max 0 (Z.min z 1435))).
Proof.
  unfold minutesToTime, Math_min, Math_max.
  change (23 * 60 + 55) with 1435.
  now replace (Z.max 0 (Z.min (Z.max 0 (Z.min z 1435)) 1435))
    with (Z.max 0 (Z.min z 1435)) by lia.
Qed.

(** What [minutesToTime] writes reads back as the clamped value rounded to
    the grid of five minutes. *)
Lemma minutesToTime_reads (z : Z) :
  timeToMinutes (minutesToTime (Num z))
  = Num ((2 * Z.max 0 (Z.min z 1435) + 5) / 10 * 5).
Proof.
  set (c := Z.max 0 (Z.min z 1435)).
  set (r := (2 * c + 5) / 10 * 5).
  assert (Hc : 0 <= c <= 1435) by (unfold c; lia).
  assert (Hr : 0 <= r <= 1435).
  { unfold r.
    pose proof (Z.div_mod (2 * c + 5) 10 ltac:(lia)).
    pose proof (Z.mod_pos_bound (2 * c + 5) 10 ltac:(lia)). lia. }
  assert (E : minutesToTime (Num z) =
              pad2 (Num (r / 60)) ++ ":" ++ pad2 (Num (r mod 60))).
  { unfold minutesToTime, Math_min, Math_max, round_div, mul, floor_div, rem.
    change (23 * 60 + 55) with 1435. fold c.
    rewrite Math_round_div. change (2 * 5) with 10. fold r.
    rewrite Qfloor_div. change (60 =? 0) with false. cbv iota.
    rewrite Z.rem_mod_nonneg by lia. reflexivity. }
  assert (R : 0 <= r / 60 < 100)
    by (split; [apply Z.div_pos; lia | apply Z.div_lt_upper_bound; lia]).
  assert (M : 0 <= r mod 60 < 60) by (apply Z.mod_pos_bound; lia).
  rewrite E, (proj1 (clock_reads_back _ _ R M)).
  f_equal. pose proof (Z.div_mod r 60 ltac:(lia)). lia.
Qed.

Lemma adjustTime_num (value : string) (t d : Z) :
  timeToMinutes value = Num t ->
  adjustTime value d = minutesToTime (Num (t + d)).
Proof. intros H. unfold adjustTime. now rewrite H. Qed.

(** X9.  [adjustTime], the step of the edit buttons.  A time that does not
    read as a number of minutes gives ["NaN:NaN"].  For a time that reads
    as [t] minutes, the result reads as [t + d] clamped to [[0, 1435]] and
    rounded to the grid of five minutes; on the grid, with a step on the
    grid, it is the clamped sum itself.  The step saturates: it gives
    ["23:55"] once the sum reaches 1435 and ["00:00"] once it falls to 0,
    so that from the end-of-day mark ["24:00"] both buttons give ["23:55"].
    Below 23:55 a step up followed by a step down comes back to the time
    read, and a step of 0 writes the time read.  Whatever the input, the
    result is never ["24:00"]. *)
Theorem adjustTime_spec (value : string) (d : Z) :
  (timeToMinutes value = NaN -> adjustTime value d = "NaN:NaN")
  /\ (forall t, timeToMinutes value = Num t ->
      let c := Z.max 0 (Z.min (t + d) 1435) in
      let r := (2 * c + 5) / 10 * 5 in
      timeToMinutes (adjustTime value d) = Num r
      /\ 0 <= r <= 1435 /\ r mod 5 = 0 /\ Z.abs (r - c) <= 2
      /\ (t mod 5 = 0 -> d mod 5 = 0 -> r = c)
      /\ (1435 <= t + d -> adjustTime value d = "23:55")
      /\ (t + d <= 0 -> adjustTime value d = "00:00")
      /\ (t mod 5 = 0 -> 0 <= t <= 1430 ->
          adjustTime (adjustTime value 5) (-5) = adjustTime value 0
          /\ timeToMinutes (adjustTime value 0) = Num t))
  /\ adjustTime "24:00" 5 = "23:55" /\ adjustTime "24:00" (-5) = "23:55"
  /\ adjustTime value d <> "24:00".
Proof.
  assert (Num_case : forall t, timeToMinutes value = Num t ->
    let c := Z.max 0 (Z.min (t + d) 1435) in
    let r := (2 * c + 5) / 10 * 5 in
    timeToMinutes (adjustTime value d) = Num r /\ 0 <= r <= 1435).
  { intros t Ht c r. rewrite (adjustTime_num value t d Ht).
    split; [apply minutesToTime_reads |].
    assert (Hc : 0 <= c <= 1435) by (unfold c; lia).
    unfold r. pose proof (Z.div_mod (2 * c + 5) 10 ltac:(lia)).
    pose proof (Z.mod_pos_bound (2 * c + 5) 10 ltac:(lia)). lia. }
  split.
  { intros H. unfold adjustTime. rewrite H. reflexivity. }
  split.
  { intros t Ht c r. destruct (Num_case t Ht) as [Rd Rb].
    fold c in Rd, Rb. fold r in Rd, Rb.
    assert (Hc : 0 <= c <= 1435) by (unfold c; lia).
    split; [exact Rd |]. split; [exact Rb |].
    split; [unfold r; apply Z.mod_mul; lia |].
    split.
    { unfold r. pose proof (Z.div_mod (2 * c + 5) 10 ltac:(lia)).
      pose proof (Z.mod_pos_bound (2 * c + 5) 10 ltac:(lia)). lia. }
    split.
    { intros Mt Md.
      assert (Mc : c mod 5 = 0).
      { assert (Ms : (t + d) mod 5 = 0)
          by (rewrite Z.add_mod, Mt, Md by lia; reflexivity).
        unfold c.
        destruct (Z.max_spec 0 (Z.min (t + d) 1435)) as [[_ ->] | [_ ->]];
          [| reflexivity].
        destruct (Z.min_spec (t + d) 1435) as [[_ ->] | [_ ->]];
          [exact Ms | reflexivity]. }
      unfold r. pose proof (Z.div_mod c 5 ltac:(lia)).
      replace (2 * c + 5) with ((c / 5) * 10 + 5) by lia.
      rewrite Z.div_add_l by lia. change (5 / 10) with 0. lia. }
    split.
    { intros Hi. rewrite (adjustTime_num value t d Ht), minutesToTime_clamp.
      now replace (Z.max 0 (Z.min (t + d) 1435)) with 1435 by lia. }
    split.
    { intros Lo. rewrite (adjustTime_num value t d Ht), minutesToTime_clamp.
      now replace (Z.max 0 (Z.min (t + d) 1435)) with 0 by lia. }
    intros Mt Bt.
    assert (Grid : forall u, u mod 5 = 0 -> 0 <= u <= 1435 ->
                   (2 * Z.max 0 (Z.min u 1435) + 5) / 10 * 5 = u).
    { intros u Mu Bu. replace (Z.max 0 (Z.min u 1435)) with u by lia.
      pose proof (Z.div_mod u 5 ltac:(lia)).
      replace (2 * u + 5) with ((u / 5) * 10 + 5) by lia.
      rewrite Z.div_add_l by lia. change (5 / 10) with 0. lia. }
    assert (Up : timeToMinutes (adjustTime value 5) = Num (t + 5)).
    { rewrite (adjustTime_num value t 5 Ht), minutesToTime_reads.
      f_equal. apply Grid; [| lia].
      rewrite Z.add_mod, Mt by lia. reflexivity. }
    split.
    - rewrite (adjustTime_num _ _ (-5) Up), (adjustTime_num value t 0 Ht).
      f_equal. f_equal. lia.
    - rewrite (adjustTime_num value t 0 Ht), minutesToTime_reads.
      f_equal. rewrite Z.add_0_r. apply Grid; [exact Mt | lia]. }
  split; [reflexivity |]. split; [reflexivity |].
  intros C.
  destruct (timeToMinutes value) as [| t] eqn:Ht.
  - unfold adjustTime in C. rewrite Ht in C. discriminate C.
  - pose proof (Num_case t eq_refl) as H. cbv zeta in H.
    destruct H as [Rd Rb]. rewrite C in Rd.
    change (timeToMinutes "24:00") with (Num 1440) in Rd.
    apply Some_eq_num in Rd. rewrite <- Rd in Rb. lia.
Qed.

Lemma adjustTime_spec_witness :
  adjustTime "abc" 5 = "NaN:NaN"
  /\ adjustTime "23:55" 5 = "23:55"
  /\ adjustTime "00:00" (-5) = "00:00"
  /\ adjustTime (adjustTime "09:00" 5) (-5) = adjustTime "09:00" 0.
Proof.
  destruct (adjustTime_spec "abc" 5) as [A _].
  destruct (adjustTime_spec "23:55" 5) as (_ & B & _).
  destruct (adjustTime_spec "00:00" (-5)) as (_ & C & _).
  destruct (adjustTime_spec "09:00" 5) as (_ & D & _).
  specialize (B 1435 eq_refl). specialize (C 0 eq_refl).
  specialize (D 540 eq_refl). cbv zeta in B, C, D.
  destruct B as (_ & _ & _ & _ & _ & B & _).
  destruct C as (_ & _ & _ & _ & _ & _ & C & _).
  destruct D as (_ & _ & _ & _ & _ & _ & _ & D).
  split; [exact (A eq_refl) |].
  split; [apply B; lia |].
  split; [apply C; lia |].
  apply D; [reflexivity | lia].
Defined.

End Stepping.

(* ================================================================== *)
(** * Totals *)

Section Totals.

Lemma getDurationMinutes_open (s : string) (o : option string) :
  truthy o = false -> getDurationMinutes s o = Num 0.
Proof.
  destruct o as [e |]; [| reflexivity].
  unfold getDurationMinutes. intros ->. reflexivity.
Qed.

Lemma getDurationMinutes_nonneg (s : string) (o : option string) (z : Z) :
  getDurationMinutes s o = Num z -> 0 <= z.
Proof.
  unfold getDurationMinutes. destruct o as [e |].
  - destruct (negb (truthy (Some e))).
    + intros H. apply Some_eq_num in H. lia.
    + destruct (sub _ _) as [| d]; cbn; [discriminate |].
      intros H. apply Some_eq_num in H. lia.
  - intros H. apply Some_eq_num in H. lia.
Qed.

Lemma filter_perm {A : Type} (f : A -> bool) (l l' : list A) :
  Permutation l l' -> Permutation (filter f l) (filter f l').
Proof.
  induction 1 as [| x l l' P IH | x y l | l l' l'' P1 IH1 P2 IH2]; simpl.
  - constructor.
  - destruct (f x); [now constructor | exact IH].
  - destruct (f x), (f y); try reflexivity. constructor.
  - now transitivity (filter f l').
Qed.

Lemma fold_add_perm (g : Eintrag -> number) (l l' : list Eintrag) :
  Permutation l l' ->
  forall a, fold_left (fun sum e => add sum (g e)) l a
            = fold_left (fun sum e => add sum (g e)) l' a.
Proof.
  induction 1 as [| x l l' P IH | x y l | l l' l'' P1 IH1 P2 IH2];
    intros a; simpl.
  - reflexivity.
  - apply IH.
  - f_equal. destruct a, (g x), (g y); cbn; try reflexivity. f_equal. lia.
  - now rewrite IH1.
Qed.

Lemma fold_add_NaN (g : Eintrag -> number) (l : list Eintrag) :
  fold_left (fun sum e => add sum (g e)) l NaN = NaN.
Proof. induction l as [| x l IH]; simpl; [reflexivity | exact IH]. Qed.

Lemma fold_add_sum (g : Eintrag -> number) (dur : Eintrag -> Z)
    (l : list Eintrag) :
  (forall e, In e l -> g e = Num (dur e)) ->
  forall a, fold_left (fun sum e => add sum (g e)) l (Num a)
            = Num (a + sumOver dur l).
Proof.
  induction l as [| x l IH]; intros H a; simpl.
  - f_equal. lia.
  - rewrite (H x (or_introl eq_refl)). cbn [add].
    rewrite IH by (intros e He; apply H; now right). f_equal. lia.
Qed.

Lemma getTotal_of_totalMinutes (l : list Eintrag) :
  getTotalDurationForEntries l
  = String_ (floor_div (totalMinutes l) 60) ++ "h "
    ++ String_ (rem (totalMinutes l) (Num 60)) ++ "m".
Proof. reflexivity. Qed.

Lemma sumOver_nonneg (dur : Eintrag -> Z) (l : list Eintrag) :
  (forall e, In e l -> 0 <= dur e) -> 0 <= sumOver dur l.
Proof.
  induction l as [| x l IH]; simpl; intros H; [lia |].
  pose proof (H x (or_introl eq_refl)).
  pose proof (IH (fun e He => H e (or_intror He))). lia.
Qed.

Lemma sumOver_filter (dur : Eintrag -> Z) (f : Eintrag -> bool)
    (l : list Eintrag) :
  (forall e, In e l -> f e = false -> dur e = 0) ->
  sumOver dur (filter f l) = sumOver dur l.
Proof.
  induction l as [| x l IH]; simpl; intros H; [reflexivity |].
  pose proof (IH (fun e He => H e (or_intror He))) as IH'.
  destruct (f x) eqn:F; simpl; [lia |].
  pose proof (H x (or_introl eq_refl) F). lia.
Qed.

(** X10.  [getTotalDurationForEntries].  The total does not depend on the
    order of the entries, and open entries do not count.  When the
    duration of every entry is a number, the total is the sum [T] of the
    durations, written as [T / 60] hours and [T mod 60] minutes, neither
    padded; every duration is at least 0, and so is the sum.  As soon as one
    closed entry has a start or an end that does not read as a time, the
    total is ["NaNh NaNm"], whatever the other entries are. *)
Theorem total_duration_spec (l : list Eintrag) :
  (forall l', Permutation l l' ->
     getTotalDurationForEntries l' = getTotalDurationForEntries l)
  /\ getTotalDurationForEntries (filter (fun e => truthy (ende e)) l)
     = getTotalDurationForEntries l
  /\ (forall e, In e l -> isOpen e = true ->
        getDurationMinutes (start e) (ende e) = Num 0)
  /\ (forall dur,
        (forall e, In e l ->
           getDurationMinutes (start e) (ende e) = Num (dur e)) ->
        let T := sumOver dur l in
        (forall e, In e l -> 0 <= dur e) /\ 0 <= T
        /\ 0 <= T mod 60 < 60
        /\ getTotalDurationForEntries l
           = String_ (Num (T / 60)) ++ "h " ++ String_ (Num (T mod 60))
             ++ "m")
  /\ ((exists e, In e l /\ getDurationMinutes (start e) (ende e) = NaN) ->
      getTotalDurationForEntries l = "NaNh NaNm").
Proof.
  split.
  { intros l' P. rewrite !getTotal_of_totalMinutes.
    assert (E : totalMinutes l' = totalMinutes l).
    { unfold totalMinutes. symmetry.
      apply (fold_add_perm (fun e => getDurationMinutes (start e) (ende e))).
      now apply filter_perm. }
    now rewrite E. }
  split.
  { rewrite !getTotal_of_totalMinutes.
    assert (E : totalMinutes (filter (fun e => truthy (ende e)) l)
                = totalMinutes l).
    { unfold totalMinutes. f_equal.
      induction l as [| x l IH]; simpl; [reflexivity |].
      destruct (truthy (ende x)) eqn:T; simpl; rewrite ?T, IH; reflexivity. }
    now rewrite E. }
  split.
  { intros e _ O. apply getDurationMinutes_open.
    unfold isOpen in O. now apply negb_true_iff in O. }
  split.
  { intros dur H T.
    assert (P : forall e, In e l -> 0 <= dur e)
      by (intros e He; eapply getDurationMinutes_nonneg; now apply H).
    assert (PT : 0 <= T) by (now apply sumOver_nonneg).
    split; [exact P |]. split; [exact PT |].
    split; [apply Z.mod_pos_bound; lia |].
    rewrite getTotal_of_totalMinutes.
    assert (E : totalMinutes l = Num T).
    { unfold totalMinutes.
      rewrite (fold_add_sum (fun e => getDurationMinutes (start e) (ende e))
                            dur)
        by (intros e He; apply filter_In in He; now apply H).
      f_equal. unfold T. rewrite sumOver_filter; [lia |].
      intros e He Tr.
      pose proof (H e He) as D.
      rewrite (getDurationMinutes_open _ _ Tr) in D.
      now apply Some_eq_num in D. }
    rewrite E. unfold floor_div, rem.
    rewrite Qfloor_div. change (60 =? 0) with false. cbv iota.
    now rewrite Z.rem_mod_nonneg by lia. }
  intros (e & He & N).
  assert (C : truthy (ende e) = true).
  { destruct (truthy (ende e)) eqn:T; [reflexivity |].
    rewrite (getDurationMinutes_open _ _ T) in N. discriminate. }
  assert (In e (filter (fun e => truthy (ende e)) l))
    by (apply filter_In; auto).
  apply in_split in H. destruct H as (l1 & l2 & E).
  rewrite getTotal_of_totalMinutes.
  assert (T : totalMinutes l = NaN).
  { unfold totalMinutes. rewrite E, fold_left_app. cbn [fold_left].
    rewrite N.
    destruct (fold_left _ l1 (Num 0)); cbn [add]; apply fold_add_NaN. }
  now rewrite T.
Qed.

Lemma total_duration_spec_witness :
  getTotalDurationForEntries
    [mkEintrag 1003 "2024-03-09" "13:00" None;
     mkEintrag 1002 "2024-03-09" "12:15" (Some "13:00");
     mkEintrag 1001 "2024-03-09" "09:00" (Some "12:00")]
  = "3h 45m"
  /\ getTotalDurationForEntries
       [mkEintrag 1002 "2024-03-09" "12:15" (Some "13:00");
        mkEintrag 1001 "2024-03-09" "x" (Some "12:00")]
     = "NaNh NaNm".
Proof.
  split.
  - destruct (total_duration_spec
                [mkEintrag 1003 "2024-03-09" "13:00" None;
                 mkEintrag 1002 "2024-03-09" "12:15" (Some "13:00");
                 mkEintrag 1001 "2024-03-09" "09:00" (Some "12:00")])
      as (_ & _ & _ & H & _).
    specialize (H (fun e => if id e =? 1003 then 0
                            else if id e =? 1002 then 45 else 180)).
    cbv zeta in H.
    destruct H as (_ & _ & _ & H);
      [intros e [<- | [<- | [<- | []]]]; reflexivity |].
    exact (eq_trans H eq_refl).
  - destruct (total_duration_spec
                [mkEintrag 1002 "2024-03-09" "12:15" (Some "13:00");
                 mkEintrag 1001 "2024-03-09" "x" (Some "12:00")])
      as (_ & _ & _ & _ & H).
    apply H. exists (mkEintrag 1001 "2024-03-09" "x" (Some "12:00")).
    split; [right; now left | reflexivity].
Defined.

Lemma split_no_separator (c : ascii) (t : string) :
  noChar c t = true -> JS.split c t = [t].
Proof.
  induction t as [| a t IH]; [reflexivity |].
  cbn [noChar JS.split]. intros H. apply andb_true_iff in H.
  destruct H as [H1 H2]. apply negb_true_iff in H1.
  now rewrite H1, (IH H2).
Qed.

(** X11.  Durations of times that do not read.  [getDurationMinutes] is 0
    for an interval without end or with the empty end, and is otherwise
    never negative.  A time without a colon has no minutes and reads as
    NaN; and whenever the start or the end reads as NaN (the end ["24:00"]
    reading as 1440), [getDurationMinutes] is NaN and [getDuration] shows
    ["NaN:NaN"] rather than ["-"]. *)
Theorem duration_unreadable (s : string) :
  getDurationMinutes s None = Num 0
  /\ getDurationMinutes s (Some "") = Num 0
  /\ (forall o z, getDurationMinutes s o = Num z -> 0 <= z)
  /\ (forall t, noChar ":" t = true -> timeToMinutes t = NaN)
  /\ (forall e, e <> "" ->
        timeToMinutes s = NaN \/ endMinutes e = NaN ->
        getDurationMinutes s (Some e) = NaN
        /\ getDuration s (Some e) = "NaN:NaN").
Proof.
  split; [reflexivity |]. split; [reflexivity |].
  split; [intros o z; apply getDurationMinutes_nonneg |].
  split.
  { intros t H. unfold timeToMinutes.
    now rewrite (split_no_separator ":" t H). }
  intros e Hne H.
  assert (T : truthy (Some e) = true)
    by (cbn; destruct (String.eqb_spec e ""); [contradiction | reflexivity]).
  assert (D : getDurationMinutes s (Some e)
              = Math_max (Num 0) (sub (endMinutes e) (timeToMinutes s))).
  { unfold getDurationMinutes, endMinutes. rewrite T. reflexivity. }
  assert (N : getDurationMinutes s (Some e) = NaN).
  { rewrite D. destruct H as [H | H]; rewrite H;
      [destruct (endMinutes e) |]; reflexivity. }
  split; [exact N |].
  unfold getDuration. rewrite T, N. reflexivity.
Qed.

Lemma duration_unreadable_witness :
  getDuration "9" (Some "17:00") = "NaN:NaN".
Proof.
  destruct (duration_unreadable "9") as (_ & _ & _ & A & B).
  apply (B "17:00"); [discriminate |].
  left. apply A. reflexivity.
Defined.

End Totals.

(* ================================================================== *)
(** * The host's clock and calendar *)

Section HostClock.

(** X12.  [getTodayDate] gives the date in UTC of the instant [now], not
    the date of the host's zone: with an offset ahead of UTC it names the
    day before the local one as long as the local time of the day is less
    than the offset, with an offset behind UTC it names the day after the
    local one once less than the offset is left of the local day, and
    otherwise it names the local day. *)
Theorem getTodayDate_spec (host : Host) (now : Z) :
  let o := tzaUTC host now in
  let L := LocalTime host now in
  getTodayDate now = Some (isoDay (Day now))
  /\ (0 <= o < msPerDay ->
      Day now = Day L - (if TimeWithinDay L <? o then 1 else 0))
  /\ (- msPerDay < o <= 0 ->
      Day now = Day L + (if msPerDay + o <=? TimeWithinDay L then 1 else 0))
  /\ (forall z, 1970 <= fst (fst (civil_from_days z)) <= 2399 ->
                dayNumber (isoDay z) = Some z).
Proof.
  intros o L. split; [apply toISOString_day |].
  split; [| split].
  - intros Ho. unfold L, LocalTime. fold o.
    unfold Day, TimeWithinDay, msPerDay in *.
    destruct (Z.ltb_spec ((now + o) mod 86400000) o);
      Z.div_mod_to_equations; lia.
  - intros Ho. unfold L, LocalTime. fold o.
    unfold Day, TimeWithinDay, msPerDay in *.
    destruct (Z.leb_spec (86400000 + o) ((now + o) mod 86400000));
      Z.div_mod_to_equations; lia.
  - intros z Hz. now apply parseDay_isoDay.
Qed.

Lemma getTodayDate_spec_witness :
  getTodayDate 1709940600000 = Some "2024-03-08"
  /\ Day 1709940600000
     = Day (LocalTime (fixedZone 7200000) 1709940600000) - 1.
Proof.
  destruct (getTodayDate_spec (fixedZone 7200000) 1709940600000)
    as (A & B & _).
  split; [exact (eq_trans A eq_refl) |].
  exact (eq_trans (B ltac:(unfold msPerDay; cbn; lia)) eq_refl).
Defined.

(** X13.  [getNextDay], on a date of the calendar, of day number [D].  The
    date is read as local midnight, one day is added to the local time, and
    the date in UTC of the instant found is written: where the offset in
    force at the next local midnight is zero or negative that is the date
    of the next day, and where it is positive it is the date of the same
    day (local midnight being read where it exists, the offsets at the
    first two readings then agreeing). *)
Theorem getNextDay_spec (host : Host) (ds : string) (D : Z) :
  dayNumber ds = Some D ->
  let M := D * msPerDay in
  let a := tzaLocal host M in
  let b := tzaUTC host (M - a) in
  let c := tzaLocal host (M - a + b + 1 * msPerDay) in
  Z.abs a < msPerDay -> Z.abs b < msPerDay -> Z.abs c < msPerDay ->
  getNextDay host ds = Some (isoDay (Day (M - a + b + 1 * msPerDay - c)))
  /\ (a = b -> c <= 0 -> getNextDay host ds = Some (isoDay (D + 1)))
  /\ (a = b -> 0 < c -> getNextDay host ds = Some (isoDay D))
  /\ (forall z, 1970 <= fst (fst (civil_from_days z)) <= 2399 ->
                dayNumber (isoDay z) = Some z).
Proof.
  intros HD M a b c Ha Hb Hc.
  assert (G : getNextDay host ds
              = Some (isoDay (Day (M - a + b + 1 * msPerDay - c))))
    by exact (shifted_by host 1 ds D HD ltac:(lia) Ha Hb Hc).
  split; [exact G |].
  split; [| split].
  - intros Eab Hs. rewrite G. do 2 f_equal.
    unfold M, Day, msPerDay in *. Z.div_mod_to_equations; lia.
  - intros Eab Hs. rewrite G. do 2 f_equal.
    unfold M, Day, msPerDay in *. Z.div_mod_to_equations; lia.
  - intros z Hz. now apply parseDay_isoDay.
Qed.

Lemma getNextDay_spec_witness :
  getNextDay (fixedZone (-18000000)) "2024-02-29" = Some "2024-03-01"
  /\ getNextDay (fixedZone 3600000) "2024-02-29" = Some "2024-02-29"
  /\ getNextDay (springForward 1711846800000 0) "2024-03-30"
     = Some "2024-03-31"
  /\ getNextDay (springForward 1711846800000 0) "2024-03-31"
     = Some "2024-03-31".
Proof.
  pose proof (getNextDay_spec (fixedZone (-18000000)) "2024-02-29" 19782
                eq_refl) as A.
  pose proof (getNextDay_spec (fixedZone 3600000) "2024-02-29" 19782
                eq_refl) as B.
  pose proof (getNextDay_spec (springForward 1711846800000 0) "2024-03-30"
                19812 eq_refl) as C.
  pose proof (getNextDay_spec (springForward 1711846800000 0) "2024-03-31"
                19813 eq_refl) as E.
  cbv zeta in A, B, C, E.
  destruct A as (_ & A & _); [evaluated | evaluated | evaluated |].
  destruct B as (_ & _ & B & _); [evaluated | evaluated | evaluated |].
  destruct C as (_ & C & _); [evaluated | evaluated | evaluated |].
  destruct E as (_ & _ & E & _); [evaluated | evaluated | evaluated |].
  split; [exact (eq_trans (A eq_refl ltac:(evaluated)) eq_refl) |].
  split; [exact (eq_trans (B eq_refl ltac:(evaluated)) eq_refl) |].
  split; [exact (eq_trans (C eq_refl ltac:(evaluated)) eq_refl) |].
  exact (eq_trans (E eq_refl ltac:(evaluated)) eq_refl).
Defined.

(** X14.  [getWeekdayAbbr], on a date of the calendar, of day number [D].
    The date is read as local midnight and the day of the week of the
    instant found is taken in local time; the result is one of the seven
    abbreviations.  Where that local midnight exists (the offsets at the
    two readings agreeing) it is the entry [(D + 4) mod 7] of the table
    that starts with Sunday, whatever the zone: day 0, 1970-01-01, is a
    Thursday. *)
Theorem getWeekdayAbbr_spec (host : Host) (ds : string) (D : Z) :
  dayNumber ds = Some D ->
  let M := D * msPerDay in
  let a := tzaLocal host M in
  let b := tzaUTC host (M - a) in
  Z.abs a < msPerDay ->
  getWeekdayAbbr host ds
    = nth_error weekdays (Z.to_nat ((Day (M - a + b) + 4) mod 7))
  /\ (exists w, getWeekdayAbbr host ds = Some w /\ In w weekdays)
  /\ (a = b ->
      getWeekdayAbbr host ds = nth_error weekdays (Z.to_nat ((D + 4) mod 7)))
  /\ getWeekdayAbbr (fixedZone 0) "1970-01-01" = Some "DO".
Proof.
  intros HD M a b Ha.
  assert (W : getWeekdayAbbr host ds
              = nth_error weekdays (Z.to_nat ((Day (M - a + b) + 4) mod 7))).
  { unfold getWeekdayAbbr. unfold dayNumber in HD.
    destruct (parseDay ds) as [[[y m] d] |] eqn:P; [| discriminate].
    destruct (parseDay_valid ds y m d P) as (Hy & Hm & Hd).
    pose proof (daysInMonth_max y m) as Hmax.
    pose proof (maxDay_31 m) as H31.
    cbn [option_map fst snd] in HD. apply Some_eq in HD.
    rewrite (newDate_parseDay host ds y m d P), (MakeDay_civil y m d Hm), HD.
    pose proof (days_from_civil_bounds y m d Hy Hm ltac:(lia)) as B.
    rewrite HD in B.
    assert (E0 : UTC host (MakeDate D 0) = M - a)
      by (unfold UTC, MakeDate; rewrite Z.add_0_r; reflexivity).
    rewrite E0, clip_ok by (unfold M, msPerDay in *; lia).
    unfold getDay, readField.
    change (LocalTime host (M - a)) with (M - a + b).
    unfold WeekDay.
    pose proof (Z.mod_pos_bound (Day (M - a + b) + 4) 7 ltac:(lia)).
    now rewrite (proj2 (Z.ltb_ge _ _)) by lia. }
  split; [exact W |]. split.
  { rewrite W.
    pose proof (Z.mod_pos_bound (Day (M - a + b) + 4) 7 ltac:(lia)) as B.
    destruct (nth_error weekdays (Z.to_nat ((Day (M - a + b) + 4) mod 7)))
      as [w |] eqn:E.
    - exists w. split; [reflexivity |]. eapply nth_error_In, E.
    - apply nth_error_None in E. cbn in E. lia. }
  split; [| reflexivity].
  intros Eab. rewrite W.
  replace (M - a + b) with (D * msPerDay) by (unfold M; lia).
  now rewrite Day_midnight.
Qed.

Lemma getWeekdayAbbr_spec_witness :
  getWeekdayAbbr (fixedZone 3600000) "2024-03-09" = Some "SA"
  /\ getWeekdayAbbr (springForward 1711846800000 0) "2024-03-31"
     = Some "SO".
Proof.
  pose proof (getWeekdayAbbr_spec (fixedZone 3600000) "2024-03-09" 19791
                eq_refl) as A.
  pose proof (getWeekdayAbbr_spec (springForward 1711846800000 0)
                "2024-03-31" 19813 eq_refl) as B.
  cbv zeta in A, B.
  destruct A as (_ & _ & A & _); [evaluated |].
  destruct B as (_ & _ & B & _); [evaluated |].
  split; [exact (eq_trans (A eq_refl) eq_refl)
         | exact (eq_trans (B eq_refl) eq_refl)].
Defined.

End HostClock.

(* ================================================================== *)
(** * The rounded time of the day *)

Section RoundedNow.

(** A time value is its day and the fields of its time of the day. *)
Lemma time_fields (D h m s ms : Z) :
  0 <= h < 24 -> 0 <= m < 60 -> 0 <= s < 60 -> 0 <= ms < 1000 ->
  let t := MakeDate D (MakeTime h m s ms) in
  Day t = D /\ HourFromTime t = h /\ MinFromTime t = m
  /\ SecFromTime t = s /\ msFromTime t = ms.
Proof.
  intros Hh Hm Hs Hms t. unfold t, Day, HourFromTime, MinFromTime,
    SecFromTime, msFromTime, MakeDate, MakeTime, msPerDay, msPerHour,
    msPerMinute.
  repeat split; Z.div_mod_to_equations; lia.
Qed.

Lemma time_split (t : Z) :
  t = MakeDate (Day t) (MakeTime (HourFromTime t) (MinFromTime t)
                                 (SecFromTime t) (msFromTime t))
  /\ 0 <= HourFromTime t < 24 /\ 0 <= MinFromTime t < 60
  /\ 0 <= SecFromTime t < 60 /\ 0 <= msFromTime t < 1000.
Proof.
  unfold Day, HourFromTime, MinFromTime, SecFromTime, msFromTime, MakeDate,
    MakeTime, msPerDay, msPerHour, msPerMinute.
  repeat split; Z.div_mod_to_equations; lia.
Qed.

(** The next hour, past midnight, is hour 0 of the next day. *)
Lemma next_hour (D h s ms : Z) :
  0 <= h < 24 -> 0 <= s < 60 -> 0 <= ms < 1000 ->
  let t := MakeDate D (MakeTime (h + 1) 0 s ms) in
  HourFromTime t = (h + 1) mod 24 /\ MinFromTime t = 0.
Proof.
  intros Hh Hs Hms t. unfold t, HourFromTime, MinFromTime,
    MakeDate, MakeTime, msPerDay, msPerHour, msPerMinute.
  split; Z.div_mod_to_equations; lia.
Qed.

(** X15.  [getRoundedNow], where no local time within an hour of the
    present one is skipped by the zone (as one is when daylight saving
    time begins).  With [h] and [mi] the hour and the minute of the local
    time of the instant [now], the result is the time of the day
    [T = (60 h + 5 * Math.round(mi / 5)) mod 1440], written with two digits
    each for the hours and the minutes: the minute is rounded to the
    nearest multiple of five, seconds not being looked at, and a rounded
    minute of 60 carries into the hour.  The result is on the grid of five
    minutes, reads back as [T], and is never ["24:00"]: from 23:58 on the
    carry passes midnight and the result is ["00:00"].  Where the hour
    carried into is skipped the result is an hour later: in a zone that
    goes from one to two hours ahead of UTC on 2024-03-31 at 01:00 UTC, at
    01:58 local time the result is ["03:00"]. *)
Theorem getRoundedNow_spec (host : Host) (now : Z) :
  let L := LocalTime host now in
  Z.abs L <= 8600000000000000 -> noGapAround host L ->
  let h := HourFromTime L in
  let mi := MinFromTime L in
  let T := (h * 60 + (mi + 2) / 5 * 5) mod 1440 in
  getRoundedNow host now = pad2 (Num (T / 60)) ++ ":" ++ pad2 (Num (T mod 60))
  /\ timeToMinutes (getRoundedNow host now) = Num T
  /\ T mod 5 = 0 /\ 0 <= T <= 1435
  /\ (h * 60 + mi < 1438 -> Z.abs (T - (h * 60 + mi)) <= 2)
  /\ (1438 <= h * 60 + mi -> getRoundedNow host now = "00:00")
  /\ getRoundedNow host now <> "24:00"
  /\ getRoundedNow (springForward 1711846800000 3600000) 1711846680000
     = "03:00".
Proof.
  intros L HL Calm h mi T.
  destruct (time_split L) as (EL & Hh & Hm & Hs & Hms).
  fold h in EL, Hh. fold mi in EL, Hm.
  set (D := Day L) in *. set (s := SecFromTime L) in *.
  set (ms := msFromTime L) in *.
  assert (Near : forall h' m', 0 <= h' <= 24 -> 0 <= m' < 60 ->
            Z.abs (h' * 60 + m' - (h * 60 + mi)) <= 60 ->
            TimeClip (UTC host (MakeDate D (MakeTime h' m' s ms)))
            = Some (UTC host (MakeDate D (MakeTime h' m' s ms)))
            /\ LocalTime host (UTC host (MakeDate D (MakeTime h' m' s ms)))
               = MakeDate D (MakeTime h' m' s ms)).
  { intros h' m' Hh' Hm' Hn.
    assert (Hd : Z.abs (MakeDate D (MakeTime h' m' s ms) - L) <= msPerHour).
    { clear Calm.
      unfold MakeDate, MakeTime, msPerDay, msPerHour, msPerMinute in *.
      lia. }
    destruct (Calm _ Hd) as [R B].
    split; [| exact R].
    apply clip_ok. unfold UTC. unfold msPerHour, msPerDay in *. lia. }
  set (rm := (mi + 2) / 5 * 5).
  assert (Hrm : rm mod 5 = 0 /\ 0 <= rm <= 60 /\ Z.abs (rm - mi) <= 2)
    by (unfold rm; split; [apply Z.mod_mul; lia
                          | Z.div_mod_to_equations; lia]).
  destruct Hrm as (Hrm5 & Hrmb & Hrmd).
  assert (Rnd : mul (round_div (getMinutes host (Some now)) 5) (Num 5)
                = Num rm).
  { unfold getMinutes, readField, round_div, mul. fold L. fold mi.
    rewrite Math_round_div. f_equal. unfold rm.
    Z.div_mod_to_equations; lia. }
  assert (HT : T mod 5 = 0 /\ 0 <= T <= 1435).
  { unfold T. fold rm. Z.div_mod_to_equations; lia. }
  assert (E : getRoundedNow host now
              = pad2 (Num (T / 60)) ++ ":" ++ pad2 (Num (T mod 60))).
  { unfold getRoundedNow. rewrite Rnd. cbn [number_eqb].
    unfold setMinutes. fold L. fold h. fold D. fold s. fold ms.
    destruct (Z.eqb_spec rm 60) as [E60 | N60].
    - destruct (Near h 0 ltac:(lia) ltac:(lia) ltac:(lia)) as [C1 R1].
      rewrite C1.
      destruct (time_fields D h 0 s ms Hh ltac:(lia) Hs Hms)
        as (F1 & F2 & F3 & F4 & F5). cbv zeta in F1, F2, F3, F4, F5.
      assert (G : getHours host
                    (Some (UTC host (MakeDate D (MakeTime h 0 s ms))))
                  = Num h)
        by (unfold getHours, readField; rewrite R1; now rewrite F2).
      rewrite G. cbn [add]. unfold setHours. rewrite R1.
      rewrite F1, F3, F4, F5.
      destruct (Near (h + 1) 0 ltac:(lia) ltac:(lia) ltac:(lia)) as [C2 R2].
      rewrite C2.
      unfold getHours, getMinutes, readField. rewrite R2.
      destruct (next_hour D h s ms Hh Hs Hms) as [N1 N2].
      cbv zeta in N1, N2. rewrite N1, N2.
      replace (T / 60) with ((h + 1) mod 24)
        by (unfold T; fold rm; rewrite E60; Z.div_mod_to_equations; lia).
      replace (T mod 60) with 0
        by (unfold T; fold rm; rewrite E60; Z.div_mod_to_equations; lia).
      reflexivity.
    - destruct (Near h rm ltac:(lia) ltac:(lia) ltac:(lia)) as [C1 R1].
      rewrite C1.
      unfold getHours, getMinutes, readField. rewrite R1.
      destruct (time_fields D h rm s ms Hh ltac:(lia) Hs Hms)
        as (_ & F2 & F3 & _). cbv zeta in F2, F3.
      rewrite F2, F3.
      replace (T / 60) with h
        by (unfold T; fold rm; Z.div_mod_to_equations; lia).
      replace (T mod 60) with rm
        by (unfold T; fold rm; Z.div_mod_to_equations; lia).
      reflexivity. }
  assert (R : 0 <= T / 60 < 100)
    by (split; [apply Z.div_pos; lia | apply Z.div_lt_upper_bound; lia]).
  assert (M : 0 <= T mod 60 < 60) by (apply Z.mod_pos_bound; lia).
  assert (Rd : timeToMinutes (getRoundedNow host now) = Num T).
  { rewrite E, (proj1 (clock_reads_back _ _ R M)). f_equal.
    pose proof (Z.div_mod T 60 ltac:(lia)). lia. }
  split; [exact E |]. split; [exact Rd |].
  split; [exact (proj1 HT) |]. split; [exact (proj2 HT) |].
  split.
  { intros Lt. unfold T. fold rm. Z.div_mod_to_equations; lia. }
  split.
  { intros Ge. rewrite E.
    replace T with 0 by (unfold T; fold rm; Z.div_mod_to_equations; lia).
    reflexivity. }
  split; [| vm_compute; reflexivity].
  intros C. rewrite C in Rd.
  change (timeToMinutes "24:00") with (Num 1440) in Rd.
  apply Some_eq_num in Rd. lia.
Qed.

Lemma fixedZone_noGap (o L0 : Z) :
  Z.abs o < msPerDay -> noGapAround (fixedZone o) L0.
Proof.
  intros Ho L _. split; [| exact Ho].
  unfold LocalTime, UTC. cbn. lia.
Qed.

Lemma getRoundedNow_spec_witness :
  getRoundedNow (fixedZone 3600000) 1709938680000 = "00:00"
  /\ getRoundedNow (fixedZone 0) 1709938680000 = "23:00".
Proof.
  pose proof (getRoundedNow_spec (fixedZone 3600000) 1709938680000) as A.
  pose proof (getRoundedNow_spec (fixedZone 0) 1709938680000) as B.
  cbv zeta in A, B.
  destruct A as (_ & _ & _ & _ & _ & A & _);
    [evaluated | apply fixedZone_noGap; evaluated |].
  destruct B as (B & _);
    [evaluated | apply fixedZone_noGap; evaluated |].
  split; [apply A; evaluated | exact (eq_trans B eq_refl)].
Defined.

End RoundedNow.

(* ================================================================== *)
(** * Sessions *)

Section Sessions.

Lemma goodStore_mono (n n' : Z) (l : list Eintrag) (ss : list SplitEntry) :
  goodStore n l ss -> n <= n' -> goodStore n' l ss.
Proof.
  intros (G1 & G2 & G3 & G4 & G5 & G6) H.
  split; [exact G1 |].
  split; [intros e He; specialize (G2 e He); lia |].
  split; [intros q Hq; specialize (G3 q Hq); lia |].
  split; [exact G4 |]. split; [exact G5 | exact G6].
Qed.

Lemma loadData_good (es : list Eintrag) (ss : list SplitEntry) (st : App) :
  goodStore (NEXT_ID st) es ss -> wellFormed (loadData es ss st).
Proof.
  intros G. split; cbn; [apply sortById_sorted |].
  apply (goodStore_perm _ es); [| exact G].
  symmetry. apply sortById_perm.
Qed.

(** X16.  The store stays in good order.  On mount the store is in good
    order: the collection is sorted by id, the ids of the entries are
    distinct, the ids of entries and pairs have been issued by the counter,
    every pair has its two halves in the collection (the first ending at
    24:00, the second closed, starting at 00:00 and of the same date), and
    no id is named by two pairs.  Every sequence of actions other than
    loading from storage, from a store in good order, gives a store in good
    order, and the counter is never lowered. *)
Theorem session_wellFormed (acts : list Action) (st : App) :
  wellFormed st -> forallb (fun a => negb (isLoad a)) acts = true ->
  wellFormed (run acts st)
  /\ NEXT_ID st <= NEXT_ID (run acts st)
  /\ (forall now, wellFormed (initial now)).
Proof.
  intros W L. split; [| split; [| exact initial_wellFormed]];
    revert st W L; induction acts as [| a acts IH]; intros st W L;
    cbn [run fold_left]; try assumption; try lia;
    cbn [forallb] in L; apply andb_true_iff in L; destruct L as [La L];
    apply negb_true_iff in La;
    destruct (step_good a st W La) as [W' N'].
  - exact (IH (step a st) W' L).
  - pose proof (IH (step a st) W' L) as N''. unfold run in N''. lia.
Qed.

Lemma session_wellFormed_witness :
  let acts := [AddStart "2024-03-09" "23:50" true; AddEnde "00:10";
               StartEditing "00:10" 1003 mode_ende; StepEdit 5; SaveEdit] in
  wellFormed (run acts (initial 1000))
  /\ eintraege (run acts (initial 1000))
     = [mkEintrag 1006 "2024-03-09" "00:00" (Some "00:15");
        mkEintrag 1005 "2024-03-09" "23:50" (Some "24:00")].
Proof.
  intros acts. split; [| reflexivity].
  apply (session_wellFormed acts (initial 1000));
    [apply initial_wellFormed | reflexivity].
Defined.

(** X17.  Starting again.  What a store in good order last saved, loaded
    into a fresh state whose clock is not behind the counter that issued
    the saved ids, gives the saved entries in the saved order and the saved
    pairs, in good order again; more generally, loading any data in good
    order for the new counter gives a store in good order.  The clock is
    what keeps ids apart: when a saved entry has the id that the fresh
    counter issues next, the entry added next shares its id. *)
Theorem restart_spec (now : Z) (es : list Eintrag) (ss : list SplitEntry) :
  (forall st, wellFormed st -> NEXT_ID st <= now ->
     let st' := loadData (eintraege st) (splits st) (initial now) in
     eintraege st' = eintraege st /\ splits st' = splits st
     /\ wellFormed st')
  /\ (goodStore now es ss -> wellFormed (loadData es ss (initial now)))
  /\ (forall e d, In e es -> id e = now + 1 ->
        ~ NoDup (map id (eintraege (handleAddFixedNoonEntry d
                                     (loadData es ss (initial now)))))).
Proof.
  split; [| split].
  - intros st [Hs G] Hn st'.
    assert (E : eintraege st' = eintraege st) by (now apply sortById_fixed).
    split; [exact E |]. split; [reflexivity |].
    apply loadData_good. now apply (goodStore_mono (NEXT_ID st)).
  - exact (loadData_good es ss (initial now)).
  - intros e d He Ie N.
    cbn in N.
    apply (Permutation_NoDup
             (Permutation_map id (sortById_perm _))) in N.
    rewrite map_app in N. cbn [map id] in N.
    apply NoDup_remove_2 with (l := map id (sortById es)) (l' := []) in N.
    apply N. rewrite app_nil_r, <- Ie. apply in_map.
    now apply sortById_In.
Qed.

Lemma restart_spec_witness :
  wellFormed (loadData [mkEintrag 1001 "2024-03-08" "09:00" (Some "17:00")] []
                       (initial 2000))
  /\ ~ NoDup (map id (eintraege (handleAddFixedNoonEntry "2024-03-09"
                 (loadData [mkEintrag 1001 "2024-03-08" "09:00" (Some "17:00")]
                           [] (initial 1000))))).
Proof.
  split.
  - apply (proj1 (proj2 (restart_spec 2000 _ []))).
    split; [cbn; repeat constructor; cbn; intuition |].
    split; [intros e [<- | []]; cbn; lia |].
    split; [intros q [] |]. split; [intros q [] |].
    split; [intros p q [] | intros q []].
  - apply (proj2 (proj2 (restart_spec 1000 _ []))
             (mkEintrag 1001 "2024-03-08" "09:00" (Some "17:00")));
      [now left | reflexivity].
Defined.

End Sessions.

(* ================================================================== *)
(** * Stored entries are not altered *)

Section Kept.

Lemma split_entries_form (base : Eintrag) (k : Z) (x : Eintrag) :
  In x (entries (fst (createEntriesWithOptionalSplit base k))) ->
  x = base \/ k < id x.
Proof.
  destruct (ende base) as [e |] eqn:He.
  - destruct (String.eqb_spec e "") as [-> | Hne].
    + rewrite (split_absent base k) by (now right).
      intros [<- | []]. now left.
    + rewrite (split_present base e k He Hne).
      destruct (geb _ _ && leb _ _); cbn.
      * intros [<- | []]. now left.
      * intros [<- | [<- | []]]; right; cbn; lia.
  - rewrite (split_absent base k) by (now left).
    intros [<- | []]. now left.
Qed.

Lemma commitEdit_kept (l : list Eintrag) (ss : list SplitEntry)
    (base : Eintrag) (st st0 : App) (e : Eintrag) :
  (forall x, In x l -> In x (eintraege st0)) ->
  id base = NEXT_ID st0 + 1 ->
  In e (eintraege (commitEdit l ss (applyEdit st base) (NEXT_ID st0 + 1) st)) ->
  In e (eintraege st0) \/ NEXT_ID st0 < id e.
Proof.
  intros Sub Ib He.
  destruct (commitEdit_fields l ss (applyEdit st base) (NEXT_ID st0 + 1) st)
    as (C & _).
  rewrite C in He. apply (proj1 (sortById_In _ _)) in He.
  apply in_app_or in He. destruct He as [He | He]; [left; now apply Sub |].
  right. apply split_entries_form in He.
  destruct He as [-> | He]; [rewrite applyEdit_id; lia | lia].
Qed.

Lemma saveEdit_kept (eid : Z) (st : App) (e : Eintrag) :
  In e (eintraege (saveEdit eid st)) ->
  In e (eintraege st) \/ NEXT_ID st < id e.
Proof.
  unfold saveEdit.
  destruct (find _ (eintraege st)) as [original |]; [| now left].
  destruct (find _ (splits st)) as [p |].
  - destruct (find _ (eintraege st)) as [f |];
      [destruct (find _ (eintraege st)) as [s |] |];
      cbn [buildBaseFromSplit generateId bind ret];
      (apply commitEdit_kept;
       [intros x Hx; now apply filter_In in Hx | reflexivity]).
  - cbn [generateId]. apply commitEdit_kept;
      [intros x Hx; now apply filter_In in Hx | reflexivity].
Qed.

(** X18.  Stored entries are not altered in place.  Whatever the action,
    loading apart, an entry of the collection afterwards is an entry of the
    collection before, or has an id issued during the action, or, for
    [handleAddEnde] only, is an entry of the collection before with the
    given end set on it: closing alone keeps the id of the entry it
    changes, every edit gives new ids. *)
Theorem entries_not_altered (a : Action) (st : App) (e : Eintrag) :
  isLoad a = false -> In e (eintraege (step a st)) ->
  In e (eintraege st) \/ NEXT_ID st < id e
  \/ (exists now o, a = AddEnde now /\ In o (eintraege st)
        /\ e = {| id := id o; date := date o; start := start o;
                  ende := Some now |}).
Proof.
  intros L He. destruct a; try discriminate L; cbn [step] in He.
  - (* AddStart *)
    unfold handleAddStart in He.
    destruct (hasOpen _ && negb confirm); [now left |].
    cbn in He. apply (proj1 (sortById_In _ _)) in He.
    apply in_app_or in He.
    destruct He as [He | [<- | []]]; [now left | right; left; cbn; lia].
  - (* AddEnde *)
    unfold handleAddEnde in He.
    destruct (hasOpen _); [| now left].
    destruct (open_id _) as [oid |]; [| now left].
    destruct (find _ (eintraege st)) as [o |] eqn:Fo; [| now left].
    apply find_some in Fo. destruct Fo as [Io _].
    destruct (createEntriesWithOptionalSplit _ (NEXT_ID st)) as [r n] eqn:Er.
    cbn in He. apply (proj1 (sortById_In _ _)) in He.
    apply in_app_or in He. destruct He as [He | He].
    + left. now apply filter_In in He.
    + replace r with (fst (r, n)) in He by reflexivity.
      rewrite <- Er in He. apply split_entries_form in He.
      destruct He as [-> | He]; [| now (right; left)].
      right; right. exists currentTime, o. auto.
  - (* AddFixedNoon *)
    cbn in He. apply (proj1 (sortById_In _ _)) in He.
    apply in_app_or in He.
    destruct He as [He | [<- | []]]; [now left | right; left; cbn; lia].
  - (* StartEditing *)
    left. unfold startEditing in He. now destruct mode.
  - (* StepEdit *)
    left. unfold stepEdit in He. now destruct (editMode st).
  - (* SaveEdit *)
    unfold handleSaveEdit in He.
    destruct (editingEntryId st) as [eid |]; [| now left].
    destruct (negb _); [now left |].
    assert (S : In e (eintraege (saveEdit eid st)) ->
                In e (eintraege st) \/ NEXT_ID st < id e
                \/ (exists now o, SaveEdit = AddEnde now
                      /\ In o (eintraege st)
                      /\ e = {| id := id o; date := date o; start := start o;
                                ende := Some now |})).
    { intros H. destruct (saveEdit_kept eid st e H); auto. }
    destruct (editMode st), (String.eqb (editingStart st) ""),
      (String.eqb (editingEnde st) ""); auto.
  - (* CancelEdit *)
    now left.
  - (* Delete *)
    left. rewrite handleDeleteEntry_eintraege in He.
    apply (proj1 (sortById_In _ _)) in He.
    destruct (findSplit i (splits st)); now apply filter_In in He.
Qed.

Lemma entries_not_altered_witness :
  let st := mkApp 1001 [mkEintrag 1001 "2024-03-09" "09:00" None]
                  [] None none "" "" in
  let e := mkEintrag 1001 "2024-03-09" "09:00" (Some "17:00") in
  In e (eintraege st) \/ NEXT_ID st < id e
  \/ (exists now o, AddEnde "17:00" = AddEnde now /\ In o (eintraege st)
        /\ e = {| id := id o; date := date o; start := start o;
                  ende := Some now |}).
Proof.
  intros st e.
  apply (entries_not_altered (AddEnde "17:00") st e);
    [reflexivity | now left].
Defined.



End Kept.

(* ================================================================== *)
(** * The dates listed *)

Section DatesListed.

Lemma month_start (y m : Z) :
  1 <= m <= 11 ->
  days_from_civil y (m + 1) 1 = days_from_civil y m 1 + daysInMonth y m.
Proof.
  intros Hm. rewrite (next_month y m Hm).
  rewrite (days_from_civil_day y m (daysInMonth y m)). lia.
Qed.

Lemma daysInMonth_min (y m : Z) : 28 <= daysInMonth y m.
Proof.
  unfold daysInMonth. destruct (m =? 2); [destruct (isLeap y); lia |].
  destruct (_ || _); lia.
Qed.

Lemma month_start_mono (y m : Z) (k : nat) :
  1 <= m -> m + Z.of_nat k <= 12 ->
  days_from_civil y m 1 <= days_from_civil y (m + Z.of_nat k) 1.
Proof.
  intros Hm. induction k as [| k IH]; intros Hk.
  - rewrite Z.add_0_r. lia.
  - rewrite Nat2Z.inj_succ.
    replace (m + Z.succ (Z.of_nat k)) with (m + Z.of_nat k + 1) by lia.
    rewrite month_start by lia.
    pose proof (daysInMonth_min y (m + Z.of_nat k)). lia.
Qed.

Lemma year_start (y : Z) :
  days_from_civil (y + 1) 1 1 = days_from_civil y 12 1 + 31.
Proof. rewrite next_year, (days_from_civil_day y 12 31). lia. Qed.

Lemma year_start_mono (y : Z) (k : nat) :
  days_from_civil y 1 1 <= days_from_civil (y + Z.of_nat k) 1 1.
Proof.
  induction k as [| k IH].
  - rewrite Z.add_0_r. lia.
  - rewrite Nat2Z.inj_succ.
    replace (y + Z.succ (Z.of_nat k)) with (y + Z.of_nat k + 1) by lia.
    rewrite year_start.
    pose proof (month_start_mono (y + Z.of_nat k) 1 11 ltac:(lia) ltac:(lia)).
    cbn in H. lia.
Qed.

(** An earlier date of the calendar has a smaller day number. *)
Lemma days_from_civil_mono (y m d y' m' d' : Z) :
  1 <= m <= 12 -> 1 <= d <= daysInMonth y m ->
  1 <= m' <= 12 -> 1 <= d' <= daysInMonth y' m' ->
  y < y' \/ (y = y' /\ (m < m' \/ (m = m' /\ d <= d'))) ->
  days_from_civil y m d <= days_from_civil y' m' d'.
Proof.
  intros Hm Hd Hm' Hd' L.
  rewrite (days_from_civil_day y m d), (days_from_civil_day y' m' d').
  assert (Next : forall yy mm, 1 <= mm <= 12 ->
            days_from_civil yy mm 1 + daysInMonth yy mm
            <= days_from_civil (yy + 1) 1 1).
  { intros yy mm Hmm. rewrite year_start.
    destruct (Z.eq_dec mm 12) as [-> | N]; [cbn; lia |].
    rewrite <- (month_start yy mm) by lia.
    pose proof (month_start_mono yy (mm + 1) (Z.to_nat (12 - (mm + 1)))
                  ltac:(lia) ltac:(lia)) as M.
    replace (mm + 1 + Z.of_nat (Z.to_nat (12 - (mm + 1)))) with 12 in M
      by lia.
    lia. }
  destruct L as [L | [<- [L | [<- L]]]].
  - pose proof (Next y m Hm) as N1.
    pose proof (year_start_mono (y + 1) (Z.to_nat (y' - (y + 1)))) as N2.
    replace (y + 1 + Z.of_nat (Z.to_nat (y' - (y + 1)))) with y' in N2 by lia.
    pose proof (month_start_mono y' 1 (Z.to_nat (m' - 1)) ltac:(lia)
                  ltac:(lia)) as N3.
    replace (1 + Z.of_nat (Z.to_nat (m' - 1))) with m' in N3 by lia.
    lia.
  - pose proof (month_start y m ltac:(lia)) as N1.
    pose proof (month_start_mono y (m + 1) (Z.to_nat (m' - (m + 1)))
                  ltac:(lia) ltac:(lia)) as N2.
    replace (m + 1 + Z.of_nat (Z.to_nat (m' - (m + 1)))) with m' in N2 by lia.
    lia.
  - lia.
Qed.

(** A later day is a later date of the calendar. *)
Lemma civil_from_days_lt (z1 z2 : Z) :
  z1 < z2 ->
  let c1 := civil_from_days z1 in
  let c2 := civil_from_days z2 in
  fst (fst c1) < fst (fst c2)
  \/ (fst (fst c1) = fst (fst c2)
      /\ (snd (fst c1) < snd (fst c2)
          \/ (snd (fst c1) = snd (fst c2) /\ snd c1 < snd c2))).
Proof.
  intros L c1 c2.
  destruct (civil_from_days_valid z1) as [Hm1 Hd1].
  destruct (civil_from_days_valid z2) as [Hm2 Hd2].
  pose proof (days_of_civil_of_days z1) as R1.
  pose proof (days_of_civil_of_days z2) as R2.
  fold c1 in Hm1, Hd1, R1. fold c2 in Hm2, Hd2, R2.
  destruct c1 as [[y1 m1] d1], c2 as [[y2 m2] d2]. cbn [fst snd] in *.
  destruct (Z.lt_trichotomy y1 y2) as [Y | [Y | Y]]; [now left | |].
  - subst y2. right. split; [reflexivity |].
    destruct (Z.lt_trichotomy m1 m2) as [M | [M | M]]; [now left | |].
    + subst m2. right. split; [reflexivity |].
      destruct (Z_lt_le_dec d1 d2) as [D | D]; [exact D | exfalso].
      pose proof (days_from_civil_mono y1 m1 d2 y1 m1 d1 Hm1 Hd2 Hm1 Hd1
                    ltac:(right; split; [reflexivity | right; split;
                                         [reflexivity | exact D]])).
      lia.
    + exfalso.
      pose proof (days_from_civil_mono y1 m2 d2 y1 m1 d1 Hm2 Hd2 Hm1 Hd1
                    ltac:(right; split; [reflexivity | now left])).
      lia.
  - exfalso.
    pose proof (days_from_civil_mono y2 m2 d2 y1 m1 d1 Hm2 Hd2 Hm1 Hd1
                  ltac:(now left)).
    lia.
Qed.

(** Strings of digits of one length compare as the numbers they write. *)
Lemma digit_of_inj (a b : ascii) (d : Z) :
  digit_of a = Some d -> digit_of b = Some d -> a = b.
Proof.
  unfold digit_of.
  destruct ((48 <=? N_of_ascii a)%N && (N_of_ascii a <=? 57)%N) eqn:Ea;
    [| discriminate].
  destruct ((48 <=? N_of_ascii b)%N && (N_of_ascii b <=? 57)%N) eqn:Eb;
    [| discriminate].
  intros Ha Hb. apply Some_eq in Ha. apply Some_eq in Hb.
  apply andb_true_iff in Ea. destruct Ea as [Ea _]. apply N.leb_le in Ea.
  apply andb_true_iff in Eb. destruct Eb as [Eb _]. apply N.leb_le in Eb.
  rewrite <- (ascii_N_embedding a), <- (ascii_N_embedding b).
  f_equal. lia.
Qed.

Lemma digit_of_lt (a b : ascii) (d e : Z) :
  digit_of a = Some d -> digit_of b = Some e -> d < e ->
  Ascii.compare a b = Lt.
Proof.
  unfold digit_of, Ascii.compare.
  destruct ((48 <=? N_of_ascii a)%N && (N_of_ascii a <=? 57)%N) eqn:Ea;
    [| discriminate].
  destruct ((48 <=? N_of_ascii b)%N && (N_of_ascii b <=? 57)%N) eqn:Eb;
    [| discriminate].
  intros Ha Hb L. apply Some_eq in Ha. apply Some_eq in Hb.
  apply N.compare_lt_iff. lia.
Qed.

Lemma digits_value_acc_lt (s1 s2 : string) (a1 a2 v1 v2 : Z) :
  String.length s1 = String.length s2 -> a1 < a2 ->
  digits_value a1 s1 = Some v1 -> digits_value a2 s2 = Some v2 -> v1 < v2.
Proof.
  revert s2 a1 a2. induction s1 as [| c1 s1 IH]; intros [| c2 s2] a1 a2 L A;
    try discriminate L.
  - rewrite !digits_value_nil. intros H1 H2.
    apply Some_eq in H1. apply Some_eq in H2. lia.
  - rewrite !digits_value_cons.
    destruct (digit_of c1) as [d1 |] eqn:E1; [| discriminate].
    destruct (digit_of c2) as [d2 |] eqn:E2; [| discriminate].
    apply digit_of_bounds in E1. apply digit_of_bounds in E2.
    apply IH; [now injection L | lia].
Qed.

Lemma digits_compare (s1 s2 : string) (a v1 v2 : Z) :
  String.length s1 = String.length s2 ->
  digits_value a s1 = Some v1 -> digits_value a s2 = Some v2 -> v1 < v2 ->
  String.compare s1 s2 = Lt.
Proof.
  revert s2 a. induction s1 as [| c1 s1 IH]; intros [| c2 s2] a L;
    try discriminate L.
  - rewrite !digits_value_nil. intros H1 H2.
    apply Some_eq in H1. apply Some_eq in H2. lia.
  - rewrite !digits_value_cons.
    destruct (digit_of c1) as [d1 |] eqn:E1; [| discriminate].
    destruct (digit_of c2) as [d2 |] eqn:E2; [| discriminate].
    intros H1 H2 Lt. cbn [String.compare].
    destruct (Z.lt_trichotomy d1 d2) as [D | [D | D]].
    + now rewrite (digit_of_lt c1 c2 d1 d2 E1 E2 D).
    + subst d2. rewrite (digit_of_inj c1 c2 d1 E1 E2).
      unfold Ascii.compare. rewrite N.compare_refl.
      apply (IH s2 (10 * a + d1)); [now injection L | | | exact Lt]; assumption.
    + exfalso.
      pose proof (digits_value_acc_lt s2 s1 (10 * a + d2) (10 * a + d1) v2 v1
                    ltac:(now injection L) ltac:(lia) H2 H1).
      lia.
Qed.

Lemma compare_refl (s : string) : String.compare s s = Eq.
Proof.
  induction s as [| c s IH]; [reflexivity |].
  cbn [String.compare]. unfold Ascii.compare. now rewrite N.compare_refl.
Qed.

Lemma compare_append (p1 p2 r1 r2 : string) :
  String.length p1 = String.length p2 ->
  String.compare (p1 ++ r1) (p2 ++ r2)
  = match String.compare p1 p2 with
    | Eq => String.compare r1 r2
    | c => c
    end.
Proof.
  revert p2. induction p1 as [| c1 p1 IH]; intros [| c2 p2] L;
    try discriminate L; [reflexivity |].
  cbn [append String.compare].
  destruct (Ascii.compare c1 c2); [| reflexivity | reflexivity].
  apply IH. now injection L.
Qed.

(** In the years written with four digits, a later day is written as a
    later string. *)
Lemma isoDay_lt (z1 z2 : Z) :
  plainYear z1 -> plainYear z2 -> z1 < z2 ->
  String.compare (isoDay z1) (isoDay z2) = Lt.
Proof.
  unfold plainYear. intros P1 P2 L.
  pose proof (civil_from_days_lt z1 z2 L) as C. cbv zeta in C.
  destruct (civil_from_days_valid z1) as [Hm1 Hd1].
  destruct (civil_from_days_valid z2) as [Hm2 Hd2].
  unfold isoDay. cbv zeta.
  destruct (civil_from_days z1) as [[y1 m1] d1].
  destruct (civil_from_days z2) as [[y2 m2] d2]. cbn [fst snd] in *.
  pose proof (daysInMonth_max y1 m1). pose proof (maxDay_31 m1).
  pose proof (daysInMonth_max y2 m2). pose proof (maxDay_31 m2).
  assert (IY : forall y, 1970 <= y <= 2399 -> isoYear y = padN 4 y).
  { intros y Hy. unfold isoYear.
    now rewrite (proj2 (Z.leb_le 0 y)), (proj2 (Z.leb_le y 9999)) by lia. }
  rewrite (IY y1 P1), (IY y2 P2).
  destruct (pad4_reads y1 P1) as (a1 & b1 & c1 & e1 & Y1 & V1).
  destruct (pad4_reads y2 P2) as (a2 & b2 & c2 & e2 & Y2 & V2).
  destruct (pad2_reads m1 ltac:(lia)) as (f1 & g1 & M1 & W1).
  destruct (pad2_reads m2 ltac:(lia)) as (f2 & g2 & M2 & W2).
  destruct (pad2_reads d1 ltac:(lia)) as (h1 & i1 & D1 & X1).
  destruct (pad2_reads d2 ltac:(lia)) as (h2 & i2 & D2 & X2).
  destruct C as [C | [-> [C | [-> C]]]].
  - rewrite compare_append by (now rewrite Y1, Y2).
    rewrite Y1, Y2.
    pose proof (fun E => digits_compare _ _ 0 y1 y2 E V1 V2 C) as K.
    now rewrite (K eq_refl).
  - rewrite compare_append, compare_refl by reflexivity.
    cbn [append String.compare]. unfold Ascii.compare at 1.
    rewrite N.compare_refl.
    rewrite compare_append by (now rewrite M1, M2).
    rewrite M1, M2.
    pose proof (fun E => digits_compare _ _ 0 m1 m2 E W1 W2 C) as K.
    now rewrite (K eq_refl).
  - rewrite compare_append, compare_refl by reflexivity.
    cbn [append String.compare]. unfold Ascii.compare at 1.
    rewrite N.compare_refl.
    rewrite compare_append, compare_refl by reflexivity.
    cbn [append String.compare]. unfold Ascii.compare at 1.
    rewrite N.compare_refl.
    rewrite D1, D2.
    pose proof (fun E => digits_compare _ _ 0 d1 d2 E X1 X2 C) as K.
    now rewrite (K eq_refl).
Qed.

Lemma isoDay_leb (z1 z2 : Z) :
  plainYear z1 -> plainYear z2 ->
  String.leb (isoDay z1) (isoDay z2) = true -> z1 <= z2.
Proof.
  intros P1 P2 H.
  destruct (Z_le_gt_dec z1 z2) as [L | G]; [exact L | exfalso].
  unfold String.leb in H.
  rewrite String.compare_antisym, (isoDay_lt z2 z1 P2 P1 ltac:(lia)) in H.
  discriminate H.
Qed.

Lemma mapThrow_some {A B : Type} (f : A -> option B) (g : A -> B)
    (l : list A) :
  (forall x, In x l -> f x = Some (g x)) -> mapThrow f l = Some (map g l).
Proof.
  induction l as [| x l IH]; intros H; [reflexivity |].
  cbn [mapThrow map]. rewrite (H x (or_introl eq_refl)).
  now rewrite IH by (intros y Hy; apply H; now right).
Qed.

Lemma mapThrow_none {A B : Type} (f : A -> option B) (l : list A) (x : A) :
  In x l -> f x = None -> mapThrow f l = None.
Proof.
  induction l as [| y l IH]; intros Hx N; [contradiction |].
  cbn [mapThrow]. destruct Hx as [-> | Hx]; [now rewrite N |].
  destruct (f y); [| reflexivity]. now rewrite (IH Hx N).
Qed.

Lemma addOnce_spec (seen : list string) (x : string) :
  (forall y, In y (addOnce seen x) <-> In y seen \/ y = x)
  /\ (NoDup seen -> NoDup (addOnce seen x)).
Proof.
  unfold addOnce. destruct (existsb (String.eqb x) seen) eqn:E.
  - apply existsb_exists in E. destruct E as (w & Hw & Ew).
    apply String.eqb_eq in Ew. subst w.
    split; [| auto]. intros y. split; [now left |].
    intros [H | ->]; assumption.
  - split.
    + intros y. rewrite in_app_iff. cbn. intuition.
    + intros N. apply NoDup_app; [exact N | repeat constructor; intros [] |].
      intros y Hy [Exy | []]. subst y.
      assert (X : existsb (String.eqb x) seen = true)
        by (apply existsb_exists; exists x; split;
            [exact Hy | apply String.eqb_refl]).
      rewrite X in E. discriminate E.
Qed.

Lemma setOf_spec (xs acc : list string) :
  (forall y, In y (fold_left addOnce xs acc) <-> In y acc \/ In y xs)
  /\ (NoDup acc -> NoDup (fold_left addOnce xs acc)).
Proof.
  revert acc. induction xs as [| x xs IH]; intros acc; cbn [fold_left].
  - split; [intros y; cbn; tauto | auto].
  - destruct (IH (addOnce acc x)) as [I1 I2].
    destruct (addOnce_spec acc x) as [A1 A2].
    split.
    + intros y. rewrite I1, A1. cbn. intuition.
    + intros N. apply I2, A2, N.
Qed.

Lemma insertStr_perm (x : string) (l : list string) :
  Permutation (insertStr x l) (x :: l).
Proof.
  induction l as [| y l IH]; cbn [insertStr]; [reflexivity |].
  destruct (String.leb x y); [reflexivity |].
  rewrite IH. apply perm_swap.
Qed.

Lemma sortStr_perm (l : list string) : Permutation (sortStr l) l.
Proof.
  induction l as [| x l IH]; [reflexivity |].
  cbn [sortStr fold_right]. fold (sortStr l).
  rewrite insertStr_perm. now constructor.
Qed.

Lemma insertStr_sorted (x : string) (l : list string) :
  Sorted (fun a b => String.leb a b = true) l ->
  Sorted (fun a b => String.leb a b = true) (insertStr x l).
Proof.
  induction 1 as [| y l Hs IH Hy]; cbn [insertStr].
  - repeat constructor.
  - destruct (String.leb x y) eqn:E.
    + constructor; [now constructor | now constructor].
    + assert (Lyx : String.leb y x = true)
        by (destruct (String.leb_total x y) as [T | T];
            [rewrite T in E; discriminate E | exact T]).
      constructor; [exact IH |].
      destruct l as [| w l]; cbn [insertStr]; [now constructor |].
      destruct (String.leb x w); constructor; [exact Lyx |].
      now inversion Hy.
Qed.

Lemma sortStr_sorted (l : list string) :
  Sorted (fun a b => String.leb a b = true) (sortStr l).
Proof.
  induction l as [| x l IH]; [constructor |].
  cbn [sortStr fold_right]. now apply insertStr_sorted.
Qed.

Lemma dayOf_isoDay (z : Z) : plainYear z -> dayOf (isoDay z) = z.
Proof.
  intros P. unfold dayOf. now rewrite (proj2 (parseDay_isoDay z P)).
Qed.

(** A list of dates written by the calendar, sorted as strings, is sorted
    by day. *)
Lemma sorted_days (ds : list string) :
  (forall d, In d ds -> exists z, plainYear z /\ d = isoDay z) ->
  Sorted (fun a b => String.leb a b = true) ds ->
  Sorted Z.le (map dayOf ds) /\ map isoDay (map dayOf ds) = ds.
Proof.
  intros H S. induction S as [| d ds S IH Hd]; [split; constructor |].
  destruct (IH (fun x Hx => H x (or_intror Hx))) as [I1 I2].
  destruct (H d (or_introl eq_refl)) as (z & Pz & ->).
  cbn [map]. rewrite (dayOf_isoDay z Pz), I2.
  split; [| reflexivity].
  constructor; [exact I1 |].
  destruct ds as [| d' ds]; [constructor |]. cbn [map]. constructor.
  destruct (H d' (or_intror (or_introl eq_refl))) as (z' & Pz' & ->).
  rewrite (dayOf_isoDay z' Pz'). inversion Hd; subst.
  now apply isoDay_leb.
Qed.

Lemma strictly_sorted (l : list Z) :
  StronglySorted Z.le l -> NoDup l -> StronglySorted Z.lt l.
Proof.
  induction 1 as [| x l S IH Hx]; intros N; [constructor |].
  inversion N as [| ? ? Nx Nl]; subst.
  constructor; [now apply IH |].
  rewrite Forall_forall in *. intros y Hy.
  specialize (Hx y Hy).
  assert (x <> y) by (intros ->; contradiction). lia.
Qed.

Lemma sorted_rev (l : list Z) :
  StronglySorted Z.lt l -> StronglySorted (fun a b => b < a) (rev l).
Proof.
  induction 1 as [| x l S IH Hx]; [constructor |].
  cbn [rev].
  assert (G : forall l1 : list Z,
            StronglySorted (fun a b => b < a) l1 ->
            Forall (fun y => x < y) l1 ->
            StronglySorted (fun a b => b < a) (l1 ++ [x])).
  { induction 1 as [| y l1 S1 IH1 Hy]; intros F; cbn [app].
    - repeat constructor.
    - inversion F; subst. constructor; [now apply IH1 |].
      apply Forall_app. split; [exact Hy | now repeat constructor]. }
  apply G; [exact IH |].
  rewrite Forall_forall in *. intros y Hy. apply Hx. now apply in_rev.
Qed.

(** X20.  [uniqueDates], the dates under which the entries are listed.
    When the adjusted date of an entry cannot be computed, the list cannot
    be either.  When the adjusted date of every entry is a date as the
    calendar writes it (in the years 1970 to 2399), the list holds exactly
    the adjusted dates of the entries, each once, the latest day first: the
    order of strings is the order of days. *)
Theorem uniqueDates_spec (host : Host) (l : list Eintrag)
    (ss : list SplitEntry) :
  ((exists e, In e l /\ getAdjustedDateForEntry host e ss = None) ->
   uniqueDates host l ss = None)
  /\ (forall day : Eintrag -> Z,
       (forall e, In e l ->
          getAdjustedDateForEntry host e ss = Some (isoDay (day e))
          /\ plainYear (day e)) ->
       exists zs,
         uniqueDates host l ss = Some (map isoDay zs)
         /\ StronglySorted (fun a b => b < a) zs
         /\ NoDup (map isoDay zs)
         /\ (forall z, In z zs <-> exists e, In e l /\ day e = z)).
Proof.
  split.
  { intros (e & He & N). unfold uniqueDates.
    now rewrite (mapThrow_none _ l e He N). }
  intros day H. unfold uniqueDates.
  rewrite (mapThrow_some _ (fun e => isoDay (day e)) l)
    by (intros e He; apply H, He).
  cbn [option_map].
  set (ds0 := map (fun e => isoDay (day e)) l).
  set (ds := sortStr (setOf ds0)).
  destruct (setOf_spec ds0 []) as [U1 U2]. fold (setOf ds0) in U1, U2.
  assert (Mem : forall d, In d ds <-> exists e, In e l /\ d = isoDay (day e)).
  { intros d. unfold ds.
    split.
    - intros Hd. apply (Permutation_in _ (sortStr_perm _)) in Hd.
      apply U1 in Hd. destruct Hd as [[] | Hd].
      unfold ds0 in Hd. apply in_map_iff in Hd.
      destruct Hd as (e & E & He). exists e. auto.
    - intros (e & He & ->).
      apply (Permutation_in _ (Permutation_sym (sortStr_perm _))).
      apply U1. right. unfold ds0. apply in_map_iff. exists e. auto. }
  assert (Iso : forall d, In d ds -> exists z, plainYear z /\ d = isoDay z).
  { intros d Hd. apply Mem in Hd. destruct Hd as (e & He & ->).
    exists (day e). split; [apply H, He | reflexivity]. }
  assert (ND : NoDup ds).
  { unfold ds. apply (Permutation_NoDup (Permutation_sym (sortStr_perm _))).
    apply U2. constructor. }
  destruct (sorted_days ds Iso (sortStr_sorted _)) as [S1 S2].
  fold ds in S1, S2.
  set (zs := map dayOf ds) in *.
  assert (NZ : NoDup zs).
  { apply (NoDup_map_inv isoDay). now rewrite S2. }
  assert (SS : StronglySorted Z.lt zs).
  { apply strictly_sorted; [| exact NZ].
    apply Sorted_StronglySorted; [| exact S1].
    intros a b c. apply Z.le_trans. }
  exists (rev zs).
  split; [now rewrite map_rev, S2 |].
  split; [now apply sorted_rev |].
  split; [rewrite map_rev, S2; now apply NoDup_rev |].
  intros z. rewrite <- in_rev. unfold zs. rewrite in_map_iff.
  split.
  - intros (d & E & Hd). apply Mem in Hd. destruct Hd as (e & He & ->).
    exists e. split; [exact He |].
    rewrite <- E. symmetry. apply dayOf_isoDay, H, He.
  - intros (e & He & <-). exists (isoDay (day e)).
    split; [apply dayOf_isoDay, H, He |].
    apply Mem. exists e. auto.
Qed.

Lemma uniqueDates_spec_witness :
  (exists zs,
     uniqueDates (fixedZone 3600000)
       [mkEintrag 1003 "2024-03-08" "13:00" (Some "14:00");
        mkEintrag 1002 "2024-03-09" "09:00" (Some "12:00");
        mkEintrag 1001 "2024-03-08" "09:00" (Some "12:00")] []
     = Some (map isoDay zs)
     /\ StronglySorted (fun a b => b < a) zs)
  /\ uniqueDates (fixedZone 3600000)
       [mkEintrag 1003 "2024-03-08" "13:00" (Some "14:00");
        mkEintrag 1002 "2024-03-09" "09:00" (Some "12:00");
        mkEintrag 1001 "2024-03-08" "09:00" (Some "12:00")] []
     = Some ["2024-03-09"; "2024-03-08"]
  /\ uniqueDates (fixedZone 3600000)
       [mkEintrag 1003 "not a date" "00:00" (Some "00:10");
        mkEintrag 1002 "not a date" "23:50" (Some "24:00")]
       [mkSplit "1002-1003" 1002 1003] = None.
Proof.
  split.
  - destruct (uniqueDates_spec (fixedZone 3600000)
                [mkEintrag 1003 "2024-03-08" "13:00" (Some "14:00");
                 mkEintrag 1002 "2024-03-09" "09:00" (Some "12:00");
                 mkEintrag 1001 "2024-03-08" "09:00" (Some "12:00")] [])
      as [_ H].
    destruct (H (fun e => if id e =? 1002 then 19791 else 19790))
      as (zs & E & S & _).
    + intros e [<- | [<- | [<- | []]]]; split; try reflexivity;
        unfold plainYear; vm_compute; split; discriminate.
    + exists zs. split; assumption.
  - split; [reflexivity |].
    apply (proj1 (uniqueDates_spec (fixedZone 3600000) _ _)).
    exists (mkEintrag 1003 "not a date" "00:00" (Some "00:10")).
    split; [now left | reflexivity].
Defined.

End DatesListed.
